(** * Smart Content Aggregator: the recommendation engine

    A shallow embedding of [RecommendationService] and of the entry point of
    [RecommendationController], together with the parts of the JavaScript
    runtime and of the three storage services they call, followed by the
    properties of the engine.

    Conventions of the embedding.
    - A JavaScript string is a [string]; [toLowerCase] folds the ASCII
      letters [A-Z] and leaves every other character as it is.
    - A JavaScript number is an exact rational ([Q]) when it can be fractional
      (scores) and an integer ([Z]) when it is a count or a limit.  The engine
      only adds small integers and multiplies by [0.5] and [0.1]; statements
      about scores use the rational equality [==].
    - A thrown [Error] is the left summand of a sum carrying its message.
    - An identifier is the string of 24 hexadecimal digits that an
      [ObjectId] prints as.  A query that [populate] and [lean()] follow
      returns plain objects in which the populated path holds the document
      referred to, or [null] when there is none; [toString()] of such a
      path is then not the identifier. *)

From Stdlib Require Import List String Ascii Bool ZArith QArith Qround Lia Lqa.
From Stdlib Require Import Permutation Sorted DecimalString.
Import ListNotations.

Local Open Scope list_scope.

(** ** The JavaScript primitives the services use *)

Module JS.

(** [c] is one of the letters [A-Z]. *)
Definition isUpper (c : ascii) : bool :=
  let n := N_of_ascii c in ((65 <=? n) && (n <=? 90))%N.

Definition lowerChar (c : ascii) : ascii :=
  if isUpper c then ascii_of_N (N_of_ascii c + 32) else c.

(** [s.toLowerCase()] *)
Fixpoint toLowerCase (s : string) : string :=
  match s with
  | EmptyString => EmptyString
  | String c s' => String (lowerChar c) (toLowerCase s')
  end.

(** [hay.startsWith(needle)] *)
Fixpoint startsWith (hay needle : string) {struct needle} : bool :=
  match needle, hay with
  | EmptyString, _ => true
  | String _ _, EmptyString => false
  | String a needle', String b hay' => Ascii.eqb a b && startsWith hay' needle'
  end.

(** [hay.includes(needle)]: [needle] occurs at some position of [hay]. *)
Fixpoint includes (hay needle : string) : bool :=
  startsWith hay needle ||
  match hay with
  | EmptyString => false
  | String _ hay' => includes hay' needle
  end.

(** [parts.join(sep)] *)
Fixpoint join (sep : string) (parts : list string) : string :=
  match parts with
  | [] => EmptyString
  | [p] => p
  | p :: rest => (p ++ sep ++ join sep rest)%string
  end.

(** [l.length] *)
Definition len {A : Type} (l : list A) : Z := Z.of_nat (List.length l).

(** [l.slice(0, limit)] for an integer [limit]: a negative [limit] counts
    from the end of the array. *)
Definition slice0 {A : Type} (limit : Z) (l : list A) : list A :=
  if (limit <? 0)%Z
  then firstn (Z.to_nat (Z.max (len l + limit) 0)) l
  else firstn (Z.to_nat limit) l.

(** [l.sort(cmp)], which is stable.  [after x y] stands for [cmp(x, y) > 0]:
    [x] has to come after [y].  An element is placed in front of the first
    element it does not have to come after, so equal elements keep their
    order. *)
Section Sort.
Context {A : Type} (after : A -> A -> bool).

Fixpoint place (x : A) (l : list A) : list A :=
  match l with
  | [] => [x]
  | y :: l' => if after x y then y :: place x l' else x :: y :: l'
  end.

Definition sort (l : list A) : list A := fold_right place [] l.
End Sort.

(** A [Map<string, V>]: the entries in the order in which their keys were
    first set, which is the order [entries()] iterates in. *)
Section StringMap.
Context {V : Type}.

Definition Map := list (string * V).

(** [m.get(k)] *)
Fixpoint get (m : Map) (k : string) : option V :=
  match m with
  | [] => None
  | (k', v) :: m' => if String.eqb k' k then Some v else get m' k
  end.

(** [m.set(k, v)] *)
Fixpoint set (m : Map) (k : string) (v : V) : Map :=
  match m with
  | [] => [(k, v)]
  | (k', v') :: m' =>
      if String.eqb k' k then (k', v) :: m' else (k', v') :: set m' k v
  end.
End StringMap.

(** A [Set<string>], which the services observe through [has] only. *)
Definition has (s : list string) (x : string) : bool :=
  existsb (String.eqb x) s.

(** [q > 0] *)
Definition gt0 (q : Q) : bool :=
  match Qcompare q 0 with Gt => true | _ => false end.

(** The template literal [`${n}`] of an integer. *)
Definition numberToString (n : Z) : string :=
  DecimalString.NilZero.string_of_int (Z.to_int n).

(** [parseInt(s)] on ASCII input; [None] is [NaN].  Leading white space is
    skipped, a sign and a [0x] prefix are read, and the longest run of
    digits of the radix is the value. *)
Definition isWhiteSpace (c : ascii) : bool :=
  let n := N_of_ascii c in ((n =? 32) || ((9 <=? n) && (n <=? 13)))%N.

Fixpoint trimStart (s : string) : string :=
  match s with
  | String c s' => if isWhiteSpace c then trimStart s' else s
  | EmptyString => EmptyString
  end.

(** [s.trim()] on ASCII input. *)
Fixpoint trimEnd (s : string) : string :=
  match s with
  | EmptyString => EmptyString
  | String c s' =>
      match trimEnd s' with
      | EmptyString => if isWhiteSpace c then EmptyString else String c EmptyString
      | rest => String c rest
      end
  end.

Definition trim (s : string) : string := trimEnd (trimStart s).

Definition digitValue (c : ascii) : option Z :=
  let n := Z.of_N (N_of_ascii c) in
  if ((48 <=? n) && (n <=? 57))%Z then Some (n - 48)%Z
  else if ((97 <=? n) && (n <=? 122))%Z then Some (n - 87)%Z
  else if ((65 <=? n) && (n <=? 90))%Z then Some (n - 55)%Z
  else None.

Fixpoint parseDigits (radix : Z) (s : string) (acc : option Z) : option Z :=
  match s with
  | EmptyString => acc
  | String c s' =>
      match digitValue c with
      | Some d =>
          if (d <? radix)%Z
          then parseDigits radix s'
                 (Some (match acc with Some a => a * radix + d | None => d end)%Z)
          else acc
      | None => acc
      end
  end.

Definition parseInt (s : string) : option Z :=
  let s1 := trimStart s in
  let '(sign, s2) :=
    match s1 with
    | String "-"%char r => ((-1)%Z, r)
    | String "+"%char r => (1%Z, r)
    | _ => (1%Z, s1)
    end in
  let '(radix, s3) :=
    match s2 with
    | String "0"%char (String "x"%char r) => (16%Z, r)
    | String "0"%char (String "X"%char r) => (16%Z, r)
    | _ => (10%Z, s2)
    end in
  option_map (Z.mul sign) (parseDigits radix s3 None).

(** [Math.floor(a / b)] and [Math.ceil(a / b)] of two natural numbers;
    [None] stands for the result when [b] is 0, which is not a finite
    number. *)
Definition floorDiv (a b : nat) : option Z :=
  if (b =? 0)%nat then None else Some (Qfloor (Z.of_nat a # Pos.of_nat b)).

Definition ceilDiv (a b : nat) : option Z :=
  if (b =? 0)%nat then None else Some (Qceiling (Z.of_nat a # Pos.of_nat b)).

(** [o.toString()] of a plain object, which is [Object.prototype.toString]. *)
Definition objectToString : string := "[object Object]".

(** The message of the [TypeError] that reading the property [name] of
    [null] throws. *)
Definition nullProperty (name : string) : string :=
  ("Cannot read properties of null (reading '" ++ name ++ "')")%string.

End JS.

(** ** What Mongoose does with identifiers and references *)

Module Mongoose.
Local Open Scope string_scope.

Definition isHexDigit (c : ascii) : bool :=
  let n := N_of_ascii c in
  (((48 <=? n) && (n <=? 57)) || ((97 <=? n) && (n <=? 102))
   || ((65 <=? n) && (n <=? 70)))%N.

(** The cast of a string of a query to [ObjectId], as the constructor of
    the driver does it for a string: a string of 24 hexadecimal digits is
    accepted, and the identifier it stands for prints in lower case; any
    other string is refused. *)
Definition castObjectId (value : string) : option string :=
  if (String.length value =? 24)%nat
     && forallb isHexDigit (list_ascii_of_string value)
  then Some (JS.toLowerCase value)
  else None.

Definition quote : string := String (ascii_of_nat 34) EmptyString.

(** The message of the [CastError] of a query on the model [model] whose
    value for [path] is refused. *)
Definition castError (value path model : string) : string :=
  "Cast to ObjectId failed for value " ++ quote ++ value ++ quote
  ++ " (type string) at path " ++ quote ++ path ++ quote
  ++ " for model " ++ quote ++ model ++ quote.

(** The value of a reference path of a document read with [lean()]: the
    identifier, or, once the path has been populated, the plain object of
    the document referred to with the selected fields, or [null] when the
    collection holds no such document. *)
Inductive Ref :=
| objectId (id : string)
| document (fields : list (string * option string))
| null.

(** [ref.toString()] *)
Definition toString (ref : Ref) : string + string :=
  match ref with
  | objectId id => inr id
  | document _ => inr JS.objectToString
  | null => inl (JS.nullProperty "toString")
  end.

End Mongoose.

(** ** The utility functions of [utils/index.ts] *)

Module Utils.
Local Open Scope string_scope.

(** The longest run of characters that satisfy [p] at the start of [s], and
    what follows it. *)
Fixpoint takeWhile (p : ascii -> bool) (s : string) : string :=
  match s with
  | String c s' => if p c then String c (takeWhile p s') else EmptyString
  | EmptyString => EmptyString
  end.

Fixpoint dropWhile (p : ascii -> bool) (s : string) : string :=
  match s with
  | String c s' => if p c then dropWhile p s' else s
  | EmptyString => EmptyString
  end.

Definition isNot (c : ascii) (x : ascii) : bool := negb (Ascii.eqb x c).

(** [s.split(sep)] for a separator of one character. *)
Fixpoint split (sep : ascii) (s : string) : list string :=
  match s with
  | EmptyString => [EmptyString]
  | String c s' =>
      if Ascii.eqb c sep then EmptyString :: split sep s'
      else match split sep s' with
           | part :: parts => String c part :: parts
           | [] => [String c EmptyString]
           end
  end.

(** The group of [hostPart.match(/\/([^?]+)/)]: at the first slash that is
    followed by a character other than the question mark, the characters
    up to the next question mark. *)
Fixpoint dbMatch (hostPart : string) : option string :=
  match hostPart with
  | EmptyString => None
  | String c rest =>
      if Ascii.eqb c "/"
      then match takeWhile (isNot "?") rest with
           | EmptyString => dbMatch rest
           | run => Some run
           end
      else dbMatch rest
  end.

(** The group of [hostPart.match(/^([^/?]+)/)]. *)
Definition hostMatch (hostPart : string) : option string :=
  match takeWhile (fun c => isNot "/" c && isNot "?" c) hostPart with
  | EmptyString => None
  | run => Some run
  end.

(** [uri.replace(/\/\/[^@]+@/, '//***:***@')]: the first two slashes that
    are followed by at least one character other than the at sign and then
    by an at sign are replaced together with what they are followed by. *)
Fixpoint replaceCredentials (uri : string) : string :=
  match uri with
  | EmptyString => EmptyString
  | String c rest =>
      match rest with
      | String c' rest' =>
          if Ascii.eqb c "/" && Ascii.eqb c' "/"
          then match takeWhile (isNot "@") rest', dropWhile (isNot "@") rest' with
               | String _ _, String _ after => "//***:***@" ++ after
               | _, _ => String c (replaceCredentials rest)
               end
          else String c (replaceCredentials rest)
      | EmptyString => String c EmptyString
      end
  end.

Definition maskDatabaseUri (uri : string) : string :=
  if String.eqb uri "" then "Not configured"
  else
    let fallback := replaceCredentials uri in
    if JS.includes uri "mongodb+srv://" || JS.includes uri "mongodb://" then
      let protocol :=
        if JS.startsWith uri "mongodb+srv://" then "mongodb+srv://" else "mongodb://" in
      let hasCredentials := JS.includes uri "@" in
      if hasCredentials then
        match split "@" uri with
        | _ :: hostPart :: _ =>
            if String.eqb hostPart "" then fallback
            else
              let dbName := match dbMatch hostPart with Some d => d | None => "" end in
              let host :=
                match hostMatch hostPart with
                | Some h => h
                | None => match split "/" hostPart with h :: _ => h | [] => "" end
                end in
              protocol ++ "***:***@" ++ host
                ++ (if String.eqb dbName "" then "" else "/" ++ dbName)
        | _ => fallback
        end
      else uri
    else fallback.

Record DatabaseInfo := { type : string; status : string; masked : string }.

Definition getDatabaseInfo (uri : string) : DatabaseInfo :=
  let masked := maskDatabaseUri uri in
  let type :=
    if JS.includes uri "mongodb+srv://" then "MongoDB Atlas"
    else if JS.includes uri "mongodb://" then
      if JS.includes uri "localhost" then "MongoDB Local" else "MongoDB"
    else "Unknown" in
  {| type := type; status := "Connected"; masked := masked |}.

Definition validPrefixes : list string :=
  ["mongodb://"; "mongodb+srv://"; "postgresql://"; "mysql://"; "sqlite:"].

Definition isValidDatabaseUri (uri : string) : bool :=
  if String.eqb uri "" then false
  else existsb (fun prefix => JS.startsWith uri prefix) validPrefixes.

End Utils.

(** ** The documents of the three collections *)

Module Article.
(** [IArticleDocument] *)
Record t := {
  _id : string;
  title : string;
  content : string;
  author : string;
  summary : option string;
  createdAt : Z
}.
End Article.

Module User.
(** [IUserDocument] *)
Record t := {
  _id : string;
  username : string;
  interests : option (list string);
  createdAt : Z
}.
End User.

Inductive InteractionType := view | like.

Definition InteractionType_eqb (a b : InteractionType) : bool :=
  match a, b with
  | view, view | like, like => true
  | _, _ => false
  end.

Module Interaction.
(** [IInteractionDocument] *)
Record t := {
  userId : string;
  articleId : string;
  interactionType : InteractionType;
  createdAt : Z
}.
End Interaction.

Module LeanInteraction.
(** An interaction as a query with [populate] and [lean()] returns it. *)
Record t := {
  userId : Mongoose.Ref;
  articleId : Mongoose.Ref;
  interactionType : InteractionType;
  createdAt : Z
}.
End LeanInteraction.

(** The state of the database: the documents of each collection, in the
    order the collection stores them. *)
Record Database := {
  Users : list User.t;
  Articles : list Article.t;
  Interactions : list Interaction.t
}.

(** [.sort({ createdAt: -1 }).skip(offset).limit(limit)] of a query: newest
    first, documents created at the same time in the order of the
    collection. *)
Definition newestFirst {A : Type} (createdAt : A -> Z) (docs : list A) : list A :=
  JS.sort (fun x y => (createdAt x <? createdAt y)%Z) docs.

Definition page {A : Type} (limit offset : nat) (docs : list A) : list A :=
  firstn limit (skipn offset docs).

(** ** The storage services

    A Mongoose query is read by its contract: [find(filter)] returns the
    documents of the collection that match, [findById] the document with
    the identifier, [countDocuments] their number, and [populate(path,
    fields)] puts in the place of a reference the document it refers to,
    cut down to [_id] and the fields named, or [null].  The methods whose
    identifiers the controllers check with [objectIdSchema] are read on
    identifiers as the store prints them; the methods that the controllers
    hand unchecked strings to cast them first.  Of a paginated answer only
    the list of documents is kept, which is all the engine reads. *)

Module UserService.
(** [User.findById(id)] *)
Definition getUserById (db : Database) (id : string) : option User.t :=
  find (fun u => String.eqb (User._id u) id) (Users db).
End UserService.

Module ArticleService.
(** The [data] of [getArticles(limit, offset)]. *)
Definition getArticles (db : Database) (limit offset : nat) : list Article.t :=
  page limit offset (newestFirst Article.createdAt (Articles db)).

(** [getArticleById(id)]: [Article.findById(id)] casts the identifier, and
    the error of a string that is no identifier is thrown again with the
    prefix of the method. *)
Definition getArticleById (db : Database) (id : string)
    : string + option Article.t :=
  match Mongoose.castObjectId id with
  | None =>
      inl ("Failed to retrieve article: " ++ Mongoose.castError id "_id" "Article")%string
  | Some oid => inr (find (fun a => String.eqb (Article._id a) oid) (Articles db))
  end.
Record Pagination := {
  total : Z;
  page : option Z;
  limit : nat;
  totalPages : option Z
}.

(** [IPaginatedResponse<IArticleDocument>] *)
Record IPaginatedResponse := {
  data : list Article.t;
  pagination : Pagination
}.

(** The whole answer of [getArticles(limit, offset)]. *)
Definition getArticlesResponse (db : Database) (limit offset : nat)
    : IPaginatedResponse :=
  let page := option_map (fun q => (q + 1)%Z) (JS.floorDiv offset limit) in
  let articles := getArticles db limit offset in
  let total := List.length (Articles db) in
  let totalPages := JS.ceilDiv total limit in
  {| data := articles;
     pagination := {| total := Z.of_nat total; page := page; limit := limit;
                      totalPages := totalPages |} |}.
End ArticleService.

Module InteractionService.
(** [Interaction.countDocuments({ articleId, interactionType })] *)
Definition countDocuments (db : Database) (articleId : string)
    (kind : InteractionType) : Z :=
  JS.len (filter (fun i => String.eqb (Interaction.articleId i) articleId
                           && InteractionType_eqb (Interaction.interactionType i) kind)
                 (Interactions db)).

(** [populate('articleId', fields)] on one reference: the article with
    the identifier, with its [_id] and those of the fields [title],
    [author] and [summary] that are selected. *)
Definition populateArticle (db : Database) (withSummary : bool)
    (articleId : string) : Mongoose.Ref :=
  match find (fun a => String.eqb (Article._id a) articleId) (Articles db) with
  | Some a =>
      Mongoose.document
        ([("_id"%string, Some (Article._id a));
          ("title"%string, Some (Article.title a));
          ("author"%string, Some (Article.author a))]
         ++ (if withSummary then [("summary"%string, Article.summary a)] else []))
  | None => Mongoose.null
  end.

(** [populate('userId', 'username')] on one reference. *)
Definition populateUser (db : Database) (userId : string) : Mongoose.Ref :=
  match find (fun u => String.eqb (User._id u) userId) (Users db) with
  | Some u =>
      Mongoose.document
        [("_id", Some (User._id u)); ("username", Some (User.username u))]%string
  | None => Mongoose.null
  end.

(** The [interactions] of [getInteractionsByUser(userId, limit, offset)]:
    the page of the interactions of the user, newest first, each with its
    article populated with title, author and summary. *)
Definition getInteractionsByUser (db : Database) (userId : string)
    (limit offset : nat) : list LeanInteraction.t :=
  map (fun i =>
         {| LeanInteraction.userId := Mongoose.objectId (Interaction.userId i);
            LeanInteraction.articleId :=
              populateArticle db true (Interaction.articleId i);
            LeanInteraction.interactionType := Interaction.interactionType i;
            LeanInteraction.createdAt := Interaction.createdAt i |})
      (page limit offset
         (newestFirst Interaction.createdAt
            (filter (fun i => String.eqb (Interaction.userId i) userId)
                    (Interactions db)))).

Record Stats := { views : Z; likes : Z; totalInteractions : Z }.

(** [getInteractionStats(articleId)] *)
Definition getInteractionStats (db : Database) (articleId : string) : Stats :=
  {| views := countDocuments db articleId view;
     likes := countDocuments db articleId like;
     totalInteractions :=
       JS.len (filter (fun i => String.eqb (Interaction.articleId i) articleId)
                      (Interactions db)) |}.

(** The [interactions] of [getAllInteractions(limit, offset)]: the page of
    all interactions, newest first, each with its user populated with the
    username and its article with title and author. *)
Definition getAllInteractions (db : Database) (limit offset : nat)
    : list LeanInteraction.t :=
  map (fun i =>
         {| LeanInteraction.userId := populateUser db (Interaction.userId i);
            LeanInteraction.articleId :=
              populateArticle db false (Interaction.articleId i);
            LeanInteraction.interactionType := Interaction.interactionType i;
            LeanInteraction.createdAt := Interaction.createdAt i |})
      (page limit offset (newestFirst Interaction.createdAt (Interactions db))).

(** The filter [{ userId, articleId, interactionType }]. *)
Definition sameTriple (userId articleId : string) (kind : InteractionType)
    (i : Interaction.t) : bool :=
  String.eqb (Interaction.userId i) userId
  && String.eqb (Interaction.articleId i) articleId
  && InteractionType_eqb (Interaction.interactionType i) kind.

(** The cast of the filter [{ userId, articleId, interactionType }]: the
    two identifiers as the store prints them, or the message of the error
    for the first of them that is no identifier. *)
Definition castFilter (userId articleId : string) : string + string * string :=
  match Mongoose.castObjectId userId with
  | None => inl (Mongoose.castError userId "userId" "Interaction")
  | Some u =>
      match Mongoose.castObjectId articleId with
      | None => inl (Mongoose.castError articleId "articleId" "Interaction")
      | Some a => inr (u, a)
      end
  end.

(** [Interaction.findOne({ userId, articleId, interactionType })] *)
Definition findOne (db : Database) (userId articleId : string)
    (kind : InteractionType) : string + option Interaction.t :=
  match castFilter userId articleId with
  | inl message => inl message
  | inr (u, a) => inr (find (sameTriple u a kind) (Interactions db))
  end.

Definition withInteractions (db : Database) (l : list Interaction.t) : Database :=
  {| Users := Users db; Articles := Articles db; Interactions := l |}.

(** The start of the message of the server for a document that breaks a
    unique index. *)
Definition duplicateKey : string := "E11000 duplicate key error".

(** [new Interaction(interactionData).save()] at the time [now], under the
    unique index on user, article and kind: the document is added at the
    end of the collection. *)
Definition save (db : Database) (doc : Interaction.t) : string + Database :=
  if existsb (sameTriple (Interaction.userId doc) (Interaction.articleId doc)
                (Interaction.interactionType doc)) (Interactions db)
  then inl duplicateKey
  else inr (withInteractions db (Interactions db ++ [doc])).

(** [new Interaction(interactionData)] at the time [now]: the identifiers
    are cast as those of a query are.  The constructor is reached only
    after [findOne] has cast the same strings. *)
Definition newInteraction (userId articleId : string) (kind : InteractionType)
    (now : Z) : Interaction.t :=
  let cast (value : string) :=
    match Mongoose.castObjectId value with Some oid => oid | None => value end in
  {| Interaction.userId := cast userId; Interaction.articleId := cast articleId;
     Interaction.interactionType := kind; Interaction.createdAt := now |}.

(** [createInteraction(interactionData)]: the store after the call and the
    interaction returned, or the message of the error thrown.  [attempt] is
    the [try] block; an error of the second [findOne] leaves the [catch]
    clause as it is. *)
Definition createInteraction (db : Database) (userId articleId : string)
    (kind : InteractionType) (now : Z) : string + Database * Interaction.t :=
  let attempt :=
    match findOne db userId articleId kind with
    | inl message => inl message
    | inr (Some existingInteraction) => inr (db, existingInteraction)
    | inr None =>
        let interaction := newInteraction userId articleId kind now in
        match save db interaction with
        | inr db' => inr (db', interaction)
        | inl message => inl message
        end
    end in
  match attempt with
  | inr result => inr result
  | inl message =>
      if JS.includes message "duplicate key error" || JS.includes message "E11000"
      then match findOne db userId articleId kind with
           | inl message' => inl message'
           | inr (Some existingInteraction) => inr (db, existingInteraction)
           | inr None => inl ("Failed to create interaction: " ++ message)%string
           end
      else inl ("Failed to create interaction: " ++ message)%string
  end.

(** What [findOneAndDelete] leaves: the first document that matches is
    taken out. *)
Fixpoint deleteFirst {A : Type} (p : A -> bool) (l : list A) : list A :=
  match l with
  | [] => []
  | x :: l' => if p x then l' else x :: deleteFirst p l'
  end.

(** [removeInteraction(userId, articleId, interactionType)]: the store after
    [findOneAndDelete] and [!!result], or the message of the error
    thrown. *)
Definition removeInteraction (db : Database) (userId articleId : string)
    (kind : InteractionType) : string + Database * bool :=
  match castFilter userId articleId with
  | inl message => inl ("Failed to remove interaction: " ++ message)%string
  | inr (u, a) =>
      let result := find (sameTriple u a kind) (Interactions db) in
      inr (withInteractions db (deleteFirst (sameTriple u a kind) (Interactions db)),
           match result with Some _ => true | None => false end)
  end.

(** [hasInteraction(userId, articleId, interactionType)] *)
Definition hasInteraction (db : Database) (userId articleId : string)
    (kind : InteractionType) : string + bool :=
  match findOne db userId articleId kind with
  | inl message => inl ("Failed to check interaction: " ++ message)%string
  | inr interaction => inr (match interaction with Some _ => true | None => false end)
  end.


End InteractionService.


(** The other methods of [UserService] that read or delete. *)
Module UserServiceRest.
(** The setters that the schema declares for [username], [trim] and
    [lowercase], which Mongoose also applies to the value of a query. *)
Definition setUsername (value : string) : string :=
  JS.trim (JS.toLowerCase value).

(** [User.findOne({ username: username.toLowerCase() })] *)
Definition getUserByUsername (db : Database) (username : string) : option User.t :=
  find (fun u => String.eqb (User.username u)
                   (setUsername (JS.toLowerCase username))) (Users db).

(** [usernameExists(username)] *)
Definition usernameExists (db : Database) (username : string) : bool :=
  match getUserByUsername db username with Some _ => true | None => false end.

End UserServiceRest.

(** ** RecommendationService *)

Module RecommendationService.
Import InteractionService.

Record IRecommendation := {
  article : Article.t;
  score : Q;
  reason : string;
  matchedInterests : option (list string)
}.

Record UserEcho := {
  id : string;
  username : string;
  interests : list string
}.

Record Metadata := {
  interestBasedCount : Z;
  popularityBasedCount : Z;
  algorithm : string
}.

Record IRecommendationResponse := {
  recommendations : list IRecommendation;
  total : Z;
  user : UserEcho;
  metadata : Metadata
}.

(** The comparator [(a, b) => b.score - a.score]. *)
Definition byScore (a b : IRecommendation) : bool :=
  JS.gt0 (score b - score a).

(** [article._id?.toString() || '']: a stored document has an [_id], and
    the fallback to the empty string changes no string. *)
Definition idOf (a : Article.t) : string := Article._id a.

(** *** Interest-based recommendations *)

(** [[title, content, summary || ''].join(' ').toLowerCase()] *)
Definition articleText (a : Article.t) : string :=
  JS.toLowerCase
    (JS.join " " [Article.title a; Article.content a;
                  match Article.summary a with Some s => s | None => ""%string end]).

Definition titleHas (a : Article.t) (interestLower : string) : bool :=
  JS.includes (JS.toLowerCase (Article.title a)) interestLower.

(** [article.summary?.toLowerCase().includes(interestLower)] *)
Definition summaryHas (a : Article.t) (interestLower : string) : bool :=
  match Article.summary a with
  | Some s => JS.includes (JS.toLowerCase s) interestLower
  | None => false
  end.

Definition contentHas (a : Article.t) (interestLower : string) : bool :=
  JS.includes (JS.toLowerCase (Article.content a)) interestLower.

(** One turn of the loop over [userInterests], on the pair of
    [matchedInterests] and [score]. *)
Definition matchInterest (a : Article.t) (st : list string * Q)
    (interest : string) : list string * Q :=
  let '(matchedInterests, score) := st in
  let interestLower := JS.toLowerCase interest in
  if JS.includes (articleText a) interestLower then
    let matchedInterests := matchedInterests ++ [interest] in
    let score := if titleHas a interestLower then score + 3 else score in
    let score := if summaryHas a interestLower then score + 2 else score in
    let score := if contentHas a interestLower then score + 1 else score in
    (matchedInterests, score)
  else st.

(** The body of the loop over [articles]: the recommendation pushed for
    one article, if any. *)
Definition interestRecommendation (userInterests : list string)
    (a : Article.t) : option IRecommendation :=
  let '(matchedInterests, score) :=
    fold_left (matchInterest a) userInterests ([], 0) in
  if (0 <? JS.len matchedInterests)%Z then
    Some {| article := a;
            score := score + inject_Z (JS.len matchedInterests) * 0.5;
            reason := ("Matches your interests: " ++ JS.join ", " matchedInterests)%string;
            matchedInterests := Some matchedInterests |}
  else None.

Definition pushed {A B : Type} (f : A -> option B) (l : list A) : list B :=
  flat_map (fun x => match f x with Some y => [y] | None => [] end) l.

Definition getInterestBasedRecommendations (user : User.t)
    (articles : list Article.t) (limit : Z) : list IRecommendation :=
  let userInterests :=
    match User.interests user with Some l => l | None => [] end in
  if (JS.len userInterests =? 0)%Z then []
  else JS.slice0 limit
         (JS.sort byScore (pushed (interestRecommendation userInterests) articles)).

(** *** Popularity-based recommendations *)

Record ArticleStat := {
  stat_article : Article.t;
  stats : Stats;
  popularityScore : Z
}.

Definition articleStat (db : Database) (a : Article.t) : ArticleStat :=
  let stats := getInteractionStats db (idOf a) in
  {| stat_article := a;
     stats := stats;
     popularityScore := (likes stats * 2 + views stats)%Z |}.

Definition popularityReason (stats : Stats) : string :=
  if ((0 <? likes stats) && (0 <? views stats))%Z then
    ("Popular article (" ++ JS.numberToString (likes stats) ++ " likes, "
       ++ JS.numberToString (views stats) ++ " views)")%string
  else if (0 <? likes stats)%Z then
    ("Well-liked article (" ++ JS.numberToString (likes stats) ++ " likes)")%string
  else if (0 <? views stats)%Z then
    ("Trending article (" ++ JS.numberToString (views stats) ++ " views)")%string
  else "Popular article"%string.

Definition sortedByPopularity (db : Database) (articles : list Article.t)
    (limit : Z) : list ArticleStat :=
  JS.slice0 limit
    (JS.sort (fun a b => (0 <? popularityScore b - popularityScore a)%Z)
       (filter (fun item => (0 <? popularityScore item)%Z)
          (map (articleStat db) articles))).

Definition getPopularityBasedRecommendations (db : Database)
    (articles : list Article.t) (limit : Z) : list IRecommendation :=
  map (fun item =>
         {| article := stat_article item;
            score := inject_Z (popularityScore item) * 0.1;
            reason := popularityReason (stats item);
            matchedInterests := None |})
      (sortedByPopularity db articles limit).

(** *** The orchestrator *)

(** [l.map(f)] for an [f] that may throw: the error of the first element
    on which it does. *)
Fixpoint mapThrowing {A B : Type} (f : A -> string + B) (l : list A)
    : string + list B :=
  match l with
  | [] => inr []
  | x :: l' =>
      match f x with
      | inl message => inl message
      | inr y =>
          match mapThrowing f l' with
          | inl message => inl message
          | inr ys => inr (y :: ys)
          end
      end
  end.

(** The elements of the set [viewedArticleIds]: [articleId.toString()] of
    the views among the 1000 newest interactions of the user, whose
    [articleId] is populated. *)
Definition viewedArticleIds (db : Database) (userId : string)
    : string + list string :=
  mapThrowing (fun i => Mongoose.toString (LeanInteraction.articleId i))
    (filter (fun i => InteractionType_eqb (LeanInteraction.interactionType i) view)
       (getInteractionsByUser db userId 1000 0)).

Definition unviewedArticles (db : Database) (viewedArticleIds : list string)
    : list Article.t :=
  filter (fun a => negb (JS.has viewedArticleIds (idOf a)))
    (ArticleService.getArticles db 1000 0).

(** [Math.ceil(limit * 0.6)] *)
Definition interestBasedLimit (limit : Z) : Z :=
  Qceiling (inject_Z limit * 0.6).

Definition interestRecommendations (db : Database) (user : User.t)
    (viewedArticleIds : list string) (limit : Z) : list IRecommendation :=
  getInterestBasedRecommendations user (unviewedArticles db viewedArticleIds)
    (interestBasedLimit limit).

Definition popularityBasedLimit (db : Database) (user : User.t)
    (viewedArticleIds : list string) (limit : Z) : Z :=
  (limit - JS.len (interestRecommendations db user viewedArticleIds limit))%Z.

Definition excludeIds (db : Database) (user : User.t)
    (viewedArticleIds : list string) (limit : Z) : list string :=
  viewedArticleIds
    ++ map (fun r => idOf (article r))
         (interestRecommendations db user viewedArticleIds limit).

(** What the second step pushes onto [recommendations]. *)
Definition popularityRecommendations (db : Database) (user : User.t)
    (viewedArticleIds : list string) (limit : Z) : list IRecommendation :=
  let popularityBasedLimit := popularityBasedLimit db user viewedArticleIds limit in
  if (0 <? popularityBasedLimit)%Z then
    let excludeIds := excludeIds db user viewedArticleIds limit in
    getPopularityBasedRecommendations db
      (filter (fun a => negb (JS.has excludeIds (idOf a)))
         (unviewedArticles db viewedArticleIds))
      popularityBasedLimit
  else [].

(** The [catch] clause: an [Error] is thrown again with a prefixed
    message. *)
Definition rethrow {A : Type} (prefix : string) (r : string + A) : string + A :=
  match r with
  | inl message => inl (prefix ++ message)%string
  | inr v => inr v
  end.

Definition getRecommendationsForUser (db : Database) (userId : string)
    (limit : Z) : string + IRecommendationResponse :=
  rethrow "Failed to generate recommendations: "
    match UserService.getUserById db userId with
    | None => inl "User not found"%string
    | Some user =>
        match viewedArticleIds db userId with
        | inl message => inl message
        | inr viewedArticleIds =>
            let interestRecommendations :=
              interestRecommendations db user viewedArticleIds limit in
            let recommendations :=
              interestRecommendations
                ++ popularityRecommendations db user viewedArticleIds limit in
            let sortedRecommendations :=
              JS.slice0 limit (JS.sort byScore recommendations) in
            inr {| recommendations := sortedRecommendations;
                   total := JS.len sortedRecommendations;
                   user := {| id := User._id user;
                              username := User.username user;
                              interests := match User.interests user with
                                           | Some l => l
                                           | None => []
                                           end |};
                   metadata :=
                     {| interestBasedCount := JS.len interestRecommendations;
                        popularityBasedCount :=
                          (JS.len recommendations - JS.len interestRecommendations)%Z;
                        algorithm := "rule-based-v1" |} |}
        end
    end.

(** *** Trending articles *)

Record Counter := { count_views : Z; count_likes : Z }.

(** One turn of the loop that counts the interactions per article; the
    [articleId] of the interaction is populated. *)
Definition countInteraction (m : JS.Map) (i : LeanInteraction.t)
    : string + JS.Map :=
  match Mongoose.toString (LeanInteraction.articleId i) with
  | inl message => inl message
  | inr articleId =>
      let current :=
        match JS.get m articleId with
        | Some c => c
        | None => {| count_views := 0; count_likes := 0 |}
        end in
      let current :=
        match LeanInteraction.interactionType i with
        | view => {| count_views := count_views current + 1;
                     count_likes := count_likes current |}
        | like => {| count_views := count_views current;
                     count_likes := count_likes current + 1 |}
        end in
      inr (JS.set m articleId current)
  end.

(** The loop over [recentInteractions.interactions]. *)
Fixpoint countInteractions (l : list LeanInteraction.t) (m : JS.Map)
    : string + JS.Map :=
  match l with
  | [] => inr m
  | i :: l' =>
      match countInteraction m i with
      | inl message => inl message
      | inr m' => countInteractions l' m'
      end
  end.

Definition articleInteractionCount (db : Database) : string + JS.Map :=
  countInteractions (getAllInteractions db 1000 0) [].

(** The body of the loop over the entries of the map: the recommendation
    pushed, if any.  An error of [getArticleById] is caught and the entry
    skipped. *)
Definition trendingRecommendation (db : Database) (entry : string * Counter)
    : option IRecommendation :=
  let '(articleId, stats) := entry in
  match ArticleService.getArticleById db articleId with
  | inr (Some article) =>
      let trendingScore := (count_likes stats * 3 + count_views stats)%Z in
      Some {| article := article;
              score := inject_Z trendingScore;
              reason := ("Trending now (" ++ JS.numberToString (count_likes stats)
                           ++ " likes, " ++ JS.numberToString (count_views stats)
                           ++ " views)")%string;
              matchedInterests := None |}
  | inr None => None
  | inl _ => None
  end.

Definition getTrendingArticles (db : Database) (limit : Z)
    : string + list IRecommendation :=
  rethrow "Failed to get trending articles: "
    match articleInteractionCount db with
    | inl message => inl message
    | inr articleInteractionCount =>
        inr (JS.slice0 limit
               (JS.sort byScore
                  (pushed (trendingRecommendation db) articleInteractionCount)))
    end.

End RecommendationService.

(** ** RecommendationController *)

Module RecommendationController.

Record Request := {
  params_userId : string;
  query_limit : option string
}.

Record Pagination := {
  pagination_total : Z;
  pagination_limit : Z;
  returned : Z
}.

Record Body := {
  success : bool;
  message : string;
  data : list RecommendationService.IRecommendation;
  user : RecommendationService.UserEcho;
  metadata : RecommendationService.Metadata;
  pagination : Pagination
}.

(** How a request ends: with an error made by [createError(message,
    statusCode)], with an [Error] of the service handed to the error
    handler as it is, or with [res.status(200).json(body)]. *)
Inductive Outcome :=
| createError (message : string) (statusCode : Z)
| serviceError (message : string)
| json200 (body : Body).

Definition isHexDigit (c : ascii) : bool :=
  let n := N_of_ascii c in
  (((48 <=? n) && (n <=? 57)) || ((97 <=? n) && (n <=? 102))
   || ((65 <=? n) && (n <=? 70)))%N.

(** The message of [objectIdSchema.validate(id)], if it reports an error:
    the pattern is [/^[0-9a-fA-F]{24}$/]. *)
Definition objectIdError (id : string) : option string :=
  if String.eqb id "" then Some "ID is required"%string
  else if (String.length id =? 24)%nat && forallb isHexDigit (list_ascii_of_string id)
  then None
  else Some "Invalid ID format"%string.

(** [parseInt(req.query.limit as string) || 10] *)
Definition limitOf (req : Request) : Z :=
  match
    match query_limit req with
    | Some s => JS.parseInt s
    | None => None
    end
  with
  | Some 0%Z => 10
  | Some n => n
  | None => 10
  end.

Definition getRecommendationsForUser (db : Database) (req : Request) : Outcome :=
  match objectIdError (params_userId req) with
  | Some message => createError message 400
  | None =>
      let userId := params_userId req in
      let limit := limitOf req in
      if ((limit <? 1) || (50 <? limit))%Z then
        createError "Limit must be between 1 and 50" 400
      else
        match RecommendationService.getRecommendationsForUser db userId limit with
        | inl message => serviceError message
        | inr recommendations =>
            json200
              {| success := true;
                 message := "Recommendations generated successfully";
                 data := RecommendationService.recommendations recommendations;
                 user := RecommendationService.user recommendations;
                 metadata := RecommendationService.metadata recommendations;
                 pagination :=
                   {| pagination_total := RecommendationService.total recommendations;
                      pagination_limit := limit;
                      returned :=
                        JS.len (RecommendationService.recommendations recommendations) |} |}
        end
  end.

Record TrendingBody := {
  trending_success : bool;
  trending_message : string;
  trending_data : list RecommendationService.IRecommendation;
  trending_pagination : Pagination
}.

(** How a request for the trending articles ends. *)
Inductive TrendingOutcome :=
| trendingCreateError (message : string) (statusCode : Z)
| trendingServiceError (message : string)
| trendingJson200 (body : TrendingBody).

Definition getTrendingArticles (db : Database) (req : Request) : TrendingOutcome :=
  let limit := limitOf req in
  if ((limit <? 1) || (50 <? limit))%Z then
    trendingCreateError "Limit must be between 1 and 50" 400
  else
    match RecommendationService.getTrendingArticles db limit with
    | inl message => trendingServiceError message
    | inr trendingArticles =>
        trendingJson200
          {| trending_success := true;
             trending_message := "Trending articles retrieved successfully";
             trending_data := trendingArticles;
             trending_pagination :=
               {| pagination_total := JS.len trendingArticles;
                  pagination_limit := limit;
                  returned := JS.len trendingArticles |} |}
    end.

Record InterestBased := {
  titleMatch : Q;
  summaryMatch : Q;
  contentMatch : Q;
  multipleInterestsBonus : Q
}.

Record PopularityBased := { likesWeight : Z; viewsWeight : Z }.

Record Limits := { maxRecommendations : Z; defaultRecommendations : Z }.

Record Info := {
  info_algorithm : string;
  info_version : string;
  info_description : string;
  info_features : list string;
  interestBased : InterestBased;
  popularityBased : PopularityBased;
  limits : Limits
}.

(** The [data] of the body of [getRecommendationInfo]. *)
Definition getRecommendationInfo : Info :=
  {| info_algorithm := "rule-based-v1";
     info_version := "1.0.0";
     info_description := "Simple rule-based recommendation system";
     info_features :=
       ["Interest-based matching (60% weight)"%string;
        "Popularity-based recommendations (40% weight)"%string;
        "Excludes already viewed articles"%string;
        "Trending articles support"%string];
     interestBased :=
       {| titleMatch := 3; summaryMatch := 2; contentMatch := 1;
          multipleInterestsBonus := 0.5 |};
     popularityBased := {| likesWeight := 2; viewsWeight := 1 |};
     limits := {| maxRecommendations := 50; defaultRecommendations := 10 |} |}.

End RecommendationController.

(** ** ArticleController *)

Module ArticleController.

(** The [value] of [paginationSchema.validate(req.query)] once the query has
    passed the validation. *)
Record PaginationValue := {
  limit : nat;
  offset : nat;
  page : option nat
}.

(** [page ? (page - 1) * limit : offset] *)
Definition actualOffset (value : PaginationValue) : nat :=
  match page value with
  | Some p => if (p =? 0)%nat then offset value else ((p - 1) * limit value)%nat
  | None => offset value
  end.

(** The [data] and the [pagination] of the body of [getArticles]. *)
Definition getArticles (db : Database) (value : PaginationValue)
    : ArticleService.IPaginatedResponse :=
  ArticleService.getArticlesResponse db (limit value) (actualOffset value).

End ArticleController.

(** ** Notions the properties are stated with *)

Module Spec.
Import RecommendationService.


(** The identifiers of the articles of a ranked list. *)
Definition articleIds (l : list IRecommendation) : list string :=
  map (fun r => idOf (article r)) l.

(** The lowered term occurs in the title, the summary or the content. *)
Definition inSomeField (a : Article.t) (interest : string) : bool :=
  let t := JS.toLowerCase interest in
  titleHas a t || summaryHas a t || contentHas a t.

(** The entries of the interest list that the matcher records for an
    article, in the order of the list. *)
Definition matchedTerms (a : Article.t) (userInterests : list string) : list string :=
  filter (fun i => JS.includes (articleText a) (JS.toLowerCase i)) userInterests.

(** The points of one term: 3 for the title, 2 for the summary, 1 for the
    content. *)
Definition fieldPoints (a : Article.t) (interest : string) : Q :=
  let t := JS.toLowerCase interest in
  (if titleHas a t then 3 else 0) + (if summaryHas a t then 2 else 0)
  + (if contentHas a t then 1 else 0).

Definition sumQ (l : list Q) : Q := fold_right Qplus 0 l.

(** The bonus as the specification words it: one half for each distinct
    matched term. *)
Definition claimedBonus (matched : list string) : Q :=
  0.5 * inject_Z (JS.len (nodup string_dec matched)).

(** The limit as the specification words it: clamped to [1, 50]. *)
Definition claimedLimit (limit : Z) : Z := Z.max 1 (Z.min 50 limit).


(** An identifier as the store prints it: 24 hexadecimal digits, the
    letters in lower case. *)
Definition isObjectId (s : string) : bool :=
  match Mongoose.castObjectId s with
  | Some oid => String.eqb oid s
  | None => false
  end.

(** Every article of the store carries an identifier. *)
Definition articlesHaveObjectIds (db : Database) : Prop :=
  Forall (fun a => isObjectId (Article._id a) = true) (Articles db).

(** The store holds an article with the identifier. *)
Definition articleExists (db : Database) (articleId : string) : bool :=
  existsb (fun a => String.eqb (Article._id a) articleId) (Articles db).

(** The views among the 1000 newest interactions of a user, which are the
    interactions the engine reads. *)
Definition recentViews (db : Database) (userId : string) : list Interaction.t :=
  filter (fun i => InteractionType_eqb (Interaction.interactionType i) view)
    (page 1000 0
       (newestFirst Interaction.createdAt
          (filter (fun i => String.eqb (Interaction.userId i) userId)
                  (Interactions db)))).

(** The 1000 newest interactions of the store. *)
Definition recentInteractions (db : Database) : list Interaction.t :=
  page 1000 0 (newestFirst Interaction.createdAt (Interactions db)).

(** The articles the popularity pass may still choose, among the 1000
    newest: those whose identifier is neither in the set [excluded] nor the
    one of an article already [chosen], and that have some engagement. *)
Definition eligible (db : Database) (excluded : list string)
    (chosen : list IRecommendation) : list Article.t :=
  filter (fun a =>
            negb (JS.has excluded (idOf a))
            && negb (JS.has (articleIds chosen) (idOf a))
            && (0 <? InteractionService.likes
                       (InteractionService.getInteractionStats db (idOf a)) * 2
                     + InteractionService.views
                         (InteractionService.getInteractionStats db (idOf a)))%Z)
    (ArticleService.getArticles db 1000 0).


(** A ranked list is in descending order of score. *)
Definition descending (l : list IRecommendation) : Prop :=
  StronglySorted (fun a b => score b <= score a) l.
(** The user, the article and the kind of an interaction. *)
Definition triple (i : Interaction.t) : string * string * InteractionType :=
  (Interaction.userId i, Interaction.articleId i, Interaction.interactionType i).

(** The unique index of the interaction collection: no two documents share
    user, article and kind. *)
Definition uniqueInteractions (db : Database) : Prop :=
  NoDup (map triple (Interactions db)).

(** No two interactions of [l] share user, article and kind. *)
Fixpoint distinctTriples (l : list Interaction.t) : bool :=
  match l with
  | [] => true
  | i :: l' =>
      negb (existsb (InteractionService.sameTriple (Interaction.userId i)
                       (Interaction.articleId i) (Interaction.interactionType i)) l')
      && distinctTriples l'
  end.

(** Every character of [s] satisfies [p]. *)
Fixpoint allChars (p : ascii -> bool) (s : string) : bool :=
  match s with
  | EmptyString => true
  | String c s' => p c && allChars p s'
  end.

(** [s] is empty or starts with a character that does not satisfy [p]. *)
Definition stopsAt (p : ascii -> bool) (s : string) : Prop :=
  match s with
  | EmptyString => True
  | String c _ => p c = false
  end.


(** The number of the interactions of the store of one user. *)
Definition historyLength (db : Database) (userId : string) : nat :=
  List.length (filter (fun i => String.eqb (Interaction.userId i) userId)
                 (Interactions db)).
End Spec.

(** ** Sample data *)

Module Sample.
Local Open Scope string_scope.

Definition pad4 (s : string) : string :=
  match String.length s with
  | 1%nat => "000" ++ s
  | 2%nat => "00" ++ s
  | 3%nat => "0" ++ s
  | _ => s
  end.

(** A 24-digit identifier: a 20-digit prefix and a number. *)
Definition objectId (prefix : string) (n : nat) : string :=
  prefix ++ pad4 (JS.numberToString (Z.of_nat n)).

Definition userOid := objectId "64f8b2e8d4c5e6f7a8b9".
Definition articleOid := objectId "64f8b2e8d4c5e6f7a8c0".

Definition mkArticle (n : nat) (title content : string)
    (summary : option string) : Article.t :=
  {| Article._id := articleOid n; Article.title := title;
     Article.content := content; Article.author := "Jane Smith";
     Article.summary := summary; Article.createdAt := Z.of_nat n |}.

Definition mkUser (n : nat) (name : string) (interests : list string) : User.t :=
  {| User._id := userOid n; User.username := name;
     User.interests := Some interests; User.createdAt := Z.of_nat n |}.

Definition interaction (user article : nat) (kind : InteractionType)
    (time : Z) : Interaction.t :=
  {| Interaction.userId := userOid user; Interaction.articleId := articleOid article;
     Interaction.interactionType := kind; Interaction.createdAt := time |}.

(** The scenario of the README, with a content that contains neither
    term. *)
Definition typescript (content : string) : Article.t :=
  {| Article._id := articleOid 1;
     Article.title := "Advanced TypeScript Programming Techniques";
     Article.content := content; Article.author := "Jane Smith";
     Article.summary := Some "A deep dive into tech concepts...";
     Article.createdAt := 1 |}.

Definition generics := "Generics, decorators and mapped types in depth.".

(** An article whose title ends with a word and whose content starts with
    the next one. *)
Definition learning : Article.t :=
  mkArticle 2 "Deep Learning" "Models are trained on large data sets." None.

Definition techNews : Article.t := mkArticle 0 "Tech" "news" None.

(** A small store: reader 1 is interested in tech and has viewed article
    5; articles 1 to 4 and 5 mention tech, articles 11 to 17 are liked by
    reader 2, article 20 has three likes and five views. *)
Definition small : Database :=
  {| Users := [mkUser 1 "reader" ["tech"]; mkUser 2 "other" []];
     Articles :=
       map (fun n => mkArticle n "Tech weekly" "All the news." None) (seq 1 5)
       ++ map (fun n => mkArticle n "Cooking at home" "Recipes." None) (seq 11 7)
       ++ [mkArticle 20 "Gardening" "Plants." (Some "Green")];
     Interactions :=
       interaction 1 5 view 1
       :: map (fun n => interaction 2 n like (Z.of_nat n)) (seq 11 7)
       ++ map (fun u => interaction u 20 like 30) (seq 3 3)
       ++ map (fun u => interaction u 20 view 31) (seq 3 5) |}.

(** The scenario of the shortfall: four articles mention tech, the
    interest of reader 1, and seven others are liked by reader 2. *)
Definition shortfall : Database :=
  {| Users := [mkUser 1 "reader" ["tech"]; mkUser 2 "other" []];
     Articles :=
       map (fun n => mkArticle n "Tech weekly" "All the news." None) (seq 1 4)
       ++ map (fun n => mkArticle n "Cooking at home" "Recipes." None) (seq 11 7);
     Interactions :=
       map (fun n => interaction 2 n like (Z.of_nat n)) (seq 11 7) |}.

(** The small store after reader 1 has viewed an article that the store
    does not hold. *)
Definition orphanView : Database :=
  {| Users := Users small; Articles := Articles small;
     Interactions := Interactions small ++ [interaction 1 99 view 40] |}.

Definition request (user : nat) (limit : option string)
    : RecommendationController.Request :=
  {| RecommendationController.params_userId := userOid user;
     RecommendationController.query_limit := limit |}.
End Sample.

(** * Properties *)

(** ** Strings *)

Section StringFacts.
Local Open Scope string_scope.

Lemma string_app_assoc (a b c : string) : (a ++ b) ++ c = a ++ (b ++ c).
Proof.
  induction a as [|x a IH]; simpl; [reflexivity | now rewrite IH].
Qed.

Lemma toLowerCase_app (a b : string) :
  JS.toLowerCase (a ++ b) = JS.toLowerCase a ++ JS.toLowerCase b.
Proof.
  induction a as [|x a IH]; simpl; [reflexivity | now rewrite IH].
Qed.

Lemma startsWith_iff (hay needle : string) :
  JS.startsWith hay needle = true <-> exists s, hay = needle ++ s.
Proof.
  revert hay. induction needle as [|a n IH]; intros hay; simpl.
  - split; [intros _; now exists hay | reflexivity].
  - destruct hay as [|b h].
    + split; [discriminate | intros [s Hs]; discriminate].
    + rewrite andb_true_iff, Ascii.eqb_eq, IH. split.
      * intros [-> [s ->]]. now exists s.
      * intros [s Hs]. injection Hs as -> ->. split; [reflexivity | now exists s].
Qed.

(** [includes] decides the occurrence of the needle as a substring. *)
Lemma includes_iff (hay needle : string) :
  JS.includes hay needle = true <-> exists p s, hay = p ++ needle ++ s.
Proof.
  induction hay as [|c h IH]; simpl; rewrite orb_true_iff, startsWith_iff.
  - split.
    + intros [[s Hs] | H]; [| discriminate]. now exists "", s.
    + intros [p [s Hs]]. left. destruct p; [now exists s | discriminate].
  - rewrite IH. split.
    + intros [[s Hs] | [p [s Hs]]].
      * now exists "", s.
      * exists (String c p), s. simpl. now rewrite Hs.
    + intros [p [s Hs]]. destruct p as [|c' p]; simpl in Hs.
      * left. now exists s.
      * right. injection Hs as -> ->. now exists p, s.
Qed.

Lemma includes_app_l (a b needle : string) :
  JS.includes a needle = true -> JS.includes (a ++ b) needle = true.
Proof.
  rewrite !includes_iff. intros [p [s ->]]. exists p, (s ++ b).
  now rewrite !string_app_assoc.
Qed.

Lemma includes_app_r (a b needle : string) :
  JS.includes b needle = true -> JS.includes (a ++ b) needle = true.
Proof.
  rewrite !includes_iff. intros [p [s ->]]. exists (a ++ p), s.
  now rewrite !string_app_assoc.
Qed.
End StringFacts.

(** ** Arrays: [sort], [slice] and the loops that push *)

Section ArrayFacts.
Context {A : Type}.

Lemma place_perm (after : A -> A -> bool) (x : A) (l : list A) :
  Permutation (JS.place after x l) (x :: l).
Proof.
  induction l as [|y l IH]; simpl; [reflexivity |].
  destruct (after x y); [| reflexivity].
  rewrite IH. apply perm_swap.
Qed.

Lemma sort_perm (after : A -> A -> bool) (l : list A) :
  Permutation (JS.sort after l) l.
Proof.
  induction l as [|x l IH]; simpl; [reflexivity |].
  rewrite place_perm. now constructor.
Qed.

Lemma sort_In (after : A -> A -> bool) (l : list A) (x : A) :
  In x (JS.sort after l) <-> In x l.
Proof.
  split; apply Permutation_in; [| symmetry]; apply sort_perm.
Qed.

Lemma slice0_firstn (limit : Z) (l : list A) :
  exists n, JS.slice0 limit l = firstn n l.
Proof.
  unfold JS.slice0. destruct (limit <? 0)%Z; eexists; reflexivity.
Qed.

Lemma slice0_nonneg (limit : Z) (l : list A) :
  (0 <= limit)%Z -> JS.slice0 limit l = firstn (Z.to_nat limit) l.
Proof.
  intros H. unfold JS.slice0.
  destruct (Z.ltb_spec limit 0); [lia | reflexivity].
Qed.

Lemma In_firstn (n : nat) (l : list A) (x : A) : In x (firstn n l) -> In x l.
Proof.
  intros H. rewrite <- (firstn_skipn n l). apply in_or_app. now left.
Qed.

Lemma slice0_In (limit : Z) (l : list A) (x : A) :
  In x (JS.slice0 limit l) -> In x l.
Proof.
  destruct (slice0_firstn limit l) as [n ->]. apply In_firstn.
Qed.

Lemma slice0_len (limit : Z) (l : list A) :
  (0 <= limit)%Z -> JS.len (JS.slice0 limit l) = Z.min limit (JS.len l).
Proof.
  intros H. rewrite slice0_nonneg by assumption.
  unfold JS.len. rewrite length_firstn. lia.
Qed.






Lemma StronglySorted_firstn (R : A -> A -> Prop) (n : nat) (l : list A) :
  StronglySorted R l -> StronglySorted R (firstn n l).
Proof.
  revert n. induction l as [|x l IH]; intros [|n] H; simpl; try constructor.
  - apply IH. now inversion H.
  - inversion H as [|? ? _ Hall]; subst.
    rewrite Forall_forall in *. intros y Hy. apply Hall. now apply In_firstn in Hy.
Qed.

(** The loops that push at most one entry per element. *)
Lemma in_pushed {B : Type} (f : A -> option B) (l : list A) (y : B) :
  In y (RecommendationService.pushed f l) <-> exists x, In x l /\ f x = Some y.
Proof.
  unfold RecommendationService.pushed. rewrite in_flat_map. split.
  - intros [x [Hx Hy]]. exists x. split; [assumption |].
    destruct (f x); simpl in Hy; [| contradiction].
    destruct Hy as [-> | []]. reflexivity.
  - intros [x [Hx Hy]]. exists x. split; [assumption |]. rewrite Hy. now left.
Qed.

End ArrayFacts.

(** ** The interest matcher *)

Section InterestMatcher.
Import RecommendationService Spec.
Variable a : Article.t.

Lemma articleText_eq :
  articleText a
  = (JS.toLowerCase (Article.title a) ++ " "
     ++ JS.toLowerCase (Article.content a) ++ " "
     ++ JS.toLowerCase (match Article.summary a with Some s => s | None => "" end))%string.
Proof.
  unfold articleText. cbn [JS.join]. rewrite !toLowerCase_app. reflexivity.
Qed.

Lemma titleHas_text (t : string) :
  titleHas a t = true -> JS.includes (articleText a) t = true.
Proof.
  rewrite articleText_eq. apply includes_app_l.
Qed.

Lemma contentHas_text (t : string) :
  contentHas a t = true -> JS.includes (articleText a) t = true.
Proof.
  rewrite articleText_eq. intros H.
  apply includes_app_r, includes_app_r, includes_app_l, H.
Qed.

Lemma summaryHas_text (t : string) :
  summaryHas a t = true -> JS.includes (articleText a) t = true.
Proof.
  rewrite articleText_eq. unfold summaryHas.
  destruct (Article.summary a); [| discriminate]. intros H.
  apply includes_app_r, includes_app_r, includes_app_r, includes_app_r, H.
Qed.

Lemma inSomeField_text (i : string) :
  inSomeField a i = true ->
  JS.includes (articleText a) (JS.toLowerCase i) = true.
Proof.
  unfold inSomeField. rewrite !orb_true_iff.
  intros [[H | H] | H];
    [apply titleHas_text | apply summaryHas_text | apply contentHas_text];
    exact H.
Qed.

Lemma fieldPoints_bounds (i : string) : 0 <= fieldPoints a i /\ fieldPoints a i <= 6.
Proof.
  unfold fieldPoints.
  destruct (titleHas a _), (summaryHas a _), (contentHas a _);
    split; vm_compute; discriminate.
Qed.

(** One turn of the loop adds the points of the term when the joined text
    contains it, and leaves the pair as it is otherwise. *)
Lemma matchInterest_step (m : list string) (s : Q) (i : string) :
  fst (matchInterest a (m, s) i) = m ++ matchedTerms a [i] /\
  snd (matchInterest a (m, s) i) == s + sumQ (map (fieldPoints a) (matchedTerms a [i])).
Proof.
  unfold matchInterest, matchedTerms, fieldPoints. simpl filter.
  destruct (JS.includes (articleText a) (JS.toLowerCase i)); simpl.
  - split; [reflexivity |].
    destruct (titleHas a _), (summaryHas a _), (contentHas a _); ring.
  - split; [now rewrite app_nil_r | ring].
Qed.

Lemma matchInterest_loop (l m : list string) (s : Q) :
  fst (fold_left (matchInterest a) l (m, s)) = m ++ matchedTerms a l /\
  snd (fold_left (matchInterest a) l (m, s))
    == s + sumQ (map (fieldPoints a) (matchedTerms a l)).
Proof.
  revert m s. induction l as [|i l IH]; intros m s.
  - simpl. split; [now rewrite app_nil_r | ring].
  - change (fold_left (matchInterest a) (i :: l) (m, s))
      with (fold_left (matchInterest a) l (matchInterest a (m, s) i)).
    destruct (matchInterest_step m s i) as [Hm Hs].
    destruct (matchInterest a (m, s) i) as [m' s']. simpl in Hm, Hs.
    destruct (IH m' s') as [IHm IHs]. split.
    + rewrite IHm, Hm, <- app_assoc. f_equal.
      unfold matchedTerms. simpl.
      now destruct (JS.includes (articleText a) (JS.toLowerCase i)).
    + rewrite IHs, Hs. unfold matchedTerms. simpl.
      destruct (JS.includes (articleText a) (JS.toLowerCase i)); simpl; ring.
Qed.

(** The recommendation pushed for an article, in closed form. *)
Lemma interestRecommendation_spec (userInterests : list string) :
  match interestRecommendation userInterests a with
  | Some r =>
      matchedTerms a userInterests <> [] /\ article r = a /\
      matchedInterests r = Some (matchedTerms a userInterests) /\
      score r == sumQ (map (fieldPoints a) (matchedTerms a userInterests))
                 + 0.5 * inject_Z (JS.len (matchedTerms a userInterests))
  | None => matchedTerms a userInterests = []
  end.
Proof.
  unfold interestRecommendation.
  destruct (matchInterest_loop userInterests [] 0) as [Hm Hs].
  destruct (fold_left _ _ _) as [m s]. simpl in Hm, Hs. subst m.
  destruct (matchedTerms a userInterests) as [|i m] eqn:E.
  - reflexivity.
  - replace (0 <? JS.len (i :: m))%Z with true
      by (symmetry; apply Z.ltb_lt; unfold JS.len; simpl; lia).
    repeat split; try discriminate. cbn [score]. rewrite Hs. ring.
Qed.
End InterestMatcher.

Section InterestMatcherClaims.
Import RecommendationService Spec Sample.

Lemma getInterestBasedRecommendations_In (user : User.t)
    (articles : list Article.t) (limit : Z) (r : IRecommendation) :
  In r (getInterestBasedRecommendations user articles limit) ->
  exists userInterests a,
    User.interests user = Some userInterests /\ In a articles /\
    interestRecommendation userInterests a = Some r.
Proof.
  unfold getInterestBasedRecommendations.
  destruct (User.interests user) as [userInterests|]; [| intros []].
  destruct (JS.len userInterests =? 0)%Z; [intros [] |].
  intros H. apply slice0_In, sort_In, in_pushed in H as [x [Hx Hr]].
  now exists userInterests, x.
Qed.

(** C1, as amended.  For every interest list and every article: a term
    whose lowered form occurs in the title, the summary or the content is
    recorded as matched; a matched term brings 3 points for the title, 2
    for the summary and 1 for the content, between 0 and 6 in all; the
    score of the recommendation is the sum of these points over the
    matched entries of the list plus one half for each matched entry, an
    entry that is listed twice being counted twice; this is one half for
    each distinct matched term when the list repeats no term; and an
    article without a matched term is not recommended. *)
Theorem interest_matcher_scoring (userInterests : list string) (a : Article.t) :
  let matched := matchedTerms a userInterests in
  (forall i, In i userInterests -> inSomeField a i = true -> In i matched) /\
  (forall i, 0 <= fieldPoints a i /\ fieldPoints a i <= 6) /\
  match interestRecommendation userInterests a with
  | Some r =>
      matched <> [] /\ article r = a /\ matchedInterests r = Some matched /\
      score r == sumQ (map (fieldPoints a) matched) + 0.5 * inject_Z (JS.len matched)
  | None => matched = []
  end /\
  (NoDup userInterests -> 0.5 * inject_Z (JS.len matched) == claimedBonus matched) /\
  (matched = [] ->
   forall user articles limit r,
     User.interests user = Some userInterests ->
     In r (getInterestBasedRecommendations user articles limit) ->
     article r <> a).
Proof.
  intros matched. repeat split.
  - intros i Hi Hf. apply filter_In. split; [exact Hi |].
    now apply inSomeField_text.
  - apply fieldPoints_bounds.
  - apply fieldPoints_bounds.
  - apply interestRecommendation_spec.
  - intros Hnd. unfold claimedBonus.
    rewrite nodup_fixed_point; [reflexivity |].
    now apply NoDup_filter.
  - intros Hnone user articles limit r Hu Hr Ha.
    apply getInterestBasedRecommendations_In in Hr as [ui [x [Hui [_ Hx]]]].
    rewrite Hu in Hui. injection Hui as <-.
    pose proof (interestRecommendation_spec x userInterests) as H.
    rewrite Hx in H. destruct H as [Hne [Hax _]].
    rewrite Hax in Ha. subst x. now apply Hne.
Qed.

(** C1 does not hold as stated: for a reader whose list names "tech" twice
    the article titled "Tech" gets 3 + 3 points and a bonus of 1, that is
    7, where one half per distinct matched term gives 6.5. *)
Lemma interest_bonus_counts_repeats :
  exists r,
    interestRecommendation ["tech"; "tech"]%string techNews = Some r /\
    matchedInterests r = Some ["tech"; "tech"]%string /\
    score r == 7 /\
    sumQ (map (fieldPoints techNews) ["tech"; "tech"]%string)
      + claimedBonus ["tech"; "tech"]%string == 6.5 /\
    ~ score r == sumQ (map (fieldPoints techNews) ["tech"; "tech"]%string)
                 + claimedBonus ["tech"; "tech"]%string.
Proof.
  eexists. split; [vm_compute; reflexivity |].
  repeat split; try (vm_compute; reflexivity).
  intros H. vm_compute in H. discriminate.
Qed.

(** C2, as amended.  For the interests "tech" and "programming" and the
    article titled "Advanced TypeScript Programming Techniques" with the
    summary "A deep dive into tech concepts...", whatever content contains
    neither term, the matcher recommends the article with the score 9 and
    the matched terms "tech" and "programming": "tech" occurs in the title
    (in "Techniques") and in the summary, "programming" in the title, and
    the bonus is 1. *)
Theorem readme_scenario_score (content : string) :
  JS.includes (JS.toLowerCase content) "tech" = false ->
  JS.includes (JS.toLowerCase content) "programming" = false ->
  exists r,
    interestRecommendation ["tech"; "programming"]%string (typescript content) = Some r /\
    score r == 9 /\
    matchedInterests r = Some ["tech"; "programming"]%string.
Proof.
  intros Htech Hprog.
  set (a := typescript content).
  assert (T1 : titleHas a "tech" = true) by reflexivity.
  assert (T2 : titleHas a "programming" = true) by reflexivity.
  assert (S1 : summaryHas a "tech" = true) by reflexivity.
  assert (S2 : summaryHas a "programming" = false) by reflexivity.
  assert (C1 : contentHas a "tech" = false) by exact Htech.
  assert (C2 : contentHas a "programming" = false) by exact Hprog.
  assert (Hm : matchedTerms a ["tech"; "programming"]%string
               = ["tech"; "programming"]%string).
  { unfold matchedTerms. cbn [filter].
    change (JS.toLowerCase "tech") with "tech"%string.
    change (JS.toLowerCase "programming") with "programming"%string.
    now rewrite (titleHas_text a _ T1), (titleHas_text a _ T2). }
  pose proof (interestRecommendation_spec a ["tech"; "programming"]%string) as H.
  destruct (interestRecommendation _ a) as [r|]; rewrite Hm in H; [| discriminate].
  destruct H as [_ [_ [Hmatched Hscore]]].
  exists r. repeat split; [| exact Hmatched].
  rewrite Hscore. unfold fieldPoints. cbn [map sumQ fold_right].
  change (JS.toLowerCase "tech") with "tech"%string.
  change (JS.toLowerCase "programming") with "programming"%string.
  rewrite T1, T2, S1, S2, C1, C2. reflexivity.
Qed.

Lemma readme_scenario_score_witness :
  exists r,
    interestRecommendation ["tech"; "programming"]%string (typescript generics) = Some r /\
    score r == 9 /\
    matchedInterests r = Some ["tech"; "programming"]%string.
Proof.
  apply (readme_scenario_score generics); reflexivity.
Defined.

(** C2 does not hold as stated: with a content that contains neither
    term the score is 9, not 6. *)
Lemma readme_scenario_not_six :
  JS.includes (JS.toLowerCase generics) "tech" = false /\
  JS.includes (JS.toLowerCase generics) "programming" = false /\
  exists r,
    interestRecommendation ["tech"; "programming"]%string (typescript generics) = Some r /\
    matchedInterests r = Some ["tech"; "programming"]%string /\
    score r == 9 /\ ~ score r == 6.
Proof.
  split; [reflexivity |]. split; [reflexivity |].
  eexists. split; [vm_compute; reflexivity |].
  repeat split; try (vm_compute; reflexivity).
  intros H. vm_compute in H. discriminate.
Qed.

Lemma pushed_length {A B : Type} (f : A -> option B) (l : list A) :
  (List.length (pushed f l) <= List.length l)%nat.
Proof.
  unfold pushed. induction l as [|x l IH]; simpl; [lia |].
  rewrite length_app. destruct (f x); simpl; lia.
Qed.

(** The matcher returns every recommendation that its loop pushes when the
    limit is not smaller than the number of articles. *)
Lemma getInterestBasedRecommendations_complete (user : User.t)
    (userInterests : list string) (articles : list Article.t) (limit : Z)
    (a : Article.t) (r : IRecommendation) :
  User.interests user = Some userInterests ->
  In a articles -> (JS.len articles <= limit)%Z ->
  interestRecommendation userInterests a = Some r ->
  In r (getInterestBasedRecommendations user articles limit).
Proof.
  intros Hu Ha Hl Hr. unfold getInterestBasedRecommendations. rewrite Hu.
  destruct userInterests as [|i l]; [discriminate |].
  change (JS.len (i :: l) =? 0)%Z with false. cbv iota.
  assert (H0 : (0 <= limit)%Z) by (unfold JS.len in Hl; lia).
  rewrite slice0_nonneg by exact H0. rewrite firstn_all2.
  - apply sort_In, in_pushed. now exists a.
  - rewrite (Permutation_length (sort_perm _ _)).
    pose proof (pushed_length (interestRecommendation (i :: l)) articles).
    unfold JS.len in Hl. lia.
Qed.

(** C10.  The matcher looks for a term in the title, the content and the
    summary joined with spaces.  The term "learning models" occurs in none
    of the fields of the article titled "Deep Learning" whose content
    starts with "Models", and yet it is matched, and the matcher returns
    the article, with the score 0.5, to a reader with this one interest;
    and whenever every term of a list occurs in the joined text only, the
    loop pushes the article with one half per term and nothing else, and
    the matcher returns it whenever the limit does not cut the list. *)
Theorem boundary_match_scores_bonus_only :
  (inSomeField learning "learning models" = false /\
   exists r,
     interestRecommendation ["learning models"]%string learning = Some r /\
     matchedInterests r = Some ["learning models"]%string /\
     score r == 0.5 /\
     getInterestBasedRecommendations (mkUser 1 "reader" ["learning models"%string])
       [techNews; learning] 6 = [r]) /\
  (forall (userInterests : list string) (a : Article.t),
     userInterests <> [] ->
     (forall i, In i userInterests ->
                JS.includes (articleText a) (JS.toLowerCase i) = true /\
                inSomeField a i = false) ->
     exists r,
       interestRecommendation userInterests a = Some r /\
       matchedInterests r = Some userInterests /\
       score r == 0.5 * inject_Z (JS.len userInterests) /\
       forall user articles limit,
         User.interests user = Some userInterests ->
         In a articles -> (JS.len articles <= limit)%Z ->
         In r (getInterestBasedRecommendations user articles limit)).
Proof.
  split.
  - split; [reflexivity |]. eexists. split; [vm_compute; reflexivity |].
    split; [vm_compute; reflexivity |]. split; vm_compute; reflexivity.
  - intros userInterests a Hne Hall.
    assert (Hm : matchedTerms a userInterests = userInterests).
    { unfold matchedTerms. clear Hne.
      induction userInterests as [|i l IH]; [reflexivity |]. simpl.
      destruct (Hall i (or_introl eq_refl)) as [-> _].
      f_equal. apply IH. intros j Hj. apply Hall. now right. }
    assert (Hp : sumQ (map (fieldPoints a) userInterests) == 0).
    { clear Hne Hm. induction userInterests as [|i l IH]; [reflexivity |].
      cbn [map sumQ fold_right].
      change (fold_right Qplus 0 (map (fieldPoints a) l))
        with (sumQ (map (fieldPoints a) l)).
      rewrite IH by (intros j Hj; apply Hall; now right).
      destruct (Hall i (or_introl eq_refl)) as [_ Hf].
      unfold inSomeField in Hf. rewrite !orb_false_iff in Hf.
      destruct Hf as [[Ht Hs] Hc]. unfold fieldPoints.
      rewrite Ht, Hs, Hc. reflexivity. }
    pose proof (interestRecommendation_spec a userInterests) as H.
    rewrite Hm in H.
    destruct (interestRecommendation userInterests a) as [r|] eqn:Hr;
      [| contradiction].
    destruct H as [_ [_ [Hmatched Hscore]]].
    exists r. split; [reflexivity |]. split; [exact Hmatched |].
    split; [rewrite Hscore, Hp; ring |].
    intros user articles limit Hu Ha Hl.
    now apply (getInterestBasedRecommendations_complete user userInterests articles limit a).
Qed.
End InterestMatcherClaims.

(** ** The popularity ranker *)

Section PopularityRanker.
Import InteractionService RecommendationService Spec.

Lemma has_In (s : list string) (x : string) : JS.has s x = true <-> In x s.
Proof.
  unfold JS.has. rewrite existsb_exists. split.
  - intros [y [Hy E]]. apply String.eqb_eq in E. now subst.
  - intros H. exists x. split; [exact H | apply String.eqb_refl].
Qed.

Lemma has_false (s : list string) (x : string) : JS.has s x = false <-> ~ In x s.
Proof.
  rewrite <- has_In. now destruct (JS.has s x).
Qed.

Lemma len_filter_map {A B : Type} (f : A -> B) (p : B -> bool) (l : list A) :
  JS.len (filter p (map f l)) = JS.len (filter (fun x => p (f x)) l).
Proof.
  unfold JS.len. f_equal.
  induction l as [|x l IH]; simpl; [reflexivity |].
  destruct (p (f x)); simpl; now rewrite IH.
Qed.

Lemma len_sort {A : Type} (after : A -> A -> bool) (l : list A) :
  JS.len (JS.sort after l) = JS.len l.
Proof.
  unfold JS.len. f_equal. apply Permutation_length, sort_perm.
Qed.

Lemma sortedByPopularity_In (db : Database) (articles : list Article.t)
    (limit : Z) (item : ArticleStat) :
  In item (sortedByPopularity db articles limit) ->
  exists a, In a articles /\ item = articleStat db a /\ (0 < popularityScore item)%Z.
Proof.
  unfold sortedByPopularity. intros H.
  apply slice0_In, sort_In, filter_In in H as [H Hp].
  apply in_map_iff in H as [a [<- Ha]].
  exists a. split; [exact Ha |]. split; [reflexivity |]. now apply Z.ltb_lt.
Qed.

Lemma getPopularityBasedRecommendations_In (db : Database)
    (articles : list Article.t) (limit : Z) (r : IRecommendation) :
  In r (getPopularityBasedRecommendations db articles limit) ->
  exists a, In a articles /\ article r = a /\
            (0 < popularityScore (articleStat db a))%Z /\
            score r == inject_Z (popularityScore (articleStat db a)) * 0.1.
Proof.
  unfold getPopularityBasedRecommendations. intros H.
  apply in_map_iff in H as [item [<- H]].
  apply sortedByPopularity_In in H as [a [Ha [-> Hp]]].
  exists a. split; [exact Ha |]. split; [reflexivity |].
  split; [exact Hp | reflexivity].
Qed.

Lemma getPopularityBasedRecommendations_len (db : Database)
    (articles : list Article.t) (limit : Z) :
  (0 <= limit)%Z ->
  JS.len (getPopularityBasedRecommendations db articles limit)
  = Z.min limit
      (JS.len (filter (fun a => (0 <? popularityScore (articleStat db a))%Z) articles)).
Proof.
  intros H. unfold getPopularityBasedRecommendations, sortedByPopularity.
  transitivity (JS.len (JS.slice0 limit
    (JS.sort (fun a b => (0 <? popularityScore b - popularityScore a)%Z)
       (filter (fun item => (0 <? popularityScore item)%Z)
          (map (articleStat db) articles))))).
  { unfold JS.len. now rewrite length_map. }
  rewrite slice0_len, len_sort, len_filter_map by exact H. reflexivity.
Qed.

(** C6.  The popularity score of an article is twice its likes plus its
    views; every recommendation of the popularity ranker is for one of the
    given articles, whose popularity score is positive, so that an article
    with the score 0 is discarded; and it carries the popularity score
    times 0.1, which is strictly less than the popularity score. *)
Theorem popularity_ranker (db : Database) (articles : list Article.t) (limit : Z) :
  (forall a,
     popularityScore (articleStat db a)
     = (countDocuments db (idOf a) like * 2 + countDocuments db (idOf a) view * 1)%Z) /\
  (forall r,
     In r (getPopularityBasedRecommendations db articles limit) ->
     exists a,
       In a articles /\ article r = a /\
       popularityScore (articleStat db a) <> 0%Z /\
       score r == inject_Z (popularityScore (articleStat db a)) * 0.1 /\
       score r < inject_Z (likes (stats (articleStat db a)) * 2
                           + views (stats (articleStat db a)))) /\
  (forall a r,
     popularityScore (articleStat db a) = 0%Z ->
     In r (getPopularityBasedRecommendations db articles limit) ->
     article r <> a).
Proof.
  repeat split.
  - unfold articleStat, getInteractionStats. cbn [popularityScore likes views]. lia.
  - intros r Hr.
    apply getPopularityBasedRecommendations_In in Hr as [a [Ha [Hr [Hp Hs]]]].
    exists a. split; [exact Ha |]. split; [exact Hr |].
    split; [lia |]. split; [exact Hs |].
    rewrite Hs. change (likes _ * 2 + views _)%Z with (popularityScore (articleStat db a)).
    rewrite Zlt_Qlt in Hp. change (inject_Z 0) with 0 in Hp. lra.
  - intros a r H0 Hr Ha.
    apply getPopularityBasedRecommendations_In in Hr as [x [_ [Hx [Hp _]]]].
    rewrite Ha in Hx. subst x. lia.
Qed.
End PopularityRanker.

(** ** The orchestrator *)

Section Populate.
Import InteractionService RecommendationService Spec.

Lemma existsb_find {A : Type} (p : A -> bool) (l : list A) :
  existsb p l = match find p l with Some _ => true | None => false end.
Proof.
  induction l as [|x l IH]; simpl; [reflexivity |]. now destruct (p x).
Qed.

Lemma filter_map_swap {A B : Type} (g : A -> B) (p : B -> bool) (l : list A) :
  filter p (map g l) = map g (filter (fun x => p (g x)) l).
Proof.
  induction l as [|x l IH]; simpl; [reflexivity |].
  destruct (p (g x)); simpl; now rewrite IH.
Qed.

Lemma filter_all {A : Type} (p : A -> bool) (l : list A) :
  (forall x, In x l -> p x = true) -> filter p l = l.
Proof.
  induction l as [|x l IH]; intros H; simpl; [reflexivity |].
  rewrite (H x (or_introl eq_refl)), IH; [reflexivity |].
  intros y Hy. apply H. now right.
Qed.

Lemma mapThrowing_map {A B C : Type} (g : A -> B) (f : B -> string + C)
    (l : list A) :
  mapThrowing f (map g l) = mapThrowing (fun x => f (g x)) l.
Proof.
  induction l as [|x l IH]; simpl; [reflexivity |]. now rewrite IH.
Qed.

(** A populated reference to an article prints as the identifier of no
    article: as a plain object when the article exists, and not at all when
    it does not. *)
Lemma toString_populateArticle (db : Database) (withSummary : bool)
    (articleId : string) :
  Mongoose.toString (populateArticle db withSummary articleId)
  = if articleExists db articleId then inr JS.objectToString
    else inl (JS.nullProperty "toString").
Proof.
  unfold populateArticle, articleExists. rewrite existsb_find.
  now destruct (find _ (Articles db)).
Qed.

Lemma mapThrowing_toString (db : Database) (withSummary : bool)
    (l : list Interaction.t) :
  mapThrowing (fun i => Mongoose.toString
                          (populateArticle db withSummary (Interaction.articleId i))) l
  = if forallb (fun i => articleExists db (Interaction.articleId i)) l
    then inr (map (fun _ => JS.objectToString) l)
    else inl (JS.nullProperty "toString").
Proof.
  induction l as [|i l IH]; [reflexivity |].
  cbn [mapThrowing forallb map]. rewrite toString_populateArticle, IH.
  destruct (articleExists db (Interaction.articleId i)); [| reflexivity].
  now destruct (forallb _ l).
Qed.

(** What the set of viewed articles holds: the string of a plain object,
    once for each view that the engine reads, and nothing when one of
    these views is of an article that the store does not hold. *)
Lemma viewedArticleIds_spec (db : Database) (userId : string) :
  viewedArticleIds db userId
  = if forallb (fun i => articleExists db (Interaction.articleId i))
         (recentViews db userId)
    then inr (map (fun _ => JS.objectToString) (recentViews db userId))
    else inl (JS.nullProperty "toString").
Proof.
  unfold viewedArticleIds, getInteractionsByUser, recentViews.
  rewrite filter_map_swap, mapThrowing_map.
  cbn [LeanInteraction.articleId LeanInteraction.interactionType].
  apply (mapThrowing_toString db true).
Qed.

Lemma isObjectId_not_object (id : string) :
  isObjectId id = true -> id <> JS.objectToString.
Proof.
  intros H ->. discriminate.
Qed.
End Populate.

Section Orchestrator.
Import InteractionService RecommendationService Spec.
Variable db : Database.

Lemma newestFirst_perm {A : Type} (createdAt : A -> Z) (docs : list A) :
  Permutation (newestFirst createdAt docs) docs.
Proof.
  apply sort_perm.
Qed.

Lemma page_In {A : Type} (limit offset : nat) (docs : list A) (x : A) :
  In x (page limit offset docs) -> In x docs.
Proof.
  unfold page. intros H. apply In_firstn in H.
  rewrite <- (firstn_skipn offset docs). apply in_or_app. now right.
Qed.

Lemma page_all {A : Type} (limit : nat) (docs : list A) :
  (List.length docs <= limit)%nat -> page limit 0 docs = docs.
Proof.
  intros H. unfold page. simpl. now apply firstn_all2.
Qed.


Lemma getArticles_In (limit offset : nat) (a : Article.t) :
  In a (ArticleService.getArticles db limit offset) -> In a (Articles db).
Proof.
  intros H. apply page_In in H.
  now apply (Permutation_in _ (newestFirst_perm _ _)) in H.
Qed.


Lemma unviewedArticles_In (viewed : list string) (a : Article.t) :
  In a (unviewedArticles db viewed) ->
  In a (Articles db) /\ ~ In (idOf a) viewed.
Proof.
  unfold unviewedArticles. intros H.
  apply filter_In in H as [H Hv]. split.
  - eapply getArticles_In, H.
  - apply has_false. now apply negb_true_iff.
Qed.

(** In a store whose articles carry identifiers, a set that holds strings
    of plain objects only excludes no article. *)
Lemma unviewedArticles_all (viewed : list string) :
  articlesHaveObjectIds db ->
  Forall (fun id => id = JS.objectToString) viewed ->
  unviewedArticles db viewed = ArticleService.getArticles db 1000 0.
Proof.
  intros Hids Hv. unfold unviewedArticles. apply filter_all.
  intros a Ha. apply negb_true_iff, has_false. intros Hin.
  unfold articlesHaveObjectIds in Hids. rewrite Forall_forall in Hids, Hv.
  apply (isObjectId_not_object (idOf a)); [| now apply Hv].
  apply Hids. eapply getArticles_In, Ha.
Qed.


Lemma interestRecommendations_In (user : User.t) (viewed : list string)
    (limit : Z) (r : IRecommendation) :
  In r (interestRecommendations db user viewed limit) ->
  In (article r) (unviewedArticles db viewed).
Proof.
  unfold interestRecommendations. intros H.
  apply getInterestBasedRecommendations_In in H as [ui [a [_ [Ha Hr]]]].
  pose proof (interestRecommendation_spec a ui) as Hs.
  rewrite Hr in Hs. destruct Hs as [_ [-> _]]. exact Ha.
Qed.


Lemma popularityRecommendations_In (user : User.t) (viewed : list string)
    (limit : Z) (r : IRecommendation) :
  In r (popularityRecommendations db user viewed limit) ->
  In (article r) (unviewedArticles db viewed) /\
  ~ In (idOf (article r)) (excludeIds db user viewed limit).
Proof.
  unfold popularityRecommendations. cbv zeta.
  destruct (0 <? popularityBasedLimit db user viewed limit)%Z; [| intros []].
  intros H. apply getPopularityBasedRecommendations_In in H as [a [Ha [-> _]]].
  apply filter_In in Ha as [Ha Hx]. split; [exact Ha |].
  apply has_false. now apply negb_true_iff.
Qed.


(** What a successful call returns. *)
Lemma getRecommendationsForUser_inr (userId : string) (limit : Z)
    (resp : IRecommendationResponse) :
  getRecommendationsForUser db userId limit = inr resp ->
  exists u viewed,
    UserService.getUserById db userId = Some u /\
    viewedArticleIds db userId = inr viewed /\
    recommendations resp
    = JS.slice0 limit
        (JS.sort byScore (interestRecommendations db u viewed limit
                          ++ popularityRecommendations db u viewed limit)) /\
    total resp = JS.len (recommendations resp) /\
    interestBasedCount (metadata resp)
    = JS.len (interestRecommendations db u viewed limit) /\
    popularityBasedCount (metadata resp)
    = JS.len (popularityRecommendations db u viewed limit) /\
    id (user resp) = User._id u /\ username (user resp) = User.username u.
Proof.
  unfold getRecommendationsForUser.
  destruct (UserService.getUserById db userId) as [u|]; [| discriminate].
  destruct (viewedArticleIds db userId) as [message | viewed]; [discriminate |].
  cbn [rethrow]. intros H. injection H as <-. exists u, viewed.
  cbn [recommendations total metadata interestBasedCount popularityBasedCount
       user id username].
  repeat split. unfold JS.len. rewrite length_app. lia.
Qed.

(** When a call succeeds and when it fails. *)
Lemma getRecommendationsForUser_cases (userId : string) (limit : Z) :
  match UserService.getUserById db userId with
  | None =>
      getRecommendationsForUser db userId limit
      = inl "Failed to generate recommendations: User not found"%string
  | Some _ =>
      if forallb (fun i => articleExists db (Interaction.articleId i))
           (recentViews db userId)
      then exists resp, getRecommendationsForUser db userId limit = inr resp
      else getRecommendationsForUser db userId limit
           = inl ("Failed to generate recommendations: "
                    ++ JS.nullProperty "toString")%string
  end.
Proof.
  unfold getRecommendationsForUser.
  destruct (UserService.getUserById db userId) as [u|]; [| reflexivity].
  rewrite viewedArticleIds_spec.
  destruct (forallb _ (recentViews db userId)); [| reflexivity].
  cbn [rethrow]. eexists. reflexivity.
Qed.

Lemma recommendation_unviewed (userId : string) (limit : Z)
    (resp : IRecommendationResponse) (r : IRecommendation) :
  getRecommendationsForUser db userId limit = inr resp ->
  In r (recommendations resp) ->
  In (article r) (Articles db).
Proof.
  intros H Hr. apply getRecommendationsForUser_inr in H as [user [viewed [_ [_ [E _]]]]].
  rewrite E in Hr. apply slice0_In, sort_In, in_app_or in Hr as [Hr | Hr].
  - eapply unviewedArticles_In, interestRecommendations_In, Hr.
  - eapply unviewedArticles_In, popularityRecommendations_In, Hr.
Qed.
End Orchestrator.
(** ** The order of a sorted array *)

Section SortOrder.
Context {A : Type} (after : A -> A -> bool).
Hypothesis after_asym : forall x y, after x y = true -> after y x = false.
Hypothesis before_trans :
  forall x y z, after x y = false -> after y z = false -> after x z = false.

Lemma place_sorted (x : A) (l : list A) :
  StronglySorted (fun a b => after a b = false) l ->
  StronglySorted (fun a b => after a b = false) (JS.place after x l).
Proof.
  induction l as [|y l IH]; intros H; simpl.
  - repeat constructor.
  - inversion H as [|? ? Hl Hy]; subst.
    destruct (after x y) eqn:E.
    + constructor; [now apply IH |].
      rewrite Forall_forall in *. intros z Hz.
      apply (Permutation_in _ (place_perm after x l)) in Hz as [<- | Hz].
      * now apply after_asym.
      * now apply Hy.
    + constructor; [exact H |].
      constructor; [exact E |].
      rewrite Forall_forall in *. intros z Hz.
      apply (before_trans x y z E). now apply Hy.
Qed.

Lemma sort_sorted (l : list A) :
  StronglySorted (fun a b => after a b = false) (JS.sort after l).
Proof.
  induction l as [|x l IH]; simpl; [constructor | now apply place_sorted].
Qed.
End SortOrder.

Lemma StronglySorted_split {A : Type} (R : A -> A -> Prop) (n : nat) (l : list A) :
  StronglySorted R l ->
  forall x y, In x (firstn n l) -> In y (skipn n l) -> R x y.
Proof.
  revert n. induction l as [|z l IH]; intros [|n] H x y Hx Hy; simpl in *;
    try contradiction.
  inversion H as [|? ? Hl Hz]; subst. destruct Hx as [<- | Hx].
  - rewrite Forall_forall in Hz. apply Hz.
    rewrite <- (firstn_skipn n l). apply in_or_app. now right.
  - now apply (IH n).
Qed.

Lemma gt0_lt (p q : Q) : JS.gt0 (q - p) = true <-> p < q.
Proof.
  unfold JS.gt0. rewrite (Qlt_minus_iff p q), Qlt_alt.
  change (q + - p) with (q - p).
  rewrite <- (Qcompare_antisym (q - p) 0).
  destruct (q - p ?= 0); simpl; split; congruence.
Qed.

Lemma gt0_le (p q : Q) : JS.gt0 (q - p) = false <-> q <= p.
Proof.
  rewrite <- not_true_iff_false, gt0_lt. split; [apply Qnot_lt_le | apply Qle_not_lt].
Qed.

(** An array sorted with the comparator [(a, b) => b.score - a.score] is in
    descending order of score. *)
Lemma sort_byScore_descending (l : list RecommendationService.IRecommendation) :
  Spec.descending (JS.sort RecommendationService.byScore l).
Proof.
  unfold Spec.descending.
  eapply StronglySorted_ind with
      (P := fun l => StronglySorted
                       (fun a b => RecommendationService.score b
                                   <= RecommendationService.score a) l);
    [constructor | | apply (sort_sorted RecommendationService.byScore)].
  - intros a l' _ IH Hall. constructor; [exact IH |].
    eapply Forall_impl; [| exact Hall]. intros b. apply gt0_le.
  - intros x y. unfold RecommendationService.byScore. rewrite gt0_lt, gt0_le.
    apply Qlt_le_weak.
  - intros x y z. unfold RecommendationService.byScore. rewrite !gt0_le.
    intros H1 H2. now apply Qle_trans with (RecommendationService.score y).
Qed.

Lemma newestFirst_sorted {A : Type} (createdAt : A -> Z) (docs : list A) :
  StronglySorted (fun x y => (createdAt y <= createdAt x)%Z) (newestFirst createdAt docs).
Proof.
  unfold newestFirst.
  eapply StronglySorted_ind with
      (P := fun l => StronglySorted (fun x y => (createdAt y <= createdAt x)%Z) l);
    [constructor | | apply (sort_sorted (fun x y => (createdAt x <? createdAt y)%Z))].
  - intros a l' _ IH Hall. constructor; [exact IH |].
    eapply Forall_impl; [| exact Hall]. intros b. cbv beta. rewrite Z.ltb_ge. trivial.
  - intros x y. rewrite Z.ltb_lt, Z.ltb_ge. lia.
  - intros x y z. rewrite !Z.ltb_ge. lia.
Qed.

(** ** The trending aggregator *)

Section Trending.
Import InteractionService RecommendationService Spec.



Lemma set_keys {V : Type} (P : string -> Prop) (m : @JS.Map V) (k : string) (v : V) :
  Forall (fun e => P (fst e)) m -> P k -> Forall (fun e => P (fst e)) (JS.set m k v).
Proof.
  intros Hm Hk. induction m as [|[k0 v0] m IH]; simpl.
  - now repeat constructor.
  - inversion Hm as [|? ? H0 Hm']; subst.
    destruct (String.eqb k0 k); constructor; auto.
Qed.

(** The loop that counts never sets another key than the string of a plain
    object, and it fails exactly when one of the interactions is of an
    article that the store does not hold. *)
Lemma countInteractions_populated (db : Database)
    (lean : Interaction.t -> LeanInteraction.t) (l : list Interaction.t) :
  (forall i, LeanInteraction.articleId (lean i)
             = populateArticle db false (Interaction.articleId i)) ->
  forall m : JS.Map,
    Forall (fun e : string * Counter => fst e = JS.objectToString) m ->
    if forallb (fun i => articleExists db (Interaction.articleId i)) l
    then exists m',
           countInteractions (map lean l) m = inr m' /\
           Forall (fun e : string * Counter => fst e = JS.objectToString) m'
    else countInteractions (map lean l) m = inl (JS.nullProperty "toString").
Proof.
  intros Hlean. induction l as [|i l IH]; intros m Hm.
  - now exists m.
  - cbn [map forallb countInteractions]. unfold countInteraction.
    rewrite Hlean, toString_populateArticle.
    destruct (articleExists db (Interaction.articleId i)); [| reflexivity].
    cbn [andb]. apply IH.
    now apply (set_keys (fun k => k = JS.objectToString)).
Qed.

Lemma pushed_none {A B : Type} (f : A -> option B) (l : list A) :
  Forall (fun x => f x = None) l -> pushed f l = [].
Proof.
  unfold pushed. induction 1 as [|x l Hx _ IH]; simpl; [reflexivity |].
  now rewrite Hx, IH.
Qed.

(** The string of a plain object is the identifier of no article: the
    lookup fails, and the entry is skipped. *)
Lemma trendingRecommendation_object (db : Database) (c : Counter) :
  ArticleService.getArticleById db JS.objectToString
  = inl ("Failed to retrieve article: "
           ++ Mongoose.castError JS.objectToString "_id" "Article")%string /\
  trendingRecommendation db (JS.objectToString, c) = None.
Proof.
  split; reflexivity.
Qed.

(** What getTrendingArticles returns, for every store and every limit. *)
Lemma getTrendingArticles_spec (db : Database) (limit : Z) :
  getTrendingArticles db limit
  = if forallb (fun i => articleExists db (Interaction.articleId i))
         (recentInteractions db)
    then inr []
    else inl ("Failed to get trending articles: " ++ JS.nullProperty "toString")%string.
Proof.
  unfold getTrendingArticles, articleInteractionCount, getAllInteractions.
  fold (recentInteractions db).
  match goal with
  | |- context [countInteractions (map ?lean _) _] =>
      pose proof (countInteractions_populated db lean (recentInteractions db)
                    (fun i => eq_refl) [] (Forall_nil _)) as H
  end.
  destruct (forallb _ (recentInteractions db)).
  - destruct H as [m [-> Hm]]. cbn [rethrow]. f_equal.
    rewrite pushed_none.
    + cbn [JS.sort fold_right]. unfold JS.slice0.
      destruct (limit <? 0)%Z; apply firstn_nil.
    + eapply Forall_impl; [| exact Hm]. intros [k c] Hk. cbn [fst] in Hk. subst k.
      apply trendingRecommendation_object.
  - rewrite H. reflexivity.
Qed.
End Trending.
(** * Further properties of the engine *)

Section EngineFacts.
Import InteractionService RecommendationService Spec.

Lemma len_nonneg {A : Type} (l : list A) : (0 <= JS.len l)%Z.
Proof.
  unfold JS.len. lia.
Qed.

Lemma interestBasedLimit_bounds (limit : Z) :
  (0 <= limit)%Z -> (0 <= interestBasedLimit limit <= limit)%Z.
Proof.
  intros H. unfold interestBasedLimit.
  rewrite Zle_Qle in H. change (inject_Z 0) with 0 in H. split.
  - rewrite <- (Qceiling_Z 0). apply Qceiling_resp_le.
    change (inject_Z 0) with 0. lra.
  - rewrite <- (Qceiling_Z limit) at 2. apply Qceiling_resp_le. lra.
Qed.

Lemma getInterestBasedRecommendations_len (user : User.t)
    (articles : list Article.t) (limit : Z) :
  (0 <= limit)%Z ->
  (JS.len (getInterestBasedRecommendations user articles limit) <= limit)%Z.
Proof.
  intros H. unfold getInterestBasedRecommendations.
  destruct (JS.len _ =? 0)%Z; [exact H |].
  rewrite slice0_len by exact H. lia.
Qed.

Lemma has_app (s s' : list string) (x : string) :
  JS.has (s ++ s') x = JS.has s x || JS.has s' x.
Proof.
  apply existsb_app.
Qed.

Lemma filter_twice {A : Type} (p q : A -> bool) (l : list A) :
  filter q (filter p l) = filter (fun x => p x && q x) l.
Proof.
  induction l as [|x l IH]; simpl; [reflexivity |].
  destruct (p x); simpl; [destruct (q x) |]; now rewrite IH.
Qed.

(** The articles that the popularity pass ranks are the eligible ones. *)
Lemma popularity_candidates (db : Database) (user : User.t)
    (viewed : list string) (limit : Z) :
  filter (fun a => (0 <? popularityScore (articleStat db a))%Z)
    (filter (fun a => negb (JS.has (excludeIds db user viewed limit) (idOf a)))
       (unviewedArticles db viewed))
  = eligible db viewed (interestRecommendations db user viewed limit).
Proof.
  unfold unviewedArticles, eligible, excludeIds. rewrite !filter_twice.
  apply filter_ext. intros a. rewrite has_app.
  change (map (fun r => idOf (article r)) ?l) with (articleIds l).
  cbn [popularityScore articleStat].
  destruct (JS.has viewed (idOf a)), (JS.has (articleIds _) (idOf a)); reflexivity.
Qed.

Lemma popularityRecommendations_len (db : Database) (user : User.t)
    (viewed : list string) (limit : Z) :
  JS.len (popularityRecommendations db user viewed limit)
  = if (0 <? popularityBasedLimit db user viewed limit)%Z
    then Z.min (popularityBasedLimit db user viewed limit)
               (JS.len (eligible db viewed
                          (interestRecommendations db user viewed limit)))
    else 0%Z.
Proof.
  unfold popularityRecommendations. cbv zeta.
  destruct (Z.ltb_spec 0 (popularityBasedLimit db user viewed limit)) as [H | H];
    [| reflexivity].
  rewrite getPopularityBasedRecommendations_len by lia.
  now rewrite popularity_candidates.
Qed.

(** The interest pass is asked for ceil(limit x 0.6) results: five times
    their number is at most three times the limit plus four. *)
Lemma interestBasedLimit_ceil (limit : Z) :
  (5 * interestBasedLimit limit <= 3 * limit + 4)%Z.
Proof.
  unfold interestBasedLimit.
  pose proof (Qceiling_lt (inject_Z limit * 0.6)) as H.
  assert (Hq : inject_Z (5 * Qceiling (inject_Z limit * 0.6)) < inject_Z (3 * limit + 5)).
  { rewrite !inject_Z_mult, !inject_Z_plus, !inject_Z_mult.
    unfold Z.sub in H. rewrite inject_Z_plus, inject_Z_opp in H.
    change (inject_Z 1) with 1 in H.
    change (inject_Z 5) with 5. change (inject_Z 3) with 3. lra. }
  rewrite <- Zlt_Qlt in Hq. lia.
Qed.

(** The final cut removes nothing from what the two passes collected. *)
Lemma collected_within_limit (db : Database) (user : User.t)
    (viewed : list string) (limit : Z) :
  (0 <= limit)%Z ->
  (JS.len (interestRecommendations db user viewed limit)
   + JS.len (popularityRecommendations db user viewed limit) <= limit)%Z.
Proof.
  intros Hl. pose proof (interestBasedLimit_bounds limit Hl) as [Hb0 Hb].
  assert (Hn : (JS.len (interestRecommendations db user viewed limit)
                <= interestBasedLimit limit)%Z)
    by (apply getInterestBasedRecommendations_len; exact Hb0).
  rewrite popularityRecommendations_len. unfold popularityBasedLimit.
  pose proof (len_nonneg (eligible db viewed
                            (interestRecommendations db user viewed limit))).
  destruct (Z.ltb_spec 0 (limit - JS.len (interestRecommendations db user viewed limit)));
    lia.
Qed.

Lemma sumQ_fieldPoints_nonneg (a : Article.t) (l : list string) :
  0 <= sumQ (map (fieldPoints a) l).
Proof.
  induction l as [|i l IH]; [apply Qle_refl |].
  change (sumQ (map (fieldPoints a) (i :: l)))
    with (fieldPoints a i + sumQ (map (fieldPoints a) l)).
  pose proof (fieldPoints_bounds a i) as [Hi _]. lra.
Qed.

Lemma interestRecommendation_explained (userInterests : list string)
    (a : Article.t) (r : IRecommendation) :
  interestRecommendation userInterests a = Some r ->
  exists m, matchedInterests r = Some m /\ m <> [] /\
            0.5 * inject_Z (JS.len m) <= score r.
Proof.
  intros H. pose proof (interestRecommendation_spec a userInterests) as Hs.
  rewrite H in Hs. destruct Hs as [Hne [_ [Hm Hscore]]].
  exists (matchedTerms a userInterests). split; [exact Hm |]. split; [exact Hne |].
  rewrite Hscore.
  pose proof (sumQ_fieldPoints_nonneg a (matchedTerms a userInterests)) as Hp.
  lra.
Qed.

Lemma StronglySorted_map {A B : Type} (R : B -> B -> Prop) (f : A -> B) (l : list A) :
  StronglySorted (fun x y => R (f x) (f y)) l -> StronglySorted R (map f l).
Proof.
  induction 1 as [|x l Hl IH Hx]; simpl; constructor; [exact IH |].
  rewrite Forall_forall in *. intros y Hy.
  apply in_map_iff in Hy as [z [<- Hz]]. now apply Hx.
Qed.

Lemma sortedByPopularity_sorted (db : Database) (articles : list Article.t)
    (limit : Z) :
  StronglySorted (fun a b => (popularityScore b <= popularityScore a)%Z)
    (sortedByPopularity db articles limit).
Proof.
  unfold sortedByPopularity.
  destruct (slice0_firstn limit
              (JS.sort (fun a b => (0 <? popularityScore b - popularityScore a)%Z)
                 (filter (fun item => (0 <? popularityScore item)%Z)
                    (map (articleStat db) articles)))) as [n ->].
  apply StronglySorted_firstn.
  eapply StronglySorted_ind with
      (P := fun l => StronglySorted
                       (fun a b => (popularityScore b <= popularityScore a)%Z) l);
    [constructor | |
     apply (sort_sorted (fun a b => (0 <? popularityScore b - popularityScore a)%Z))].
  - intros a l' _ IH Hall. constructor; [exact IH |].
    eapply Forall_impl; [| exact Hall]. intros b. cbv beta. rewrite Z.ltb_ge. lia.
  - intros x y. rewrite Z.ltb_lt, Z.ltb_ge. lia.
  - intros x y z. rewrite !Z.ltb_ge. lia.
Qed.

Lemma slice0_descending (limit : Z) (l : list IRecommendation) :
  descending l -> descending (JS.slice0 limit l).
Proof.
  destruct (slice0_firstn limit l) as [n ->]. apply StronglySorted_firstn.
Qed.
End EngineFacts.

(** ** The claims about the orchestrator and the controller *)

Section EngineClaims.
Import InteractionService RecommendationService Spec Sample.


Lemma isObjectId_objectIdError (id : string) :
  isObjectId id = true -> RecommendationController.objectIdError id = None.
Proof.
  unfold isObjectId, Mongoose.castObjectId, RecommendationController.objectIdError.
  change RecommendationController.isHexDigit with Mongoose.isHexDigit.
  destruct ((String.length id =? 24)%nat
            && forallb Mongoose.isHexDigit (list_ascii_of_string id)) eqn:E;
    [| discriminate].
  intros _. destruct id; [discriminate | reflexivity].
Qed.

(** C3: the code does not do what the claim says.  Reader 1 of the small
    store has viewed article 5, and article 5 is the first recommendation
    the reader gets.  The set of viewed articles is built from interactions
    whose [articleId] has been populated: it holds the string of a plain
    object for every view and the identifier of no article, so that, in a
    store whose articles carry identifiers, no article is excluded. *)
Theorem viewed_article_is_recommended :
  (In (interaction 1 5 view 1) (Interactions small) /\
   viewedArticleIds small (userOid 1) = inr [JS.objectToString] /\
   exists resp,
     getRecommendationsForUser small (userOid 1) 10 = inr resp /\
     nth_error (articleIds (recommendations resp)) 0 = Some (articleOid 5)) /\
  (forall db userId viewed,
     viewedArticleIds db userId = inr viewed ->
     Forall (fun id => id = JS.objectToString) viewed /\
     (articlesHaveObjectIds db ->
      unviewedArticles db viewed = ArticleService.getArticles db 1000 0)).
Proof.
  split.
  - split; [now left |]. split; [vm_compute; reflexivity |].
    eexists. split; vm_compute; reflexivity.
  - intros db userId viewed H. rewrite viewedArticleIds_spec in H.
    destruct (forallb _ (recentViews db userId)); [| discriminate].
    injection H as <-.
    assert (Hv : Forall (fun id => id = JS.objectToString)
                   (map (fun _ : Interaction.t => JS.objectToString)
                      (recentViews db userId))).
    { apply Forall_forall. intros id Hid.
      now apply in_map_iff in Hid as [i [<- _]]. }
    split; [exact Hv |]. intros Hids. now apply unviewedArticles_all.
Qed.



(** C7.  For a user that resolves and whose views are all of articles that
    the store holds, the call succeeds, and the popularity pass is asked
    for the limit minus the number of interest-based results actually
    returned: with n such results, which are those of the interest pass
    asked for ceil(limit x 0.6), the response counts as popularity-based
    results [limit - n] of the articles still eligible, or all of them when
    they are fewer, and none when [limit - n] is not positive; so that a
    limit of 10 with 4 interest-based results leaves room for 6. *)
Theorem popularity_limit_from_actual_count (db : Database) (userId : string)
    (limit : Z) (u : User.t) (viewed : list string) :
  UserService.getUserById db userId = Some u ->
  viewedArticleIds db userId = inr viewed ->
  exists resp,
    getRecommendationsForUser db userId limit = inr resp /\
    let interest :=
      getInterestBasedRecommendations u (unviewedArticles db viewed)
        (Qceiling (inject_Z limit * 0.6)) in
    let n := interestBasedCount (metadata resp) in
    let p := popularityBasedCount (metadata resp) in
    n = JS.len interest /\
    p = (if (0 <? limit - n)%Z
         then Z.min (limit - n) (JS.len (eligible db viewed interest))
         else 0%Z) /\
    (limit = 10%Z -> n = 4%Z -> p = Z.min 6 (JS.len (eligible db viewed interest))) /\
    ((limit - n <= 0)%Z ->
     Forall (fun r => matchedInterests r <> None) (recommendations resp)) /\
    ((0 <= limit)%Z -> total resp = (n + p)%Z).
Proof.
  intros Hu Hv.
  pose proof (getRecommendationsForUser_cases db userId limit) as Hc.
  pose proof Hv as Hall. rewrite viewedArticleIds_spec in Hall.
  rewrite Hu in Hc.
  destruct (forallb _ (recentViews db userId)); [| discriminate]. clear Hall.
  destruct Hc as [resp E]. exists resp. split; [exact E |].
  apply getRecommendationsForUser_inr in E
    as [u' [viewed' [Hu' [Hv' [Hr [Ht [Hi [Hp _]]]]]]]].
  rewrite Hu in Hu'. injection Hu' as <-. rewrite Hv in Hv'. injection Hv' as <-.
  cbv zeta.
  change (getInterestBasedRecommendations u (unviewedArticles db viewed)
            (Qceiling (inject_Z limit * 0.6)))
    with (interestRecommendations db u viewed limit).
  pose proof (popularityRecommendations_len db u viewed limit) as Hpl.
  unfold popularityBasedLimit in Hpl. rewrite <- Hi, <- Hp in Hpl.
  split; [exact Hi |]. split; [exact Hpl |].
  split; [| split].
  - intros -> Hn. rewrite Hpl, Hn. reflexivity.
  - intros Hn. apply Forall_forall. intros r Hin.
    assert (Hnone : popularityRecommendations db u viewed limit = []).
    { unfold popularityRecommendations. cbv zeta.
      replace (0 <? popularityBasedLimit db u viewed limit)%Z with false;
        [reflexivity |].
      symmetry. apply Z.ltb_ge. unfold popularityBasedLimit. now rewrite <- Hi. }
    rewrite Hr, Hnone, app_nil_r in Hin. apply slice0_In, sort_In in Hin.
    apply getInterestBasedRecommendations_In in Hin as [ui [a [_ [_ Hrec]]]].
    pose proof (interestRecommendation_spec a ui) as Hs. rewrite Hrec in Hs.
    destruct Hs as [_ [_ [-> _]]]. discriminate.
  - intros Hl. rewrite Ht, Hr, slice0_len, len_sort by exact Hl.
    pose proof (collected_within_limit db u viewed limit Hl) as Hc.
    unfold JS.len at 1. rewrite length_app.
    rewrite Hi, Hp. unfold JS.len in *. lia.
Qed.

Lemma popularity_limit_from_actual_count_witness :
  exists resp,
    getRecommendationsForUser shortfall (userOid 1) 10 = inr resp /\
    interestBasedCount (metadata resp) = 4%Z /\
    popularityBasedCount (metadata resp) = 6%Z /\
    total resp = 10%Z.
Proof.
  destruct (popularity_limit_from_actual_count shortfall (userOid 1) 10
              (mkUser 1 "reader" ["tech"%string]) [] eq_refl eq_refl)
    as [resp [E [Hn [_ [H6 [_ Ht]]]]]].
  assert (H4 : interestBasedCount (metadata resp) = 4%Z)
    by (rewrite Hn; vm_compute; reflexivity).
  assert (Hp : popularityBasedCount (metadata resp) = 6%Z)
    by (rewrite (H6 eq_refl H4); vm_compute; reflexivity).
  exists resp. split; [exact E |]. split; [exact H4 |]. split; [exact Hp |].
  rewrite Ht, H4, Hp; [reflexivity | lia].
Defined.

(** C9.  For an identifier that resolves to no user,
    getRecommendationsForUser fails with the error "User not found", thrown
    again with the prefix of the method, and returns no response at all, and
    the controller hands this error on instead of a body.  For an identifier
    that resolves, the call does not fail with this error: it returns a
    response, which echoes the user, when every article the user has viewed
    is in the store, and fails with another error otherwise. *)
Theorem unknown_user_fails_whole_call (db : Database) (userId : string) (limit : Z) :
  isObjectId userId = true ->
  match UserService.getUserById db userId with
  | None =>
      getRecommendationsForUser db userId limit
      = inl "Failed to generate recommendations: User not found"%string /\
      (forall req,
         RecommendationController.params_userId req = userId ->
         RecommendationController.limitOf req = limit ->
         (1 <= limit <= 50)%Z ->
         RecommendationController.getRecommendationsForUser db req
         = RecommendationController.serviceError
             "Failed to generate recommendations: User not found")
  | Some u =>
      getRecommendationsForUser db userId limit
      <> inl "Failed to generate recommendations: User not found"%string /\
      (forall resp,
         getRecommendationsForUser db userId limit = inr resp ->
         id (user resp) = User._id u /\ username (user resp) = User.username u) /\
      (forallb (fun i => articleExists db (Interaction.articleId i))
         (recentViews db userId) = true ->
       exists resp, getRecommendationsForUser db userId limit = inr resp)
  end.
Proof.
  intros Hid.
  pose proof (getRecommendationsForUser_cases db userId limit) as Hc.
  destruct (UserService.getUserById db userId) as [u|] eqn:E.
  - split; [| split].
    + destruct (forallb _ (recentViews db userId)).
      * destruct Hc as [resp ->]. discriminate.
      * rewrite Hc. intros H. vm_compute in H. discriminate.
    + intros resp H.
      apply getRecommendationsForUser_inr in H
        as [u' [viewed [Hu' [_ [_ [_ [_ [_ [H1 H2]]]]]]]]].
      rewrite E in Hu'. injection Hu' as <-. now split.
    + intros Hall. now rewrite Hall in Hc.
  - split; [exact Hc |].
    intros req Hreq Hlim Hl.
    unfold RecommendationController.getRecommendationsForUser.
    rewrite Hreq, (isObjectId_objectIdError userId Hid), Hlim. cbv zeta.
    replace ((limit <? 1) || (50 <? limit))%Z with false
      by (symmetry; apply orb_false_iff; rewrite !Z.ltb_ge; lia).
    now rewrite Hc.
Qed.

Lemma unknown_user_fails_whole_call_witness :
  getRecommendationsForUser small (userOid 9) 10
  = inl "Failed to generate recommendations: User not found"%string /\
  getRecommendationsForUser small (userOid 1) 10
  <> inl "Failed to generate recommendations: User not found"%string /\
  getRecommendationsForUser orphanView (userOid 1) 10
  <> inl "Failed to generate recommendations: User not found"%string.
Proof.
  split; [| split].
  - exact (proj1 (unknown_user_fails_whole_call small (userOid 9) 10 eq_refl)).
  - exact (proj1 (unknown_user_fails_whole_call small (userOid 1) 10 eq_refl)).
  - exact (proj1 (unknown_user_fails_whole_call orphanView (userOid 1) 10 eq_refl)).
Defined.
End EngineClaims.

Section ControllerClaims.
Import RecommendationService Spec Sample.
Import RecommendationController.

(** C5, as amended.  The controller reads the limit from the query and
    takes 10 when it is missing; a request whose identifier is well formed
    and whose limit lies outside [1, 50] is rejected with the error "Limit
    must be between 1 and 50" and the status 400; a limit within [1, 50]
    is handed to the service as it is, which returns at most that many
    recommendations. *)
Theorem limit_is_validated_not_clamped (db : Database) (req : Request) :
  match objectIdError (params_userId req) with
  | Some message =>
      RecommendationController.getRecommendationsForUser db req
      = createError message 400
  | None =>
      let limit := limitOf req in
      (query_limit req = None -> limit = 10%Z) /\
      (forall s, query_limit req = Some s ->
                 limit = match JS.parseInt s with
                         | Some n => if (n =? 0)%Z then 10%Z else n
                         | None => 10%Z
                         end) /\
      ((limit < 1 \/ 50 < limit)%Z ->
       RecommendationController.getRecommendationsForUser db req
       = createError "Limit must be between 1 and 50" 400) /\
      ((1 <= limit <= 50)%Z ->
       match RecommendationService.getRecommendationsForUser db (params_userId req) limit with
       | inl message =>
           RecommendationController.getRecommendationsForUser db req
           = serviceError message
       | inr resp =>
           exists body,
             RecommendationController.getRecommendationsForUser db req = json200 body /\
             data body = recommendations resp /\
             pagination_limit (pagination body) = limit /\
             (JS.len (data body) <= limit)%Z
       end)
  end.
Proof.
  unfold RecommendationController.getRecommendationsForUser.
  destruct (objectIdError (params_userId req)); [reflexivity |].
  cbv zeta. set (limit := limitOf req). split; [| split; [| split]].
  - unfold limit, limitOf. now intros ->.
  - intros s Hs. unfold limit, limitOf. rewrite Hs.
    destruct (JS.parseInt s) as [[|n|n]|]; reflexivity.
  - intros H.
    replace ((limit <? 1) || (50 <? limit))%Z with true; [reflexivity |].
    symmetry. apply orb_true_iff. rewrite !Z.ltb_lt. exact H.
  - intros H.
    replace ((limit <? 1) || (50 <? limit))%Z with false
      by (symmetry; apply orb_false_iff; rewrite !Z.ltb_ge; lia).
    destruct (RecommendationService.getRecommendationsForUser db _ limit)
      as [message | resp] eqn:E; [reflexivity |].
    eexists. split; [reflexivity |]. cbn [data pagination pagination_limit].
    split; [reflexivity |]. split; [reflexivity |].
    apply getRecommendationsForUser_inr in E as [u [viewed [_ [_ [-> _]]]]].
    rewrite slice0_len by lia. lia.
Qed.

(** C5 does not hold as stated: a limit of 100 is not processed as 50 but
    rejected, while a limit of 50 is served; and the service, asked for 0
    recommendations, returns none where a limit clamped to 1 returns
    one. *)
Lemma out_of_range_limit_is_rejected :
  claimedLimit 100 = 50%Z /\
  RecommendationController.getRecommendationsForUser small (request 1 (Some "100"%string))
  = createError "Limit must be between 1 and 50" 400 /\
  (exists body,
     RecommendationController.getRecommendationsForUser small (request 1 (Some "50"%string))
     = json200 body /\ JS.len (data body) = 13%Z) /\
  claimedLimit 0 = 1%Z /\
  (exists resp0 resp1,
     RecommendationService.getRecommendationsForUser small (userOid 1) 0 = inr resp0 /\
     RecommendationService.getRecommendationsForUser small (userOid 1) 1 = inr resp1 /\
     recommendations resp0 = [] /\ JS.len (recommendations resp1) = 1%Z).
Proof.
  split; [reflexivity |]. split; [vm_compute; reflexivity |].
  split; [eexists; split; vm_compute; reflexivity |].
  split; [reflexivity |].
  do 2 eexists. repeat split; vm_compute; reflexivity.
Qed.
End ControllerClaims.

Section TrendingClaims.
Import InteractionService RecommendationService Spec Sample.

(** C8: the code does not do what the claim says.  The loop that counts
    reads [articleId.toString()] of interactions whose [articleId] has been
    populated, so every interaction is counted under the string of a plain
    object; no article is found under this key and the entry is skipped.
    For every store and every limit getTrendingArticles returns the empty
    list, or fails when one of the 1000 newest interactions is of an article
    that the store does not hold.  In the small store article 20 has 3 likes
    and 5 views, and the trending list is empty. *)
Theorem trending_returns_nothing :
  (forall db limit,
     getTrendingArticles db limit
     = if forallb (fun i => articleExists db (Interaction.articleId i))
            (recentInteractions db)
       then inr []
       else inl ("Failed to get trending articles: "
                   ++ JS.nullProperty "toString")%string) /\
  (forall db limit offset,
     Forall (fun i => Mongoose.toString (LeanInteraction.articleId i)
                      = inr JS.objectToString \/
                      Mongoose.toString (LeanInteraction.articleId i)
                      = inl (JS.nullProperty "toString"))
       (getAllInteractions db limit offset)) /\
  (countDocuments small (articleOid 20) like = 3%Z /\
   countDocuments small (articleOid 20) view = 5%Z /\
   articleExists small (articleOid 20) = true /\
   getTrendingArticles small 5 = inr []).
Proof.
  split; [apply getTrendingArticles_spec |]. split.
  - intros db limit offset. unfold getAllInteractions.
    apply Forall_forall. intros i Hi. apply in_map_iff in Hi as [j [<- _]].
    cbn [LeanInteraction.articleId]. rewrite toString_populateArticle.
    destruct (articleExists db (Interaction.articleId j)); [now left | now right].
  - repeat split; vm_compute; reflexivity.
Qed.
End TrendingClaims.
Section EngineExtras.
Import InteractionService RecommendationService Spec Sample.

(** X1.  A response to a limit that is not negative holds exactly the
    interest-based and the popularity-based results that were collected:
    the final cut to [limit] removes nothing, the total is the sum of the
    two counts of the metadata and at most [limit], and the interest-based
    count is at most ceil(limit x 0.6), that is, five times the count is at
    most three times the limit plus four. *)
Theorem recommendation_counts_add_up (db : Database) (userId : string)
    (limit : Z) (resp : IRecommendationResponse) :
  (0 <= limit)%Z ->
  getRecommendationsForUser db userId limit = inr resp ->
  total resp
  = (interestBasedCount (metadata resp) + popularityBasedCount (metadata resp))%Z /\
  (0 <= interestBasedCount (metadata resp))%Z /\
  (0 <= popularityBasedCount (metadata resp))%Z /\
  (total resp <= limit)%Z /\
  (5 * interestBasedCount (metadata resp) <= 3 * limit + 4)%Z /\
  JS.len (recommendations resp) = total resp.
Proof.
  intros Hl E.
  apply getRecommendationsForUser_inr in E
    as [u [viewed [_ [_ [Hr [Ht [Hi [Hp _]]]]]]]].
  pose proof (collected_within_limit db u viewed limit Hl) as Hc.
  pose proof (interestBasedLimit_bounds limit Hl) as [Hb0 _].
  pose proof (getInterestBasedRecommendations_len u (unviewedArticles db viewed)
                (interestBasedLimit limit) Hb0) as Hn.
  fold (interestRecommendations db u viewed limit) in Hn.
  pose proof (interestBasedLimit_ceil limit) as Hceil.
  pose proof (len_nonneg (interestRecommendations db u viewed limit)).
  pose proof (len_nonneg (popularityRecommendations db u viewed limit)).
  assert (Hlen : JS.len (recommendations resp)
                 = (JS.len (interestRecommendations db u viewed limit)
                    + JS.len (popularityRecommendations db u viewed limit))%Z).
  { rewrite Hr, slice0_len, len_sort by exact Hl.
    unfold JS.len at 1. rewrite length_app. unfold JS.len in *. lia. }
  rewrite Ht, Hi, Hp, Hlen. repeat split; lia.
Qed.

Lemma recommendation_counts_add_up_witness :
  exists resp,
    getRecommendationsForUser small (userOid 1) 10 = inr resp /\
    total resp
    = (interestBasedCount (metadata resp) + popularityBasedCount (metadata resp))%Z /\
    (total resp <= 10)%Z /\
    (5 * interestBasedCount (metadata resp) <= 3 * 10 + 4)%Z.
Proof.
  eexists. split; [vm_compute; reflexivity |].
  match goal with
  | |- context [total ?r] =>
      destruct (recommendation_counts_add_up small (userOid 1) 10 r
                  ltac:(lia) ltac:(vm_compute; reflexivity))
        as [H1 [_ [_ [H2 [H3 _]]]]]
  end.
  split; [exact H1 |]. split; [exact H2 | exact H3].
Defined.

(** X2.  The recommendations of a response are in descending order of
    score. *)
Theorem recommendations_are_ranked (db : Database) (userId : string)
    (limit : Z) (resp : IRecommendationResponse) :
  getRecommendationsForUser db userId limit = inr resp ->
  descending (recommendations resp).
Proof.
  intros E.
  apply getRecommendationsForUser_inr in E as [u [viewed [_ [_ [-> _]]]]].
  apply slice0_descending, sort_byScore_descending.
Qed.

Lemma recommendations_are_ranked_witness :
  exists resp,
    getRecommendationsForUser small (userOid 1) 10 = inr resp /\
    descending (recommendations resp).
Proof.
  eexists. split; [vm_compute; reflexivity |].
  apply (recommendations_are_ranked small (userOid 1) 10). vm_compute; reflexivity.
Defined.

(** X3.  In a response for a user without interests, whether the list is
    missing or empty, no recommendation is interest-based: the
    interest-based count is 0 and no recommendation carries matched
    interests; and in a store whose articles carry identifiers the response
    to a limit that is not negative holds [limit] of the articles with
    engagement among the 1000 newest, or all of them when they are
    fewer. *)
Theorem no_interests_only_popularity (db : Database) (userId : string)
    (limit : Z) (u : User.t) (resp : IRecommendationResponse) :
  UserService.getUserById db userId = Some u ->
  User.interests u = None \/ User.interests u = Some [] ->
  getRecommendationsForUser db userId limit = inr resp ->
  interestBasedCount (metadata resp) = 0%Z /\
  Forall (fun r => matchedInterests r = None) (recommendations resp) /\
  ((0 <= limit)%Z -> articlesHaveObjectIds db ->
   total resp
   = Z.min limit
       (JS.len (filter (fun a => (0 <? likes (getInteractionStats db (idOf a)) * 2
                                       + views (getInteractionStats db (idOf a)))%Z)
                  (ArticleService.getArticles db 1000 0)))).
Proof.
  intros Hu Hi E.
  apply getRecommendationsForUser_inr in E
    as [u' [viewed [Hu' [Hv [Hr [Ht [Hic Hpc]]]]]]].
  rewrite Hu in Hu'. injection Hu' as <-.
  assert (Hnone : interestRecommendations db u viewed limit = []).
  { unfold interestRecommendations, getInterestBasedRecommendations.
    destruct Hi as [-> | ->]; reflexivity. }
  rewrite Hic, Ht, Hr, Hnone. cbn [app].
  split; [reflexivity |]. split.
  - apply Forall_forall. intros r Hin. apply slice0_In, sort_In in Hin.
    unfold popularityRecommendations in Hin. cbv zeta in Hin.
    destruct (0 <? _)%Z; [| contradiction].
    unfold getPopularityBasedRecommendations in Hin.
    apply in_map_iff in Hin as [item [<- _]]. reflexivity.
  - intros Hl Hids. rewrite slice0_len, len_sort by exact Hl.
    rewrite popularityRecommendations_len. unfold popularityBasedLimit.
    rewrite Hnone. change (JS.len []) with 0%Z.
    assert (He : eligible db viewed []
                 = filter (fun a => (0 <? likes (getInteractionStats db (idOf a)) * 2
                                          + views (getInteractionStats db (idOf a)))%Z)
                     (ArticleService.getArticles db 1000 0)).
    { unfold eligible. apply filter_ext_in. intros a Ha.
      replace (JS.has viewed (idOf a)) with false; [reflexivity |].
      symmetry. apply has_false. intros Hin.
      rewrite viewedArticleIds_spec in Hv.
      destruct (forallb _ (recentViews db userId)); [| discriminate].
      injection Hv as <-. apply in_map_iff in Hin as [i [Hi' _]].
      unfold articlesHaveObjectIds in Hids. rewrite Forall_forall in Hids.
      apply (isObjectId_not_object (idOf a)); [| now symmetry].
      apply Hids. eapply getArticles_In, Ha. }
    rewrite He.
    pose proof (len_nonneg (filter (fun a => (0 <? likes (getInteractionStats db (idOf a)) * 2
                                          + views (getInteractionStats db (idOf a)))%Z)
                     (ArticleService.getArticles db 1000 0))).
    destruct (Z.ltb_spec 0 (limit - 0)); lia.
Qed.

Lemma no_interests_only_popularity_witness :
  exists resp,
    getRecommendationsForUser small (userOid 2) 5 = inr resp /\
    interestBasedCount (metadata resp) = 0%Z /\
    Forall (fun r => matchedInterests r = None) (recommendations resp) /\
    total resp = 5%Z.
Proof.
  eexists. split; [vm_compute; reflexivity |].
  match goal with
  | |- context [total ?r] =>
      destruct (no_interests_only_popularity small (userOid 2) 5
                  (mkUser 2 "other" []) r eq_refl (or_intror eq_refl)
                  ltac:(vm_compute; reflexivity))
        as [H1 [H2 H3]]
  end.
  split; [exact H1 |]. split; [exact H2 |].
  rewrite H3; [vm_compute; reflexivity | lia |].
  apply Forall_forall. intros a Ha.
  repeat (destruct Ha as [<- | Ha]; [reflexivity |]). contradiction.
Defined.

(** X4.  Every recommendation of a response is for an article of the
    collection and has a positive score, and it is either interest-based,
    with a list of matched interests that is not empty and a score of at
    least one half per matched interest, or popularity-based, without
    matched interests and with one tenth of the positive popularity score
    of its article. *)
Theorem every_recommendation_is_explained (db : Database) (userId : string)
    (limit : Z) (resp : IRecommendationResponse) :
  getRecommendationsForUser db userId limit = inr resp ->
  Forall (fun r =>
            In (article r) (Articles db) /\ 0 < score r /\
            ((exists m, matchedInterests r = Some m /\ m <> [] /\
                        0.5 * inject_Z (JS.len m) <= score r) \/
             (matchedInterests r = None /\
              (1 <= likes (getInteractionStats db (idOf (article r))) * 2
                    + views (getInteractionStats db (idOf (article r))))%Z /\
              score r == inject_Z (likes (getInteractionStats db (idOf (article r))) * 2
                                   + views (getInteractionStats db (idOf (article r))))
                         * 0.1)))
    (recommendations resp).
Proof.
  intros E. apply Forall_forall. intros r Hin.
  split; [exact (recommendation_unviewed db userId limit resp r E Hin) |].
  apply getRecommendationsForUser_inr in E as [u [viewed [_ [_ [Hr _]]]]].
  rewrite Hr in Hin. apply slice0_In, sort_In, in_app_or in Hin as [Hin | Hin].
  - apply getInterestBasedRecommendations_In in Hin as [ui [a [_ [_ Hrec]]]].
    apply interestRecommendation_explained in Hrec as [m [Hm [Hne Hs]]].
    assert (Hpos : (1 <= JS.len m)%Z)
      by (destruct m; [contradiction | unfold JS.len; simpl; lia]).
    rewrite Zle_Qle in Hpos. change (inject_Z 1) with 1 in Hpos.
    split; [lra |]. left. now exists m.
  - unfold popularityRecommendations in Hin. cbv zeta in Hin.
    destruct (0 <? _)%Z; [| contradiction].
    assert (Hnone : matchedInterests r = None).
    { unfold getPopularityBasedRecommendations in Hin.
      apply in_map_iff in Hin as [item [<- _]]. reflexivity. }
    apply getPopularityBasedRecommendations_In in Hin as [a [_ [Ha [Hp Hs]]]].
    subst a. cbn [popularityScore articleStat] in Hp, Hs.
    assert (Hq : 0 < inject_Z (likes (getInteractionStats db (idOf (article r))) * 2
                               + views (getInteractionStats db (idOf (article r)))))
      by (change 0 with (inject_Z 0); rewrite <- Zlt_Qlt; exact Hp).
    split; [lra |]. right. split; [exact Hnone |]. split; [lia | exact Hs].
Qed.

Lemma every_recommendation_is_explained_witness :
  exists resp,
    getRecommendationsForUser small (userOid 1) 10 = inr resp /\
    Forall (fun r => In (article r) (Articles small) /\ 0 < score r)
      (recommendations resp).
Proof.
  eexists. split; [vm_compute; reflexivity |].
  eapply Forall_impl;
    [| apply (every_recommendation_is_explained small (userOid 1) 10);
       vm_compute; reflexivity].
  intros r [H1 [H2 _]]. now split.
Defined.

(** X8.  For a user that resolves, getRecommendationsForUser succeeds
    exactly when every article that the user has viewed, among the 1000
    newest interactions of the user, is in the store: then it returns a
    response that echoes the user, and otherwise it fails, whatever the
    limit, with the error of reading a property of [null], thrown again
    with the prefix of the method. *)
Theorem view_of_missing_article_fails_call (db : Database) (userId : string)
    (limit : Z) (u : User.t) :
  UserService.getUserById db userId = Some u ->
  if forallb (fun i => articleExists db (Interaction.articleId i))
       (recentViews db userId)
  then exists resp,
         getRecommendationsForUser db userId limit = inr resp /\
         id (user resp) = User._id u /\
         username (user resp) = User.username u /\
         interests (user resp)
         = match User.interests u with Some l => l | None => [] end
  else getRecommendationsForUser db userId limit
       = inl ("Failed to generate recommendations: "
                ++ JS.nullProperty "toString")%string.
Proof.
  intros Hu. unfold getRecommendationsForUser.
  rewrite Hu, viewedArticleIds_spec.
  destruct (forallb _ (recentViews db userId)); [| reflexivity].
  cbn [rethrow]. eexists. split; [reflexivity |]. now repeat split.
Qed.

Lemma view_of_missing_article_fails_call_witness :
  (exists resp, getRecommendationsForUser small (userOid 1) 10 = inr resp) /\
  getRecommendationsForUser orphanView (userOid 1) 10
  = inl ("Failed to generate recommendations: "
           ++ JS.nullProperty "toString")%string.
Proof.
  split.
  - destruct (view_of_missing_article_fails_call small (userOid 1) 10
                (mkUser 1 "reader" ["tech"%string]) eq_refl) as [resp [E _]].
    now exists resp.
  - exact (view_of_missing_article_fails_call orphanView (userOid 1) 10
             (mkUser 1 "reader" ["tech"%string]) eq_refl).
Defined.
End EngineExtras.
Section RankerExtras.
Import InteractionService RecommendationService Spec Sample.

Lemma countDocuments_nonneg (db : Database) (articleId : string)
    (kind : InteractionType) :
  (0 <= countDocuments db articleId kind)%Z.
Proof.
  apply len_nonneg.
Qed.

Lemma StronglySorted_weaken {A : Type} (R R' : A -> A -> Prop) (l : list A) :
  (forall x y, R x y -> R' x y) -> StronglySorted R l -> StronglySorted R' l.
Proof.
  intros H. induction 1 as [|x l Hl IH Hx]; constructor; [exact IH |].
  eapply Forall_impl; [| exact Hx]. intros y. apply H.
Qed.

(** X5.  The reason of a popularity-based recommendation tells which
    counters of its article are positive: likes and views, likes only, or
    views only; the bare reason "Popular article" that the code starts from
    is never the one attached. *)
Theorem popularity_reason_names_the_counters (db : Database)
    (articles : list Article.t) (limit : Z) :
  Forall
    (fun r =>
       let s := getInteractionStats db (idOf (article r)) in
       reason r <> "Popular article"%string /\
       ((0 < likes s)%Z -> (0 < views s)%Z ->
        reason r = ("Popular article (" ++ JS.numberToString (likes s) ++ " likes, "
                    ++ JS.numberToString (views s) ++ " views)")%string) /\
       ((0 < likes s)%Z -> views s = 0%Z ->
        reason r = ("Well-liked article (" ++ JS.numberToString (likes s)
                    ++ " likes)")%string) /\
       (likes s = 0%Z ->
        reason r = ("Trending article (" ++ JS.numberToString (views s)
                    ++ " views)")%string
        /\ (0 < views s)%Z))
    (getPopularityBasedRecommendations db articles limit).
Proof.
  apply Forall_forall. intros r Hin s.
  unfold getPopularityBasedRecommendations in Hin.
  apply in_map_iff in Hin as [item [<- Hin]].
  apply sortedByPopularity_In in Hin as [a [_ [-> Hp]]].
  cbn [article reason stat_article stats articleStat] in *. fold s.
  cbn [popularityScore articleStat] in Hp. fold s in Hp.
  pose proof (countDocuments_nonneg db (idOf a) like) as Hl.
  pose proof (countDocuments_nonneg db (idOf a) view) as Hv.
  change (countDocuments db (idOf a) like) with (likes s) in Hl.
  change (countDocuments db (idOf a) view) with (views s) in Hv.
  unfold popularityReason.
  destruct (Z.ltb_spec 0 (likes s)) as [L | L];
    destruct (Z.ltb_spec 0 (views s)) as [V | V]; cbn [andb].
  - split; [discriminate |]. repeat split; try reflexivity; lia.
  - split; [discriminate |]. repeat split; try reflexivity; lia.
  - split; [discriminate |]. repeat split; try reflexivity; lia.
  - lia.
Qed.

(** X6.  The popularity ranker returns its recommendations in descending
    order of score, which is the descending order of the popularity scores,
    and, for a limit that is not negative, at most [limit] of them: [limit]
    when that many of the given articles have interactions, all of those
    otherwise. *)
Theorem popularity_ranker_is_ranked_and_capped (db : Database)
    (articles : list Article.t) (limit : Z) :
  descending (getPopularityBasedRecommendations db articles limit) /\
  ((0 <= limit)%Z ->
   JS.len (getPopularityBasedRecommendations db articles limit)
   = Z.min limit
       (JS.len (filter (fun a => (0 <? likes (getInteractionStats db (idOf a)) * 2
                                       + views (getInteractionStats db (idOf a)))%Z)
                  articles))).
Proof.
  split.
  - unfold descending, getPopularityBasedRecommendations.
    apply StronglySorted_map.
    eapply StronglySorted_weaken; [| apply sortedByPopularity_sorted].
    intros x y H. cbv beta in *. cbn [score]. rewrite Zle_Qle in H. lra.
  - intros H. now rewrite getPopularityBasedRecommendations_len.
Qed.

(** X7.  The interest matcher returns its recommendations in descending
    order of score, at most [limit] of them for a limit that is not
    negative, each for one of the given articles, and none at all for a
    user whose interest list is missing or empty. *)
Theorem interest_matcher_is_ranked_and_capped (user : User.t)
    (articles : list Article.t) (limit : Z) :
  descending (getInterestBasedRecommendations user articles limit) /\
  ((0 <= limit)%Z ->
   (JS.len (getInterestBasedRecommendations user articles limit) <= limit)%Z) /\
  Forall (fun r => In (article r) articles)
    (getInterestBasedRecommendations user articles limit) /\
  (User.interests user = None \/ User.interests user = Some [] ->
   getInterestBasedRecommendations user articles limit = []).
Proof.
  split; [| split; [| split]].
  - unfold getInterestBasedRecommendations.
    destruct (JS.len _ =? 0)%Z; [constructor |].
    apply slice0_descending, sort_byScore_descending.
  - apply getInterestBasedRecommendations_len.
  - apply Forall_forall. intros r Hr.
    apply getInterestBasedRecommendations_In in Hr as [ui [a [_ [Ha Hr]]]].
    pose proof (interestRecommendation_spec a ui) as Hs.
    rewrite Hr in Hs. destruct Hs as [_ [-> _]]. exact Ha.
  - unfold getInterestBasedRecommendations. intros [-> | ->]; reflexivity.
Qed.
End RankerExtras.

Section ControllerExtras.
Import RecommendationService Spec Sample.
Import RecommendationController.


(** X10.  The weights and limits that getRecommendationInfo advertises are
    the ones the engine and the controller use: the score of an
    interest-based recommendation is made of titleMatch, summaryMatch and
    contentMatch per matched interest plus multipleInterestsBonus per
    matched interest, the popularity score of likesWeight per like and
    viewsWeight per view, the default limit is defaultRecommendations, a
    limit above maxRecommendations is rejected, and a response names the
    advertised algorithm. *)
Theorem advertised_weights_are_the_weights_used :
  let scoring := interestBased getRecommendationInfo in
  let popularity := popularityBased getRecommendationInfo in
  (forall userInterests a,
     match interestRecommendation userInterests a with
     | Some r =>
         score r ==
         sumQ (map (fun i =>
                      (if titleHas a (JS.toLowerCase i) then titleMatch scoring else 0)
                      + (if summaryHas a (JS.toLowerCase i) then summaryMatch scoring else 0)
                      + (if contentHas a (JS.toLowerCase i) then contentMatch scoring else 0))
                 (matchedTerms a userInterests))
         + multipleInterestsBonus scoring * inject_Z (JS.len (matchedTerms a userInterests))
     | None => True
     end) /\
  (forall db a,
     popularityScore (articleStat db a)
     = (likesWeight popularity * InteractionService.likes (stats (articleStat db a))
        + viewsWeight popularity * InteractionService.views (stats (articleStat db a)))%Z) /\
  (forall req, query_limit req = None ->
               limitOf req = defaultRecommendations (limits getRecommendationInfo)) /\
  (forall db req,
     objectIdError (params_userId req) = None ->
     (maxRecommendations (limits getRecommendationInfo) < limitOf req)%Z ->
     RecommendationController.getRecommendationsForUser db req
     = createError "Limit must be between 1 and 50" 400) /\
  (forall db userId limit,
     match RecommendationService.getRecommendationsForUser db userId limit with
     | inr resp => algorithm (RecommendationService.metadata resp)
                   = info_algorithm getRecommendationInfo
     | inl _ => True
     end).
Proof.
  cbv zeta. split; [| split; [| split; [| split]]].
  - intros userInterests a.
    pose proof (interestRecommendation_spec a userInterests) as H.
    destruct (interestRecommendation userInterests a) as [r|]; [| exact I].
    destruct H as [_ [_ [_ H]]]. rewrite H. reflexivity.
  - intros db a. unfold articleStat.
    cbn [popularityScore stats popularityBased getRecommendationInfo
         likesWeight viewsWeight].
    lia.
  - intros req H. unfold limitOf. now rewrite H.
  - intros db req Hid Hmax.
    unfold RecommendationController.getRecommendationsForUser. rewrite Hid.
    cbn in Hmax.
    replace ((limitOf req <? 1) || (50 <? limitOf req))%Z with true; [reflexivity |].
    symmetry. apply orb_true_iff. right. now apply Z.ltb_lt.
  - intros db userId limit.
    unfold RecommendationService.getRecommendationsForUser.
    destruct (UserService.getUserById db userId); cbn [rethrow]; [| exact I].
    destruct (viewedArticleIds db userId); [exact I | reflexivity].
Qed.
End ControllerExtras.

(** * Pagination *)

Section PaginationFacts.

Lemma floorDiv_spec (a b : nat) :
  (1 <= b)%nat -> JS.floorDiv a b = Some (Z.of_nat (a / b)).
Proof.
  intros H. unfold JS.floorDiv.
  destruct (Nat.eqb_spec b 0) as [-> | _]; [lia |].
  f_equal. unfold Qfloor.
  replace (Z.pos (Pos.of_nat b)) with (Z.of_nat b) by lia.
  symmetry. apply Nat2Z.inj_div.
Qed.

Lemma ceilDiv_spec (a b : nat) :
  (1 <= b)%nat -> JS.ceilDiv a b = Some (Z.of_nat ((a + b - 1) / b)).
Proof.
  intros H. unfold JS.ceilDiv.
  destruct (Nat.eqb_spec b 0) as [-> | _]; [lia |].
  f_equal. unfold Qceiling, Qfloor, Qopp. cbn [Qnum Qden].
  replace (Z.pos (Pos.of_nat b)) with (Z.of_nat b) by lia.
  rewrite Nat2Z.inj_div.
  replace (Z.of_nat (a + b - 1)) with (Z.of_nat a + Z.of_nat b - 1)%Z by lia.
  set (x := Z.of_nat a). set (y := Z.of_nat b).
  assert (Hy : (0 < y)%Z) by (unfold y; lia).
  pose proof (Z.div_mod (- x) y ltac:(lia)) as E1.
  pose proof (Z.mod_pos_bound (- x) y Hy) as B1.
  apply Z.div_unique with (r := (y - 1 - (- x) mod y)%Z); [lia |].
  nia.
Qed.

Lemma firstn_add {A : Type} (a b : nat) (l : list A) :
  firstn (a + b) l = firstn a l ++ firstn b (skipn a l).
Proof.
  revert l. induction a as [|a IH]; intros l; [reflexivity |].
  destruct l as [|x l]; simpl.
  - now rewrite firstn_nil.
  - now rewrite IH.
Qed.

(** Reading the pages one after the other reads the list from its start. *)
Lemma pages_concat {A : Type} (limit pages : nat) (docs : list A) :
  List.concat (map (fun k => page limit (k * limit) docs) (seq 0 pages))
  = firstn (pages * limit) docs.
Proof.
  induction pages as [|m IH]; [reflexivity |].
  rewrite seq_S, map_app, List.concat_app, IH. cbn [map List.concat plus].
  rewrite app_nil_r. unfold page.
  replace (S m * limit)%nat with (m * limit + limit)%nat by lia.
  now rewrite firstn_add.
Qed.

Lemma page_length {A : Type} (limit offset : nat) (docs : list A) :
  List.length (page limit offset docs) = Nat.min limit (List.length docs - offset).
Proof.
  unfold page. now rewrite length_firstn, length_skipn.
Qed.
End PaginationFacts.

Section PaginationExtras.
Import Spec Sample.

Lemma StronglySorted_skipn {A : Type} (R : A -> A -> Prop) (n : nat) (l : list A) :
  StronglySorted R l -> StronglySorted R (skipn n l).
Proof.
  revert l. induction n as [|n IH]; intros l H; [exact H |].
  destruct l as [|x l]; [constructor |]. simpl. apply IH. now inversion H.
Qed.

Lemma pages_cover (total limit : nat) :
  (1 <= limit)%nat -> (total <= (total + limit - 1) / limit * limit)%nat.
Proof.
  intros H.
  pose proof (Nat.div_mod_eq (total + limit - 1) limit) as E.
  pose proof (Nat.mod_upper_bound (total + limit - 1) limit ltac:(lia)) as B.
  nia.
Qed.

Lemma getArticles_length (db : Database) (limit offset : nat) :
  List.length (ArticleService.getArticles db limit offset)
  = Nat.min limit (List.length (Articles db) - offset).
Proof.
  unfold ArticleService.getArticles. rewrite page_length.
  now rewrite (Permutation_length (newestFirst_perm _ _)).
Qed.

Lemma getArticles_beyond (db : Database) (limit offset : nat) :
  (List.length (Articles db) <= offset)%nat ->
  ArticleService.getArticles db limit offset = [].
Proof.
  intros H. apply length_zero_iff_nil. rewrite getArticles_length. lia.
Qed.


Lemma getArticles_nth (db : Database) (limit offset i : nat) :
  (i < limit)%nat ->
  nth_error (ArticleService.getArticles db limit offset) i
  = nth_error (newestFirst Article.createdAt (Articles db)) (offset + i).
Proof.
  intros H. unfold ArticleService.getArticles, page.
  rewrite nth_error_firstn.
  destruct (Nat.ltb_spec i limit); [| lia]. apply nth_error_skipn.
Qed.

(** X11.  For a page size of at least 1, getArticles answers with the total
    number of articles, the page number floor(offset / limit) + 1, the
    number of pages ceil(total / limit), and as data the articles from
    position [offset] on in the order newest first: the article at position
    i of the page is the one at position offset + i of the whole list;
    there are [limit] of them, or those that are left when they are fewer,
    and none when [offset] is not smaller than the total. *)
Theorem getArticles_page (db : Database) (limit offset : nat) :
  (1 <= limit)%nat ->
  let resp := ArticleService.getArticlesResponse db limit offset in
  let total := List.length (Articles db) in
  ArticleService.total (ArticleService.pagination resp) = Z.of_nat total /\
  ArticleService.page (ArticleService.pagination resp)
  = Some (Z.of_nat (offset / limit) + 1)%Z /\
  ArticleService.totalPages (ArticleService.pagination resp)
  = Some (Z.of_nat ((total + limit - 1) / limit)) /\
  List.length (ArticleService.data resp) = Nat.min limit (total - offset) /\
  (forall i, (i < limit)%nat ->
             nth_error (ArticleService.data resp) i
             = nth_error (newestFirst Article.createdAt (Articles db)) (offset + i)) /\
  ((total <= offset)%nat -> ArticleService.data resp = []) /\
  Forall (fun a => In a (Articles db)) (ArticleService.data resp) /\
  StronglySorted (fun x y => (Article.createdAt y <= Article.createdAt x)%Z)
    (ArticleService.data resp).
Proof.
  intros H resp total. unfold resp, ArticleService.getArticlesResponse.
  cbn [ArticleService.pagination ArticleService.total ArticleService.page
       ArticleService.totalPages ArticleService.data].
  rewrite floorDiv_spec, ceilDiv_spec by exact H. cbn [option_map].
  repeat split; try reflexivity.
  - apply getArticles_length.
  - intros i Hi. now apply getArticles_nth.
  - apply getArticles_beyond.
  - apply Forall_forall. intros a. apply getArticles_In.
  - unfold ArticleService.getArticles, page.
    apply StronglySorted_firstn, StronglySorted_skipn, newestFirst_sorted.
Qed.

Lemma getArticles_page_witness :
  ArticleService.total
    (ArticleService.pagination (ArticleService.getArticlesResponse small 5 10))
  = 13%Z /\
  ArticleService.page
    (ArticleService.pagination (ArticleService.getArticlesResponse small 5 10))
  = Some 3%Z /\
  ArticleService.totalPages
    (ArticleService.pagination (ArticleService.getArticlesResponse small 5 10))
  = Some 3%Z /\
  map Article._id (ArticleService.data (ArticleService.getArticlesResponse small 5 10))
  = [articleOid 3; articleOid 2; articleOid 1] /\
  option_map Article._id
    (nth_error (ArticleService.data (ArticleService.getArticlesResponse small 5 10)) 0)
  = Some (articleOid 3).
Proof.
  destruct (getArticles_page small 5 10 ltac:(lia)) as [H1 [H2 [H3 [_ [H5 _]]]]].
  split; [exact H1 |]. split; [exact H2 |]. split; [exact H3 |].
  split; [vm_compute; reflexivity |].
  rewrite (H5 0%nat ltac:(lia)). vm_compute; reflexivity.
Defined.

(** X12.  For a page size of at least 1, reading the pages of getArticles
    one after the other, as many as the answer counts, gives every article
    of the collection exactly once, newest first, and every later page is
    empty. *)
Theorem paging_visits_every_article_once (db : Database) (limit : nat) :
  (1 <= limit)%nat ->
  exists pages,
    ArticleService.totalPages
      (ArticleService.pagination (ArticleService.getArticlesResponse db limit 0))
    = Some (Z.of_nat pages) /\
    List.concat
      (map (fun k => ArticleService.data
                       (ArticleService.getArticlesResponse db limit (k * limit)))
           (seq 0 pages))
    = newestFirst Article.createdAt (Articles db) /\
    Permutation
      (List.concat
         (map (fun k => ArticleService.data
                          (ArticleService.getArticlesResponse db limit (k * limit)))
              (seq 0 pages)))
      (Articles db) /\
    (forall k, (pages <= k)%nat ->
               ArticleService.data
                 (ArticleService.getArticlesResponse db limit (k * limit)) = []).
Proof.
  intros H. exists ((List.length (Articles db) + limit - 1) / limit)%nat.
  pose proof (pages_cover (List.length (Articles db)) limit H) as Hc.
  assert (E : List.concat
                (map (fun k => ArticleService.data
                                 (ArticleService.getArticlesResponse db limit (k * limit)))
                     (seq 0 ((List.length (Articles db) + limit - 1) / limit)))
              = newestFirst Article.createdAt (Articles db)).
  { unfold ArticleService.getArticlesResponse, ArticleService.getArticles.
    cbn [ArticleService.data]. rewrite pages_concat. apply firstn_all2.
    now rewrite (Permutation_length (newestFirst_perm _ _)). }
  split; [| split; [exact E | split]].
  - unfold ArticleService.getArticlesResponse.
    cbn [ArticleService.pagination ArticleService.totalPages].
    now apply ceilDiv_spec.
  - rewrite E. apply newestFirst_perm.
  - intros k Hk. unfold ArticleService.getArticlesResponse.
    cbn [ArticleService.data]. apply getArticles_beyond. nia.
Qed.

Lemma paging_visits_every_article_once_witness :
  exists pages,
    ArticleService.totalPages
      (ArticleService.pagination (ArticleService.getArticlesResponse small 5 0))
    = Some (Z.of_nat pages) /\
    List.concat
      (map (fun k => ArticleService.data
                       (ArticleService.getArticlesResponse small 5 (k * 5)))
           (seq 0 pages))
    = newestFirst Article.createdAt (Articles small) /\
    Permutation
      (List.concat
         (map (fun k => ArticleService.data
                          (ArticleService.getArticlesResponse small 5 (k * 5)))
              (seq 0 pages)))
      (Articles small) /\
    (forall k, (pages <= k)%nat ->
               ArticleService.data
                 (ArticleService.getArticlesResponse small 5 (k * 5)) = []).
Proof.
  apply (paging_visits_every_article_once small 5). lia.
Defined.


End PaginationExtras.

(** * Recording and removing interactions *)

Section InteractionFacts.
Import InteractionService Spec.

Lemma InteractionType_eqb_eq (x y : InteractionType) :
  InteractionType_eqb x y = true <-> x = y.
Proof.
  destruct x, y; simpl; split; congruence.
Qed.

Lemma sameTriple_iff (u a : string) (k : InteractionType) (i : Interaction.t) :
  sameTriple u a k i = true <-> triple i = (u, a, k).
Proof.
  unfold sameTriple, triple.
  rewrite !andb_true_iff, !String.eqb_eq, InteractionType_eqb_eq.
  split; [intros [[-> ->] ->]; reflexivity | intros E; now injection E].
Qed.

Lemma sameTriple_self (i : Interaction.t) :
  sameTriple (Interaction.userId i) (Interaction.articleId i)
    (Interaction.interactionType i) i = true.
Proof.
  now apply sameTriple_iff.
Qed.

Lemma find_app_new {A : Type} (p : A -> bool) (l : list A) (x : A) :
  find p l = None -> p x = true -> find p (l ++ [x]) = Some x.
Proof.
  induction l as [|y l IH]; simpl; intros Hn Hx; [now rewrite Hx |].
  destruct (p y); [discriminate | now apply IH].
Qed.

Lemma find_None_not_In (u a : string) (k : InteractionType)
    (l : list Interaction.t) :
  find (sameTriple u a k) l = None -> ~ In (u, a, k) (map triple l).
Proof.
  intros H Hin. apply in_map_iff in Hin as [i [Ht Hi]].
  apply (find_none _ _ H) in Hi. apply sameTriple_iff in Ht. congruence.
Qed.

Lemma distinctTriples_NoDup (l : list Interaction.t) :
  distinctTriples l = true -> NoDup (map triple l).
Proof.
  induction l as [|i l IH]; simpl; [constructor |].
  rewrite andb_true_iff, negb_true_iff, existsb_find.
  intros [Hi Hl]. constructor; [| now apply IH].
  apply find_None_not_In. now destruct (find _ l).
Qed.

Lemma castFilter_cases (userId articleId : string) :
  castFilter userId articleId
  = match Mongoose.castObjectId userId, Mongoose.castObjectId articleId with
    | Some u, Some a => inr (u, a)
    | None, _ => inl (Mongoose.castError userId "userId" "Interaction")
    | Some _, None => inl (Mongoose.castError articleId "articleId" "Interaction")
    end.
Proof.
  unfold castFilter.
  now destruct (Mongoose.castObjectId userId), (Mongoose.castObjectId articleId).
Qed.

(** The message of a refused filter says that the cast has failed. *)
Lemma castFilter_refused (userId articleId message : string) :
  castFilter userId articleId = inl message ->
  JS.startsWith message "Cast to ObjectId failed" = true /\
  (Mongoose.castObjectId userId = None \/ Mongoose.castObjectId articleId = None).
Proof.
  rewrite castFilter_cases.
  destruct (Mongoose.castObjectId userId) as [u|];
    [destruct (Mongoose.castObjectId articleId) as [a|]; [discriminate |] |];
    intros H; injection H as <-; (split; [reflexivity | tauto]).
Qed.

(** What createInteraction does with identifiers, by whether the
    interaction exists. *)
Lemma createInteraction_cases (db : Database) (userId articleId u a : string)
    (k : InteractionType) (now : Z) :
  Mongoose.castObjectId userId = Some u ->
  Mongoose.castObjectId articleId = Some a ->
  createInteraction db userId articleId k now
  = match find (sameTriple u a k) (Interactions db) with
    | Some existing => inr (db, existing)
    | None =>
        let i := {| Interaction.userId := u; Interaction.articleId := a;
                    Interaction.interactionType := k;
                    Interaction.createdAt := now |} in
        inr (withInteractions db (Interactions db ++ [i]), i)
    end.
Proof.
  intros Hu Ha. unfold createInteraction, findOne.
  rewrite castFilter_cases, Hu, Ha.
  destruct (find (sameTriple u a k) (Interactions db)) as [e|] eqn:E; [reflexivity |].
  cbv zeta. unfold newInteraction, save. rewrite Hu, Ha.
  cbn [Interaction.userId Interaction.articleId Interaction.interactionType].
  rewrite existsb_find, E. reflexivity.
Qed.

(** What createInteraction does with a string that is no identifier: the
    error of the cast leaves the method, with the prefix of the method
    unless its message holds one of the marks of a duplicate key. *)
Lemma createInteraction_refused (db : Database) (userId articleId message : string)
    (k : InteractionType) (now : Z) :
  castFilter userId articleId = inl message ->
  createInteraction db userId articleId k now
  = inl (if JS.includes message "duplicate key error" || JS.includes message "E11000"
         then message
         else "Failed to create interaction: " ++ message)%string.
Proof.
  intros H. unfold createInteraction, findOne. rewrite H.
  now destruct (JS.includes message "duplicate key error" || JS.includes message "E11000").
Qed.

Lemma hasInteraction_cases (db : Database) (userId articleId u a : string)
    (k : InteractionType) :
  Mongoose.castObjectId userId = Some u ->
  Mongoose.castObjectId articleId = Some a ->
  hasInteraction db userId articleId k
  = inr (existsb (sameTriple u a k) (Interactions db)).
Proof.
  intros Hu Ha. unfold hasInteraction, findOne.
  rewrite castFilter_cases, Hu, Ha, existsb_find. reflexivity.
Qed.

(** The interactions that the engine reads, while they fit in its page. *)
Lemma recentViews_In (db : Database) (userId : string) (i : Interaction.t) :
  (historyLength db userId <= 1000)%nat ->
  In i (Interactions db) ->
  Interaction.userId i = userId ->
  Interaction.interactionType i = view ->
  In i (recentViews db userId).
Proof.
  intros Hh Hi Hu Hv. unfold recentViews.
  apply filter_In. split; [| now rewrite Hv].
  rewrite page_all.
  - apply (Permutation_in _ (Permutation_sym (newestFirst_perm _ _))).
    apply filter_In. split; [exact Hi |]. rewrite Hu. apply String.eqb_refl.
  - now rewrite (Permutation_length (newestFirst_perm _ _)).
Qed.

Lemma recentInteractions_In (db : Database) (i : Interaction.t) :
  (List.length (Interactions db) <= 1000)%nat ->
  In i (Interactions db) -> In i (recentInteractions db).
Proof.
  intros Hl Hi. unfold recentInteractions. rewrite page_all.
  - now apply (Permutation_in _ (Permutation_sym (newestFirst_perm _ _))).
  - now rewrite (Permutation_length (newestFirst_perm _ _)).
Qed.

Lemma forallb_false_In {A : Type} (p : A -> bool) (l : list A) (x : A) :
  In x l -> p x = false -> forallb p l = false.
Proof.
  intros Hx Hp. destruct (forallb p l) eqn:E; [| reflexivity].
  rewrite forallb_forall in E. now rewrite (E x Hx) in Hp.
Qed.

Lemma deleteFirst_find_None {A : Type} (p : A -> bool) (l : list A) :
  find p l = None -> deleteFirst p l = l.
Proof.
  induction l as [|x l IH]; simpl; [reflexivity |].
  destruct (p x); [discriminate |]. intros H. now rewrite IH.
Qed.

Lemma deleteFirst_In {A : Type} (p : A -> bool) (l : list A) (x : A) :
  In x (deleteFirst p l) -> In x l.
Proof.
  induction l as [|y l IH]; simpl; [tauto |].
  destruct (p y); simpl; [tauto |]. intros [-> | H]; [now left | right; now apply IH].
Qed.

Lemma deleteFirst_NoDup {A B : Type} (key : A -> B) (gone : A -> bool) :
  forall docs, NoDup (map key docs) -> NoDup (map key (deleteFirst gone docs)).
Proof.
  intros docs. induction docs as [|d docs IH]; cbn [deleteFirst map]; [trivial |].
  intros H. apply NoDup_cons_iff in H as [Hd Hdocs].
  destruct (gone d); [exact Hdocs |]. cbn [map]. constructor; [| now apply IH].
  contradict Hd. apply in_map_iff in Hd as [d' [Hk Hin]].
  apply in_map_iff. exists d'. split; [exact Hk | now apply deleteFirst_In in Hin].
Qed.

Lemma deleteFirst_gone (u a : string) (k : InteractionType)
    (l : list Interaction.t) :
  NoDup (map triple l) ->
  find (sameTriple u a k) (deleteFirst (sameTriple u a k) l) = None.
Proof.
  induction l as [|x l IH]; simpl; [reflexivity |].
  intros H. apply NoDup_cons_iff in H as [Hx Hl].
  destruct (sameTriple u a k x) eqn:E.
  - apply sameTriple_iff in E.
    destruct (find (sameTriple u a k) l) as [y|] eqn:F; [| reflexivity].
    apply find_some in F as [Hy Fy]. apply sameTriple_iff in Fy.
    exfalso. apply Hx. rewrite E, <- Fy. now apply in_map.
  - simpl. rewrite E. now apply IH.
Qed.

Lemma deleteFirst_other (p q : Interaction.t -> bool) (l : list Interaction.t) :
  (forall i, p i = true -> q i = false) ->
  find q (deleteFirst p l) = find q l.
Proof.
  intros H. induction l as [|x l IH]; simpl; [reflexivity |].
  destruct (p x) eqn:E.
  - now rewrite (H x E).
  - simpl. now rewrite IH.
Qed.

Lemma filter_deleteFirst_other {A : Type} (p q : A -> bool) (l : list A) :
  (forall i, p i = true -> q i = false) ->
  filter q (deleteFirst p l) = filter q l.
Proof.
  intros H. induction l as [|x l IH]; simpl; [reflexivity |].
  destruct (p x) eqn:E.
  - now rewrite (H x E).
  - simpl. now rewrite IH.
Qed.

Lemma deleteFirst_length {A : Type} (p : A -> bool) (l : list A) (e : A) :
  find p l = Some e -> S (List.length (deleteFirst p l)) = List.length l.
Proof.
  induction l as [|x l IH]; simpl; [discriminate |].
  destruct (p x); [reflexivity |]. intros H. simpl. now rewrite IH.
Qed.

Lemma withInteractions_same (db : Database) : withInteractions db (Interactions db) = db.
Proof.
  now destruct db.
Qed.
End InteractionFacts.

Section InteractionExtras.
Import InteractionService RecommendationService Spec Sample.

(** X14.  createInteraction casts the two identifiers of its argument.
    When both are identifiers, the call succeeds and never stores a
    duplicate: it returns an interaction of the given user, article and
    kind that the store holds afterwards; when one existed it is returned
    and the store is unchanged, otherwise one document with the time of the
    call is added at the end; users and articles are untouched; a store
    without duplicates stays so; and a second call, at whatever time,
    returns the same interaction and changes nothing.  When one of the two
    strings is no identifier, the call fails with the error of the cast. *)
Theorem createInteraction_is_idempotent (db : Database) (userId articleId : string)
    (k : InteractionType) (now : Z) :
  match Mongoose.castObjectId userId, Mongoose.castObjectId articleId with
  | Some u, Some a =>
      exists db' i,
        createInteraction db userId articleId k now = inr (db', i) /\
        triple i = (u, a, k) /\ In i (Interactions db') /\
        hasInteraction db' userId articleId k = inr true /\
        Users db' = Users db /\ Articles db' = Articles db /\
        (forall now', createInteraction db' userId articleId k now' = inr (db', i)) /\
        (uniqueInteractions db -> uniqueInteractions db') /\
        match find (sameTriple u a k) (Interactions db) with
        | Some existing => db' = db /\ i = existing
        | None =>
            Interactions db' = Interactions db ++ [i] /\ Interaction.createdAt i = now
        end
  | _, _ =>
      exists message,
        createInteraction db userId articleId k now = inl message /\
        JS.includes message "Cast to ObjectId failed" = true
  end.
Proof.
  destruct (Mongoose.castObjectId userId) as [u|] eqn:Hu;
    [destruct (Mongoose.castObjectId articleId) as [a|] eqn:Ha |].
  - rewrite (createInteraction_cases db userId articleId u a k now Hu Ha).
    destruct (find (sameTriple u a k) (Interactions db)) as [e|] eqn:E.
    + exists db, e.
      pose proof (find_some _ _ E) as [Hin Ht]. apply sameTriple_iff in Ht.
      split; [reflexivity |]. split; [exact Ht |]. split; [exact Hin |].
      split.
      { rewrite (hasInteraction_cases db userId articleId u a k Hu Ha).
        now rewrite existsb_find, E. }
      split; [reflexivity |]. split; [reflexivity |].
      split.
      { intros now'.
        rewrite (createInteraction_cases db userId articleId u a k now' Hu Ha).
        now rewrite E. }
      split; [trivial | split; reflexivity].
    + cbv zeta.
      set (i := {| Interaction.userId := u; Interaction.articleId := a;
                   Interaction.interactionType := k; Interaction.createdAt := now |}).
      set (db' := withInteractions db (Interactions db ++ [i])).
      exists db', i.
      assert (F : find (sameTriple u a k) (Interactions db') = Some i).
      { unfold db', withInteractions. cbn [Interactions].
        apply find_app_new; [exact E | apply (sameTriple_self i)]. }
      split; [reflexivity |]. split; [reflexivity |].
      split; [unfold db'; cbn [withInteractions Interactions];
              apply in_or_app; right; now left |].
      split.
      { rewrite (hasInteraction_cases db' userId articleId u a k Hu Ha).
        now rewrite existsb_find, F. }
      split; [reflexivity |]. split; [reflexivity |].
      split.
      { intros now'.
        rewrite (createInteraction_cases db' userId articleId u a k now' Hu Ha).
        now rewrite F. }
      split; [| split; reflexivity].
      unfold uniqueInteractions, db'. cbn [withInteractions Interactions]. intros Hun.
      rewrite map_app. apply NoDup_app; [exact Hun | repeat constructor; tauto |].
      intros t Ht [<- | []]. now apply (find_None_not_In u a k _ E).
  - destruct (castFilter userId articleId) as [message | [u' a']] eqn:F;
      [| rewrite castFilter_cases, Hu, Ha in F; discriminate].
    rewrite (createInteraction_refused db userId articleId message k now F).
    apply castFilter_refused in F as [Hs _].
    apply startsWith_iff in Hs as [rest ->].
    eexists. split; [reflexivity |].
    destruct (_ || _).
    + apply includes_iff. now exists ""%string, rest.
    + apply includes_app_r, includes_iff. now exists ""%string, rest.
  - destruct (castFilter userId articleId) as [message | [u' a']] eqn:F;
      [| rewrite castFilter_cases, Hu in F; discriminate].
    rewrite (createInteraction_refused db userId articleId message k now F).
    apply castFilter_refused in F as [Hs _].
    apply startsWith_iff in Hs as [rest ->].
    eexists. split; [reflexivity |].
    destruct (_ || _).
    + apply includes_iff. now exists ""%string, rest.
    + apply includes_app_r, includes_iff. now exists ""%string, rest.
Qed.

(** X15.  In a store without duplicates, removeInteraction on two
    identifiers reports whether the interaction existed, leaves a store
    without duplicates in which it no longer exists, leaves every
    interaction of another user, article or kind as it was, and changes
    nothing at all when there was nothing to remove; on a string that is no
    identifier it fails with the error of the cast under the prefix of the
    method. *)
Theorem removeInteraction_removes (db : Database) (userId articleId : string)
    (k : InteractionType) :
  uniqueInteractions db ->
  match Mongoose.castObjectId userId, Mongoose.castObjectId articleId with
  | Some u, Some a =>
      exists db' removed,
        removeInteraction db userId articleId k = inr (db', removed) /\
        hasInteraction db userId articleId k = inr removed /\
        hasInteraction db' userId articleId k = inr false /\
        uniqueInteractions db' /\
        Users db' = Users db /\ Articles db' = Articles db /\
        (forall u' a' k', (u', a', k') <> (u, a, k) ->
                          find (sameTriple u' a' k') (Interactions db')
                          = find (sameTriple u' a' k') (Interactions db)) /\
        (removed = false -> db' = db) /\
        (removed = true ->
         JS.len (Interactions db') = (JS.len (Interactions db) - 1)%Z)
  | _, _ =>
      exists message,
        removeInteraction db userId articleId k
        = inl ("Failed to remove interaction: " ++ message)%string /\
        JS.startsWith message "Cast to ObjectId failed" = true
  end.
Proof.
  intros Hun. unfold removeInteraction.
  pose proof (castFilter_cases userId articleId) as Hc.
  destruct (Mongoose.castObjectId userId) as [u|] eqn:Hu;
    [destruct (Mongoose.castObjectId articleId) as [a|] eqn:Ha |].
  - rewrite Hc. cbv zeta.
    eexists. eexists. split; [reflexivity |].
    rewrite (hasInteraction_cases db userId articleId u a k Hu Ha).
    rewrite (hasInteraction_cases _ userId articleId u a k Hu Ha).
    cbn [withInteractions Interactions Users Articles].
    rewrite !existsb_find.
    split; [reflexivity |]. split; [now rewrite deleteFirst_gone |].
    split; [unfold uniqueInteractions; cbn [Interactions];
            now apply deleteFirst_NoDup |].
    split; [reflexivity |]. split; [reflexivity |]. split; [| split].
    + intros u' a' k' Hne. apply deleteFirst_other.
      intros i Hi. apply sameTriple_iff in Hi.
      destruct (sameTriple u' a' k' i) eqn:E; [| reflexivity].
      apply sameTriple_iff in E. congruence.
    + destruct (find _ (Interactions db)) eqn:E; [discriminate |]. intros _.
      rewrite deleteFirst_find_None by exact E. apply withInteractions_same.
    + destruct (find _ (Interactions db)) as [e|] eqn:E; [| discriminate]. intros _.
      unfold JS.len. pose proof (deleteFirst_length _ _ _ E). lia.
  - rewrite Hc. eexists. split; reflexivity.
  - rewrite Hc. eexists. split; reflexivity.
Qed.

Lemma removeInteraction_removes_witness :
  exists db',
    removeInteraction small (userOid 1) (articleOid 5) view = inr (db', true) /\
    hasInteraction db' (userOid 1) (articleOid 5) view = inr false /\
    JS.len (Interactions db') = 15%Z.
Proof.
  assert (Hu : uniqueInteractions small)
    by (apply distinctTriples_NoDup; vm_compute; reflexivity).
  destruct (removeInteraction_removes small (userOid 1) (articleOid 5) view Hu)
    as [db' [removed [H1 [H2 [H3 [_ [_ [_ [_ [_ H9]]]]]]]]]].
  assert (Hr : removed = true).
  { assert (E : hasInteraction small (userOid 1) (articleOid 5) view = inr true)
      by (vm_compute; reflexivity).
    rewrite E in H2. now injection H2. }
  subst removed. exists db'. split; [exact H1 |]. split; [exact H3 |].
  rewrite (H9 eq_refl). vm_compute; reflexivity.
Defined.




(** X18.  Recording a view of an article that the store does not hold
    breaks the engine for the viewer: createInteraction accepts the two
    identifiers whether the article exists or not, and afterwards, while the
    history of the user fits in the 1000 interactions the engine reads,
    getRecommendationsForUser fails for that user whatever the limit; and
    while the store holds fewer than 1000 interactions getTrendingArticles
    fails as well. *)
Theorem view_of_unknown_article_breaks_engine (db : Database)
    (userId articleId : string) (now : Z) (u : User.t) :
  UserService.getUserById db userId = Some u ->
  isObjectId userId = true -> isObjectId articleId = true ->
  articleExists db articleId = false ->
  (historyLength db userId < 1000)%nat ->
  exists db' i,
    createInteraction db userId articleId view now = inr (db', i) /\
    (forall limit,
       getRecommendationsForUser db' userId limit
       = inl ("Failed to generate recommendations: "
                ++ JS.nullProperty "toString")%string) /\
    ((List.length (Interactions db) < 1000)%nat ->
     forall limit,
       getTrendingArticles db' limit
       = inl ("Failed to get trending articles: "
                ++ JS.nullProperty "toString")%string).
Proof.
  intros Hu Hid Haid Hmissing Hh.
  assert (Cu : Mongoose.castObjectId userId = Some userId).
  { unfold isObjectId in Hid.
    destruct (Mongoose.castObjectId userId) as [o|]; [| discriminate].
    apply String.eqb_eq in Hid. now subst o. }
  assert (Ca : Mongoose.castObjectId articleId = Some articleId).
  { unfold isObjectId in Haid.
    destruct (Mongoose.castObjectId articleId) as [o|]; [| discriminate].
    apply String.eqb_eq in Haid. now subst o. }
  rewrite (createInteraction_cases db userId articleId userId articleId view now Cu Ca).
  assert (Hfail : forall db' i,
             Users db' = Users db -> Articles db' = Articles db ->
             In i (Interactions db') -> triple i = (userId, articleId, view) ->
             (historyLength db' userId <= 1000)%nat ->
             forall limit,
               getRecommendationsForUser db' userId limit
               = inl ("Failed to generate recommendations: "
                        ++ JS.nullProperty "toString")%string).
  { intros db' i HU HA Hi Ht Hh' limit. injection Ht as Hiu Hia Hik.
    pose proof (getRecommendationsForUser_cases db' userId limit) as Hc.
    assert (Hu' : UserService.getUserById db' userId = Some u)
      by (unfold UserService.getUserById; rewrite HU; exact Hu).
    rewrite Hu' in Hc.
    rewrite (forallb_false_In _ _ i) in Hc; [exact Hc | |].
    - now apply recentViews_In.
    - rewrite Hia. unfold articleExists. rewrite HA. exact Hmissing. }
  assert (Htrend : forall db' i,
             Articles db' = Articles db ->
             In i (Interactions db') -> Interaction.articleId i = articleId ->
             (List.length (Interactions db') <= 1000)%nat ->
             forall limit,
               getTrendingArticles db' limit
               = inl ("Failed to get trending articles: "
                        ++ JS.nullProperty "toString")%string).
  { intros db' i HA Hi Hia Hl limit. rewrite getTrendingArticles_spec.
    rewrite (forallb_false_In _ _ i); [reflexivity | |].
    - now apply recentInteractions_In.
    - rewrite Hia. unfold articleExists. rewrite HA. exact Hmissing. }
  destruct (find (sameTriple userId articleId view) (Interactions db)) as [e|] eqn:E.
  - pose proof (find_some _ _ E) as [Hin Ht]. apply sameTriple_iff in Ht.
    exists db, e. split; [reflexivity |]. split.
    + apply (Hfail db e); try reflexivity; try assumption. lia.
    + intros Hl. injection Ht as _ Hia _.
      apply (Htrend db e); try reflexivity; try assumption. lia.
  - cbv zeta.
    set (i := {| Interaction.userId := userId; Interaction.articleId := articleId;
                 Interaction.interactionType := view; Interaction.createdAt := now |}).
    set (db' := withInteractions db (Interactions db ++ [i])).
    assert (Hin : In i (Interactions db')).
    { unfold db'. cbn [withInteractions Interactions]. apply in_or_app. right. now left. }
    exists db', i. split; [reflexivity |]. split.
    + apply (Hfail db' i); try reflexivity; try assumption.
      unfold historyLength, db'. cbn [withInteractions Interactions].
      rewrite filter_app, length_app. cbn [filter Interaction.userId i].
      rewrite String.eqb_refl. unfold historyLength in Hh. simpl. lia.
    + intros Hl. apply (Htrend db' i); try reflexivity; try assumption.
      unfold db'. cbn [withInteractions Interactions]. rewrite length_app. simpl. lia.
Qed.

Lemma view_of_unknown_article_breaks_engine_witness :
  exists db' i,
    createInteraction small (userOid 1) (articleOid 99) view 40 = inr (db', i) /\
    getRecommendationsForUser db' (userOid 1) 10
    = inl ("Failed to generate recommendations: "
             ++ JS.nullProperty "toString")%string /\
    getTrendingArticles db' 5
    = inl ("Failed to get trending articles: "
             ++ JS.nullProperty "toString")%string.
Proof.
  destruct (view_of_unknown_article_breaks_engine small (userOid 1) (articleOid 99) 40
              (mkUser 1 "reader" ["tech"%string])
              eq_refl eq_refl eq_refl eq_refl ltac:(vm_compute; lia))
    as [db' [i [H1 [H2 H3]]]].
  exists db', i. split; [exact H1 |]. split; [apply H2 |].
  apply H3. vm_compute; lia.
Defined.
End InteractionExtras.

(** * Users *)

Section UserExtras.
Import InteractionService RecommendationService Spec Sample.
Import UserServiceRest.





Lemma toLowerCase_idempotent (s : string) :
  JS.toLowerCase (JS.toLowerCase s) = JS.toLowerCase s.
Proof.
  induction s as [|c s IH]; simpl; [reflexivity |]. rewrite IH. f_equal.
  unfold JS.lowerChar at 1.
  destruct (JS.isUpper (JS.lowerChar c)) eqn:E; [| reflexivity].
  exfalso. revert E. unfold JS.lowerChar.
  destruct c as [[] [] [] [] [] [] [] []]; vm_compute; discriminate.
Qed.

Lemma isWhiteSpace_lowerChar (c : ascii) :
  JS.isWhiteSpace (JS.lowerChar c) = JS.isWhiteSpace c.
Proof.
  destruct c as [[] [] [] [] [] [] [] []]; vm_compute; reflexivity.
Qed.

Lemma trimStart_toLowerCase (s : string) :
  JS.trimStart (JS.toLowerCase s) = JS.toLowerCase (JS.trimStart s).
Proof.
  induction s as [|c s IH]; [reflexivity |].
  cbn [JS.toLowerCase JS.trimStart]. rewrite isWhiteSpace_lowerChar.
  destruct (JS.isWhiteSpace c); [exact IH | reflexivity].
Qed.

Lemma trimEnd_toLowerCase (s : string) :
  JS.trimEnd (JS.toLowerCase s) = JS.toLowerCase (JS.trimEnd s).
Proof.
  induction s as [|c s IH]; [reflexivity |].
  cbn [JS.toLowerCase JS.trimEnd]. rewrite IH, isWhiteSpace_lowerChar.
  destruct (JS.trimEnd s); cbn [JS.toLowerCase]; [| reflexivity].
  now destruct (JS.isWhiteSpace c).
Qed.

(** The two setters of the schema can be applied in either order. *)
Lemma trim_toLowerCase (s : string) :
  JS.trim (JS.toLowerCase s) = JS.toLowerCase (JS.trim s).
Proof.
  unfold JS.trim. now rewrite trimStart_toLowerCase, trimEnd_toLowerCase.
Qed.

(** X21.  Looking a user up by name ignores the letter case of the name
    asked for and the white space around it: the name is lowered by the
    method and then passed through the setters of the schema, which trim and
    lower it, in either order.  The user found has the trimmed and lowered
    name as username, usernameExists tells whether some user has it, and two
    names that differ in letter case or in surrounding white space only give
    the same answer. *)
Theorem username_lookup_ignores_case (db : Database) (username : string) :
  let name := JS.trim (JS.toLowerCase username) in
  name = JS.toLowerCase (JS.trim username) /\
  match getUserByUsername db username with
  | Some u => In u (Users db) /\ User.username u = name
  | None => Forall (fun u => User.username u <> name) (Users db)
  end /\
  (usernameExists db username = true <->
   exists u, In u (Users db) /\ User.username u = name) /\
  (forall other, JS.trim (JS.toLowerCase other) = name ->
                 getUserByUsername db other = getUserByUsername db username /\
                 usernameExists db other = usernameExists db username).
Proof.
  intros name.
  assert (Hq : forall s, setUsername (JS.toLowerCase s) = JS.trim (JS.toLowerCase s)).
  { intros s. unfold setUsername. now rewrite toLowerCase_idempotent. }
  assert (H1 : match getUserByUsername db username with
               | Some u => In u (Users db) /\ User.username u = name
               | None => Forall (fun u => User.username u <> name) (Users db)
               end).
  { unfold getUserByUsername. rewrite Hq. fold name.
    destruct (find _ (Users db)) as [u|] eqn:E.
    - apply find_some in E as [Hin E]. now apply String.eqb_eq in E.
    - apply Forall_forall. intros u Hin Hn. apply (find_none _ _ E) in Hin.
      apply String.eqb_neq in Hin. contradiction. }
  split; [apply trim_toLowerCase |]. split; [exact H1 |]. split.
  - unfold usernameExists. destruct (getUserByUsername db username) as [u|].
    + split; [intros _; now exists u | reflexivity].
    + split; [discriminate |]. intros [u [Hin Hn]].
      rewrite Forall_forall in H1. now apply H1 in Hin.
  - intros other Ho.
    assert (E : getUserByUsername db other = getUserByUsername db username).
    { unfold getUserByUsername. rewrite !Hq. fold name. now rewrite Ho. }
    split; [exact E |]. unfold usernameExists. now rewrite E.
Qed.

Lemma username_lookup_ignores_case_witness :
  getUserByUsername small "  Reader " = getUserByUsername small "reader" /\
  usernameExists small "  Reader " = usernameExists small "reader".
Proof.
  exact (proj2 (proj2 (proj2 (username_lookup_ignores_case small "reader")))
           "  Reader "%string eq_refl).
Defined.
End UserExtras.

(** * Masking the database address *)

Section UtilsFacts.
Import Utils Spec.
Local Open Scope string_scope.

Lemma takeWhile_app (p : ascii -> bool) (a rest : string) :
  allChars p a = true -> stopsAt p rest ->
  takeWhile p (a ++ rest) = a /\ dropWhile p (a ++ rest) = rest.
Proof.
  intros Ha Hr. induction a as [|c a IH]; simpl in *.
  - destruct rest as [|c r]; [now split |]. simpl in Hr |- *. now rewrite Hr.
  - apply andb_true_iff in Ha as [Hc Ha]. rewrite Hc.
    destruct (IH Ha) as [-> ->]. now split.
Qed.

Lemma split_head (sep : ascii) (s : string) :
  exists parts, split sep s = takeWhile (isNot sep) s :: parts.
Proof.
  induction s as [|c s [parts IH]]; simpl; [now exists [] |].
  unfold isNot at 1. destruct (Ascii.eqb c sep); simpl.
  - now eexists.
  - rewrite IH. now eexists.
Qed.

Lemma split_app (sep : ascii) (a b : string) :
  allChars (isNot sep) a = true ->
  split sep (a ++ String sep b) = a :: split sep b.
Proof.
  intros Ha. induction a as [|c a IH]; simpl in *.
  - now rewrite Ascii.eqb_refl.
  - apply andb_true_iff in Ha as [Hc Ha]. unfold isNot in Hc.
    apply negb_true_iff in Hc. rewrite Hc, (IH Ha). reflexivity.
Qed.

Lemma allChars_app (p : ascii -> bool) (a b : string) :
  allChars p (a ++ b) = allChars p a && allChars p b.
Proof.
  induction a as [|c a IH]; simpl; [reflexivity |]. now rewrite IH, andb_assoc.
Qed.

Lemma includes_prefix (p s : string) : JS.includes (p ++ s) p = true.
Proof.
  apply includes_iff. now exists "", s.
Qed.

Lemma startsWith_prefix (p s : string) : JS.startsWith (p ++ s) p = true.
Proof.
  apply startsWith_iff. now exists s.
Qed.

Lemma replaceCredentials_skip (c : ascii) (rest : string) :
  Ascii.eqb c "/" = false ->
  replaceCredentials (String c rest) = String c (replaceCredentials rest).
Proof.
  intros Hc. destruct rest as [|c' rest']; [reflexivity |].
  cbn [replaceCredentials]. rewrite Hc. reflexivity.
Qed.

(** The replacement of the credentials after the two slashes that end a
    scheme without slashes. *)
Lemma replaceCredentials_scheme (scheme cred tail : string) :
  allChars (isNot "/") scheme = true ->
  cred <> "" -> allChars (isNot "@") cred = true ->
  replaceCredentials (scheme ++ "//" ++ cred ++ "@" ++ tail)
  = scheme ++ "//***:***@" ++ tail.
Proof.
  intros Hs Hne Hc.
  destruct (takeWhile_app (isNot "@") cred ("@" ++ tail) Hc eq_refl) as [Ht Hd].
  induction scheme as [|c scheme IH].
  - change (replaceCredentials (String "/" (String "/" (cred ++ "@" ++ tail)))
            = "//***:***@" ++ tail).
    unfold replaceCredentials. rewrite Ht, Hd.
    destruct cred; [contradiction | reflexivity].
  - simpl in Hs. apply andb_true_iff in Hs as [Hc' Hs].
    unfold isNot in Hc'. apply negb_true_iff in Hc'.
    change ((String c scheme) ++ "//" ++ cred ++ "@" ++ tail)
      with (String c (scheme ++ "//" ++ cred ++ "@" ++ tail)).
    rewrite (replaceCredentials_skip _ _ Hc'), (IH Hs). reflexivity.
Qed.

Lemma dbMatch_nonempty (hostPart d : string) :
  dbMatch hostPart = Some d -> d <> "".
Proof.
  induction hostPart as [|c rest IH]; simpl; [discriminate |].
  destruct (Ascii.eqb c "/"); [| exact IH].
  destruct (takeWhile (isNot "?") rest); [exact IH |].
  intros [= <-]. discriminate.
Qed.

(** What maskDatabaseUri gives for an address with one of the two MongoDB
    protocols and credentials. *)
Lemma maskDatabaseUri_mongo (protocol cred tail : string) :
  protocol = "mongodb://" \/ protocol = "mongodb+srv://" ->
  cred <> "" -> allChars (isNot "@") cred = true ->
  maskDatabaseUri (protocol ++ cred ++ "@" ++ tail)
  = let hostPart := takeWhile (isNot "@") tail in
    protocol ++ "***:***@"
    ++ (if String.eqb hostPart "" then tail
        else (match hostMatch hostPart with
              | Some h => h
              | None => takeWhile (isNot "/") hostPart
              end)
             ++ (match dbMatch hostPart with
                 | Some d => "/" ++ d
                 | None => ""
                 end)).
Proof.
  intros Hp Hne Hc. cbv zeta. unfold maskDatabaseUri.
  assert (Hnonempty : String.eqb (protocol ++ cred ++ "@" ++ tail) "" = false)
    by (destruct Hp as [-> | ->]; reflexivity).
  assert (Hinc : JS.includes (protocol ++ cred ++ "@" ++ tail) "mongodb+srv://"
                 || JS.includes (protocol ++ cred ++ "@" ++ tail) "mongodb://" = true).
  { destruct Hp as [-> | ->].
    - rewrite (includes_prefix "mongodb://"). apply orb_true_r.
    - now rewrite (includes_prefix "mongodb+srv://"). }
  assert (Hstart : (if JS.startsWith (protocol ++ cred ++ "@" ++ tail) "mongodb+srv://"
                    then "mongodb+srv://" else "mongodb://") = protocol).
  { destruct Hp as [-> | ->]; [reflexivity |].
    now rewrite (startsWith_prefix "mongodb+srv://"). }
  assert (Hat : JS.includes (protocol ++ cred ++ "@" ++ tail) "@" = true).
  { apply includes_iff. exists (protocol ++ cred), tail.
    now rewrite !string_app_assoc. }
  assert (Hsplit : exists parts,
             split "@" (protocol ++ cred ++ "@" ++ tail)
             = (protocol ++ cred) :: takeWhile (isNot "@") tail :: parts).
  { destruct (split_head "@" tail) as [parts Hparts]. exists parts.
    rewrite <- Hparts, <- string_app_assoc.
    apply (split_app "@" (protocol ++ cred) tail).
    rewrite allChars_app, Hc. destruct Hp as [-> | ->]; reflexivity. }
  destruct Hsplit as [parts Hsplit].
  assert (Hfallback : replaceCredentials (protocol ++ cred ++ "@" ++ tail)
                      = protocol ++ "***:***@" ++ tail).
  { destruct Hp as [-> | ->].
    - exact (replaceCredentials_scheme "mongodb:" cred tail eq_refl Hne Hc).
    - exact (replaceCredentials_scheme "mongodb+srv:" cred tail eq_refl Hne Hc). }
  rewrite Hnonempty, Hinc, Hstart, Hat, Hsplit, Hfallback.
  destruct (String.eqb (takeWhile (isNot "@") tail) ""); [reflexivity |].
  f_equal. f_equal. f_equal.
  - destruct (hostMatch _); [reflexivity |].
    destruct (split_head "/" (takeWhile (isNot "@") tail)) as [ps ->]. reflexivity.
  - destruct (dbMatch _) as [d|] eqn:Hd; [| reflexivity].
    destruct d; [| reflexivity].
    now apply dbMatch_nonempty in Hd.
Qed.
Lemma allChars_of_includes (c : ascii) (s : string) :
  JS.includes s (String c "") = false -> allChars (isNot c) s = true.
Proof.
  induction s as [|x s IH]; [reflexivity |].
  cbn [JS.includes JS.startsWith allChars]. intros H.
  apply orb_false_iff in H as [Hx Hs]. rewrite (IH Hs), andb_true_r.
  unfold isNot. rewrite Ascii.eqb_sym. destruct (Ascii.eqb c x); [| reflexivity].
  destruct s; discriminate.
Qed.

Lemma dropWhile_all (p : ascii -> bool) (s : string) :
  allChars p s = true -> dropWhile p s = "".
Proof.
  induction s as [|c s IH]; simpl; [reflexivity |].
  intros H. apply andb_true_iff in H as [-> H]. exact (IH H).
Qed.

Lemma replaceCredentials_no_at (uri : string) :
  allChars (isNot "@") uri = true -> replaceCredentials uri = uri.
Proof.
  induction uri as [|c rest IH]; [reflexivity |].
  intros H. cbn [allChars] in H. apply andb_true_iff in H as [_ H].
  specialize (IH H). destruct rest as [|c' rest']; [reflexivity |].
  assert (E : replaceCredentials (String c (String c' rest'))
              = if Ascii.eqb c "/" && Ascii.eqb c' "/"
                then match takeWhile (isNot "@") rest', dropWhile (isNot "@") rest' with
                     | String _ _, String _ after => "//***:***@" ++ after
                     | _, _ => String c (replaceCredentials (String c' rest'))
                     end
                else String c (replaceCredentials (String c' rest')))
    by reflexivity.
  cbn [allChars] in H. apply andb_true_iff in H as [_ H].
  rewrite E, IH, (dropWhile_all _ _ H).
  destruct (Ascii.eqb c "/" && Ascii.eqb c' "/"); [| reflexivity].
  destruct (takeWhile (isNot "@") rest'); reflexivity.
Qed.

Lemma hostMatch_host (host rest : string) :
  host <> "" ->
  allChars (fun c => isNot "/" c && isNot "?" c) host = true ->
  stopsAt (fun c => isNot "/" c && isNot "?" c) rest ->
  hostMatch (host ++ rest) = Some host.
Proof.
  intros Hne Hh Hr. unfold hostMatch.
  destruct (takeWhile_app _ host rest Hh Hr) as [-> _].
  destruct host; [contradiction | reflexivity].
Qed.

Lemma dbMatch_host (host db rest : string) :
  allChars (fun c => isNot "/" c && isNot "?" c) host = true ->
  db <> "" -> allChars (isNot "?") db = true -> stopsAt (isNot "?") rest ->
  dbMatch (host ++ "/" ++ db ++ rest) = Some db.
Proof.
  intros Hh Hne Hd Hr. induction host as [|c host IH].
  - change (dbMatch (String "/" (db ++ rest)) = Some db). cbn [dbMatch].
    cbn [Ascii.eqb Bool.eqb andb].
    destruct (takeWhile_app _ db rest Hd Hr) as [-> _].
    destruct db; [contradiction | reflexivity].
  - cbn [allChars] in Hh. apply andb_true_iff in Hh as [Hc Hh].
    apply andb_true_iff in Hc as [Hc _]. unfold isNot in Hc.
    apply negb_true_iff in Hc.
    change (dbMatch (String c (host ++ "/" ++ db ++ rest)) = Some db).
    cbn [dbMatch]. rewrite Hc. exact (IH Hh).
Qed.

Lemma dbMatch_no_slash (s : string) :
  allChars (isNot "/") s = true -> dbMatch s = None.
Proof.
  induction s as [|c s IH]; [reflexivity |].
  cbn [allChars dbMatch]. intros H. apply andb_true_iff in H as [Hc H].
  unfold isNot in Hc. apply negb_true_iff in Hc. rewrite Hc. exact (IH H).
Qed.

Lemma allChars_weaken (p q : ascii -> bool) (s : string) :
  (forall c, p c = true -> q c = true) ->
  allChars p s = true -> allChars q s = true.
Proof.
  intros Hpq. induction s as [|c s IH]; [reflexivity |].
  cbn [allChars]. intros H. apply andb_true_iff in H as [Hc H].
  now rewrite (Hpq c Hc), (IH H).
Qed.

Lemma takeWhile_app_all (p : ascii -> bool) (a b : string) :
  allChars p a = true -> takeWhile p (a ++ b) = a ++ takeWhile p b.
Proof.
  intros Ha. induction a as [|c a IH]; [reflexivity |].
  cbn [allChars] in Ha. apply andb_true_iff in Ha as [Hc Ha].
  change (takeWhile p (String c (a ++ b)) = String c (a ++ takeWhile p b)).
  cbn [takeWhile]. now rewrite Hc, (IH Ha).
Qed.

Lemma stopsAt_takeWhile (p q : ascii -> bool) (s : string) :
  stopsAt p s -> stopsAt p (takeWhile q s).
Proof.
  destruct s as [|c s]; [trivial |]. cbn [stopsAt takeWhile].
  intros H. now destruct (q c).
Qed.

Lemma string_app_nil_r (a : string) : a ++ "" = a.
Proof.
  induction a as [|c a IH]; [reflexivity |]. cbn [append]. now rewrite IH.
Qed.

Lemma string_app_nonempty (a b : string) : a <> "" -> (a ++ b =? "") = false.
Proof.
  destruct a; [contradiction | reflexivity].
Qed.

(** ** The properties of the masking *)

(** X22. The credentials of a MongoDB address never reach the masked
    text: for either MongoDB protocol, two addresses that differ only in
    their credentials (not empty, without an at sign) are masked to the same
    text, which puts the stars where the credentials were. *)
Theorem maskDatabaseUri_hides_credentials (protocol cred cred' tail : string) :
  protocol = "mongodb://" \/ protocol = "mongodb+srv://" ->
  cred <> "" -> allChars (isNot "@") cred = true ->
  cred' <> "" -> allChars (isNot "@") cred' = true ->
  maskDatabaseUri (protocol ++ cred ++ "@" ++ tail)
  = maskDatabaseUri (protocol ++ cred' ++ "@" ++ tail)
  /\ JS.startsWith (maskDatabaseUri (protocol ++ cred ++ "@" ++ tail))
       (protocol ++ "***:***@") = true.
Proof.
  intros Hp Hne Hc Hne' Hc'.
  rewrite (maskDatabaseUri_mongo protocol cred tail Hp Hne Hc).
  rewrite (maskDatabaseUri_mongo protocol cred' tail Hp Hne' Hc').
  split; [reflexivity |]. cbv zeta.
  rewrite <- string_app_assoc. apply startsWith_prefix.
Qed.

Lemma maskDatabaseUri_hides_credentials_witness :
  maskDatabaseUri ("mongodb+srv://" ++ "admin:secret" ++ "@" ++ "cluster0.example.net/news?w=1")
  = maskDatabaseUri ("mongodb+srv://" ++ "x:y" ++ "@" ++ "cluster0.example.net/news?w=1")
  /\ JS.startsWith
       (maskDatabaseUri ("mongodb+srv://" ++ "admin:secret" ++ "@" ++ "cluster0.example.net/news?w=1"))
       ("mongodb+srv://" ++ "***:***@") = true.
Proof.
  apply (maskDatabaseUri_hides_credentials "mongodb+srv://" "admin:secret" "x:y"
           "cluster0.example.net/news?w=1");
    [right; reflexivity | discriminate | reflexivity | discriminate | reflexivity].
Defined.
(** X23. An address of the usual form, protocol credentials at-sign host
    slash database and an optional query, is masked to the protocol, the
    stars, the host and the database: the credentials and the query are left
    out. *)
Theorem maskDatabaseUri_standard_form
  (protocol cred host db query : string) :
  protocol = "mongodb://" \/ protocol = "mongodb+srv://" ->
  cred <> "" -> allChars (isNot "@") cred = true ->
  host <> "" ->
  allChars (fun c => isNot "/" c && isNot "?" c && isNot "@" c) host = true ->
  db <> "" -> allChars (fun c => isNot "?" c && isNot "@" c) db = true ->
  stopsAt (isNot "?") query ->
  maskDatabaseUri (protocol ++ cred ++ "@" ++ host ++ "/" ++ db ++ query)
  = protocol ++ "***:***@" ++ host ++ "/" ++ db.
Proof.
  intros Hp Hne Hc Hhost Hh Hdb Hd Hq.
  rewrite (maskDatabaseUri_mongo protocol cred _ Hp Hne Hc). cbv zeta.
  assert (Hh1 : allChars (fun c => isNot "/" c && isNot "?" c) host = true).
  { revert Hh. apply allChars_weaken. intros c H.
    now apply andb_true_iff in H as [-> _]. }
  assert (Hh2 : allChars (isNot "@") host = true).
  { revert Hh. apply allChars_weaken. intros c H.
    now apply andb_true_iff in H as [_ ->]. }
  assert (Hd1 : allChars (isNot "?") db = true).
  { revert Hd. apply allChars_weaken. intros c H.
    now apply andb_true_iff in H as [-> _]. }
  assert (Hd2 : allChars (isNot "@") db = true).
  { revert Hd. apply allChars_weaken. intros c H.
    now apply andb_true_iff in H as [_ ->]. }
  assert (Hpart : takeWhile (isNot "@") (host ++ "/" ++ db ++ query)
                  = host ++ "/" ++ db ++ takeWhile (isNot "@") query).
  { rewrite (takeWhile_app_all _ host _ Hh2).
    change ("/" ++ db ++ query) with (String "/" (db ++ query)).
    cbn [takeWhile]. change (isNot "@" "/") with true. cbv iota.
    now rewrite (takeWhile_app_all _ db _ Hd2). }
  rewrite Hpart, (string_app_nonempty host _ Hhost).
  rewrite (hostMatch_host host ("/" ++ db ++ takeWhile (isNot "@") query)
             Hhost Hh1 eq_refl).
  rewrite (dbMatch_host host db _ Hh1 Hdb Hd1 (stopsAt_takeWhile _ _ _ Hq)).
  reflexivity.
Qed.

Lemma maskDatabaseUri_standard_form_witness :
  maskDatabaseUri
    ("mongodb://" ++ "admin:secret" ++ "@" ++ "db.example.net:27017" ++ "/"
     ++ "news" ++ "?retryWrites=true")
  = "mongodb://" ++ "***:***@" ++ "db.example.net:27017" ++ "/" ++ "news".
Proof.
  apply (maskDatabaseUri_standard_form "mongodb://" "admin:secret"
           "db.example.net:27017" "news" "?retryWrites=true");
    [left; reflexivity | discriminate | reflexivity | discriminate
    | reflexivity | discriminate | reflexivity | reflexivity].
Defined.

(** X24. An at sign inside the credentials cuts the address short: what
    stands between the first and the second at sign is shown in the place of
    the host, and the real host and database are not shown. *)
Theorem maskDatabaseUri_at_sign_in_password
  (protocol user middle rest : string) :
  protocol = "mongodb://" \/ protocol = "mongodb+srv://" ->
  user <> "" -> allChars (isNot "@") user = true ->
  middle <> "" ->
  allChars (fun c => isNot "/" c && isNot "?" c && isNot "@" c) middle = true ->
  maskDatabaseUri (protocol ++ user ++ "@" ++ middle ++ "@" ++ rest)
  = protocol ++ "***:***@" ++ middle.
Proof.
  intros Hp Hne Hc Hmid Hm.
  rewrite (maskDatabaseUri_mongo protocol user _ Hp Hne Hc). cbv zeta.
  assert (Hm1 : allChars (fun c => isNot "/" c && isNot "?" c) middle = true).
  { revert Hm. apply allChars_weaken. intros c H.
    now apply andb_true_iff in H as [-> _]. }
  assert (Hm2 : allChars (isNot "@") middle = true).
  { revert Hm. apply allChars_weaken. intros c H.
    now apply andb_true_iff in H as [_ ->]. }
  assert (Hm3 : allChars (isNot "/") middle = true).
  { revert Hm1. apply allChars_weaken. intros c H.
    now apply andb_true_iff in H as [-> _]. }
  destruct (takeWhile_app (isNot "@") middle ("@" ++ rest) Hm2 eq_refl) as [-> _].
  rewrite (dbMatch_no_slash _ Hm3).
  unfold hostMatch.
  destruct (takeWhile_app _ middle "" Hm1 I) as [Ht _].
  rewrite string_app_nil_r in Ht. rewrite Ht.
  destruct middle; [contradiction |]. cbn [String.eqb].
  now rewrite string_app_nil_r.
Qed.

Lemma maskDatabaseUri_at_sign_in_password_witness :
  maskDatabaseUri ("mongodb://" ++ "user:p" ++ "@" ++ "ss" ++ "@" ++ "host/db")
  = "mongodb://" ++ "***:***@" ++ "ss".
Proof.
  apply (maskDatabaseUri_at_sign_in_password "mongodb://" "user:p" "ss" "host/db");
    [left; reflexivity | discriminate | reflexivity | discriminate | reflexivity].
Defined.

(** X25. An address of another database (one that names neither MongoDB
    protocol) has the credentials between the two slashes and the at sign
    replaced by the stars, and everything else kept. *)
Theorem maskDatabaseUri_other_database (scheme cred tail : string) :
  JS.includes (scheme ++ "//" ++ cred ++ "@" ++ tail) "mongodb+srv://" = false ->
  JS.includes (scheme ++ "//" ++ cred ++ "@" ++ tail) "mongodb://" = false ->
  allChars (isNot "/") scheme = true ->
  cred <> "" -> allChars (isNot "@") cred = true ->
  maskDatabaseUri (scheme ++ "//" ++ cred ++ "@" ++ tail)
  = scheme ++ "//***:***@" ++ tail.
Proof.
  intros Hsrv Hmongo Hs Hne Hc. unfold maskDatabaseUri.
  rewrite Hsrv, Hmongo. cbn [orb].
  rewrite (replaceCredentials_scheme scheme cred tail Hs Hne Hc).
  destruct scheme; reflexivity.
Qed.

Lemma maskDatabaseUri_other_database_witness :
  maskDatabaseUri ("postgresql:" ++ "//" ++ "app:secret" ++ "@" ++ "db.example.net/news")
  = "postgresql:" ++ "//***:***@" ++ "db.example.net/news".
Proof.
  apply (maskDatabaseUri_other_database "postgresql:" "app:secret" "db.example.net/news");
    [reflexivity | reflexivity | reflexivity | discriminate | reflexivity].
Defined.

(** X26. An address without an at sign is shown as it is, whatever the
    database. *)
Theorem maskDatabaseUri_without_credentials (uri : string) :
  uri <> "" -> JS.includes uri "@" = false -> maskDatabaseUri uri = uri.
Proof.
  intros Hne Hat. unfold maskDatabaseUri. rewrite Hat.
  rewrite (replaceCredentials_no_at uri (allChars_of_includes "@" uri Hat)).
  destruct uri; [contradiction |]. cbn [String.eqb].
  now destruct (_ || _).
Qed.

Lemma maskDatabaseUri_without_credentials_witness :
  maskDatabaseUri "mongodb://localhost:27017/news" = "mongodb://localhost:27017/news".
Proof.
  apply (maskDatabaseUri_without_credentials "mongodb://localhost:27017/news");
    [discriminate | reflexivity].
Defined.

(** X27. isValidDatabaseUri and getDatabaseInfo agree on MongoDB: an
    address that the first accepts and the second reports as of unknown
    type starts with one of the three other prefixes, and the masked text
    getDatabaseInfo reports is the one of maskDatabaseUri. *)
Theorem accepted_unknown_is_not_mongo (uri : string) :
  isValidDatabaseUri uri = true ->
  type (getDatabaseInfo uri) = "Unknown" ->
  (JS.startsWith uri "postgresql://" || JS.startsWith uri "mysql://"
   || JS.startsWith uri "sqlite:" = true)
  /\ masked (getDatabaseInfo uri) = maskDatabaseUri uri.
Proof.
  unfold isValidDatabaseUri, getDatabaseInfo. cbn [type masked].
  intros Hvalid Htype. split; [| reflexivity].
  destruct (String.eqb uri ""); [discriminate |].
  cbn [existsb validPrefixes] in Hvalid. rewrite orb_false_r in Hvalid.
  destruct (JS.startsWith uri "mongodb://") eqn:Hm.
  - apply startsWith_iff in Hm as [s ->].
    rewrite (includes_prefix "mongodb://") in Htype.
    destruct (JS.includes _ "mongodb+srv://"); [discriminate |].
    destruct (JS.includes _ "localhost"); discriminate.
  - destruct (JS.startsWith uri "mongodb+srv://") eqn:Hsrv.
    + apply startsWith_iff in Hsrv as [s ->].
      rewrite (includes_prefix "mongodb+srv://") in Htype. discriminate.
    + cbn [orb] in Hvalid. now rewrite <- orb_assoc.
Qed.

Lemma accepted_unknown_is_not_mongo_witness :
  (JS.startsWith "mysql://db.example.net/news" "postgresql://"
   || JS.startsWith "mysql://db.example.net/news" "mysql://"
   || JS.startsWith "mysql://db.example.net/news" "sqlite:" = true)
  /\ masked (getDatabaseInfo "mysql://db.example.net/news")
     = maskDatabaseUri "mysql://db.example.net/news".
Proof.
  apply (accepted_unknown_is_not_mongo "mysql://db.example.net/news");
    reflexivity.
Defined.
End UtilsFacts.
